(** * Content moderation: a shallow embedding of the core and its properties

    The development follows the Python sources:
    - [moderation/utils.py]       : [preprocess_text], [generate_daily_metrics],
                                    [get_moderation_metrics],
                                    [_generate_sample_metrics]
    - [moderation/classifier.py]  : [ContentClassifier.classify_text], the
                                    constructor without a model file
    - [moderation/processor.py]   : [ContentProcessor.process_content],
                                    [ContentProcessor.batch_process],
                                    [ContentProcessor.update_moderation_status]
    - [moderation/train_model.py] : [evaluate_category]
    - [routes/admin.py]           : [update_status], [batch_action]
    - [routes/api.py]             : [moderate_content], [batch_moderate],
                                    [get_content], [trigger_metrics_generation]
    - [templates/jinja_filters.py]: [truncate_text], [format_flag_type],
                                    [flag_color], [status_color]
    - [models.py]                 : the record types

    Conventions.
    - Text is a list of characters.  The character classes of [str.lower],
      [str.split] and the [re] module are written out for the ASCII range, and
      the patterns of [preprocess_text] are run by a backtracking matcher with
      the priorities of [re] (leftmost match, greedy repetition).
    - Scores (Python floats) are rationals: the code only compares them, takes
      [max] and [min], and divides under a guard.
    - Exceptions, the SQLAlchemy session, the random generator and the logger
      are threaded through a small state-and-exception monad.  The session
      holds the committed tables and the view of the open transaction;
      [commit] publishes the view or raises, [rollback] restores it.
    - Everything the code obtains from outside (the fitted scikit-learn
      objects, [random.uniform], the clock, [hash], the explanation of a
      score, the database's answer to [flush] and [commit]) is read from an
      explicit environment.  Whatever the environment answers is allowed,
      except where a statement names a contract ([uniform_in_range],
      [proba_valid]).
    - One session at a time: concurrent transactions, column widths enforced
      by the database engine and exceptions outside [Exception] are not
      described.
    - A route is the function under its decorators: it takes the parsed
      request and gives the reply or the flash message; the login check, the
      parsing of the request and the rendering of the reply are not
      described. *)

From Stdlib Require Import List Bool Arith Lia Ascii String ZArith QArith Lqa.
Import ListNotations.

Set Implicit Arguments.

Local Open Scope nat_scope.
Local Open Scope list_scope.

(* ================================================================= *)
(** ** Python values: exceptions, floats as rationals, dictionaries *)

Module Py.

Inductive Exn : Type :=
| TypeError
| KeyError
| IndexError
| NotFittedError
| ZeroDivisionError
| DatabaseError
| OtherError.

Inductive Result (A : Type) : Type :=
| Ok (a : A)
| Raise (e : Exn).

Arguments Ok {A} a.
Arguments Raise {A} e.

(** [a < b] on floats. *)
Definition Qltb (a b : Q) : bool :=
  match Qcompare a b with
  | Lt => true
  | _ => false
  end.

(** [a >= b] on floats. *)
Definition Qgeb (a b : Q) : bool := negb (Qltb a b).

(** [max(a, b)]: the first argument unless the second is greater. *)
Definition py_max (a b : Q) : Q := if Qltb a b then b else a.

(** [min(a, b)]: the first argument unless the second is smaller. *)
Definition py_min (a b : Q) : Q := if Qltb b a then b else a.

Definition Q_of_nat (n : nat) : Q := inject_Z (Z.of_nat n).

(** A [dict] with string keys: an association list in insertion order, one
    entry per key. *)
Section Dict.
Variable V : Type.

Definition dict := list (string * V).

Definition keys (d : dict) : list string := map fst d.

(** [d.get(k)] *)
Fixpoint dict_get (d : dict) (k : string) : option V :=
  match d with
  | [] => None
  | (k', v) :: d' => if String.eqb k k' then Some v else dict_get d' k
  end.

(** [d[k] = v]: an existing key keeps its place. *)
Fixpoint dict_set (d : dict) (k : string) (v : V) : dict :=
  match d with
  | [] => [(k, v)]
  | (k', v') :: d' =>
      if String.eqb k k' then (k, v) :: d' else (k', v') :: dict_set d' k v
  end.

(** [not d] *)
Definition dict_empty (d : dict) : bool :=
  match d with
  | [] => true
  | _ => false
  end.
End Dict.

End Py.

(* ================================================================= *)
(** ** Text and regular expressions ([re], [str]) *)

Module Text.

Definition text := list ascii.

Definition str (s : string) : text := list_ascii_of_string s.

Definition code (c : ascii) : nat := nat_of_ascii c.

(** [str.isspace] on ASCII: TAB..CR, FS..US and the blank.  The same class is
    [\s] for a [str] pattern. *)
Definition is_space (c : ascii) : bool :=
  ((9 <=? code c) && (code c <=? 13)) || ((28 <=? code c) && (code c <=? 32)).

Definition is_digit (c : ascii) : bool := (48 <=? code c) && (code c <=? 57).
Definition is_upper (c : ascii) : bool := (65 <=? code c) && (code c <=? 90).
Definition is_lower (c : ascii) : bool := (97 <=? code c) && (code c <=? 122).

(** [\w] on ASCII: letters, digits and the underscore. *)
Definition is_word (c : ascii) : bool :=
  is_digit c || is_upper c || is_lower c || (code c =? 95).

Definition lower_char (c : ascii) : ascii :=
  if is_upper c then ascii_of_nat (code c + 32) else c.

Definition upper_char (c : ascii) : ascii :=
  if is_lower c then ascii_of_nat (code c - 32) else c.

(** [text.lower()] *)
Definition lower (s : text) : text := map lower_char s.

(** [text.upper()] *)
Definition upper (s : text) : text := map upper_char s.

(** [text.split()]: the maximal runs of non-whitespace characters; [cur] is
    the run being read. *)
Fixpoint split_from (cur : text) (s : text) : list text :=
  match s with
  | [] => match cur with [] => [] | _ => [cur] end
  | c :: s' =>
      if is_space c
      then match cur with
           | [] => split_from [] s'
           | _ => cur :: split_from [] s'
           end
      else split_from (cur ++ [c]) s'
  end.

Definition split (s : text) : list text := split_from [] s.

(** [sep.join(words)] *)
Fixpoint join (sep : text) (ws : list text) : text :=
  match ws with
  | [] => []
  | [w] => w
  | w :: ws' => w ++ sep ++ join sep ws'
  end.

(** [' '.join(text.split())] *)
Definition collapse (s : text) : text := join (str " ") (split s).

(** The fragment of [re] syntax used by [preprocess_text]. *)
Inductive regex : Type :=
| Lit (c : ascii)             (* a literal character          *)
| Cls (p : ascii -> bool)     (* a class: [\S], [[^\w\s]]     *)
| Seq (r1 r2 : regex)         (* r1 r2                        *)
| Alt (r1 r2 : regex)         (* r1|r2                        *)
| Opt (r : regex)             (* r? (greedy)                  *)
| Plus (p : ascii -> bool).   (* class+ (greedy)              *)

(** After one character of the class has been read: read more of them first,
    give back one at a time when the continuation fails. *)
Fixpoint plus_loop (p : ascii -> bool) (k : text -> option text) (s : text)
  : option text :=
  match s with
  | c :: s' =>
      if p c
      then match plus_loop p k s' with
           | Some r => Some r
           | None => k s
           end
      else k s
  | [] => k s
  end.

(** Backtracking matcher anchored at the head of [s]; the continuation [k]
    receives what is left of the text and the first success wins. *)
Fixpoint match_k (r : regex) (s : text) (k : text -> option text)
  : option text :=
  match r with
  | Lit c =>
      match s with
      | c' :: s' => if Ascii.eqb c c' then k s' else None
      | [] => None
      end
  | Cls p =>
      match s with
      | c' :: s' => if p c' then k s' else None
      | [] => None
      end
  | Seq r1 r2 => match_k r1 s (fun s' => match_k r2 s' k)
  | Alt r1 r2 =>
      match match_k r1 s k with
      | Some x => Some x
      | None => match_k r2 s k
      end
  | Opt r1 =>
      match match_k r1 s k with
      | Some x => Some x
      | None => k s
      end
  | Plus p =>
      match s with
      | c' :: s' => if p c' then plus_loop p k s' else None
      | [] => None
      end
  end.

(** [pattern.match(s)]: the text after the match. *)
Definition re_match (r : regex) (s : text) : option text := match_k r s Some.

(** [re.sub(r, repl, s)] for a pattern that matches no empty string: scan from
    the left, replace each match, resume after it.  [skip] counts the
    characters of the current match still to be passed over. *)
Fixpoint re_sub_from (r : regex) (repl : text) (skip : nat) (s : text) : text :=
  match s with
  | [] => []
  | c :: s' =>
      match skip with
      | S n => re_sub_from r repl n s'
      | O =>
          match re_match r s with
          | Some rest =>
              repl ++ re_sub_from r repl (List.length s' - List.length rest) s'
          | None => c :: re_sub_from r repl 0 s'
          end
      end
  end.

Definition re_sub (r : regex) (repl : text) (s : text) : text :=
  re_sub_from r repl 0 s.

(** A literal word followed by [r]. *)
Fixpoint lits (w : text) (r : regex) : regex :=
  match w with
  | [] => r
  | c :: w' => Seq (Lit c) (lits w' r)
  end.

Definition non_space (c : ascii) : bool := negb (is_space c).

(** [[^\w\s]] *)
Definition special (c : ascii) : bool := negb (is_word c) && negb (is_space c).

(** [https?://\S+|www\.\S+] *)
Definition url_re : regex :=
  Alt (lits (str "http") (Seq (Opt (Lit "s")) (lits (str "://") (Plus non_space))))
      (lits (str "www.") (Plus non_space)).

(** [\S+@\S+] *)
Definition email_re : regex := Seq (Plus non_space) (Seq (Lit "@") (Plus non_space)).

(** [[^\w\s]] *)
Definition special_re : regex := Cls special.

(** [\d+] *)
Definition digits_re : regex := Plus is_digit.

(** [preprocess_text(text)]; [None] is Python's [None]. *)
Definition preprocess_text (t : option text) : text :=
  match t with
  | None => []
  | Some [] => []
  | Some s =>
      let s := lower s in
      let s := collapse s in
      let s := re_sub url_re (str "[URL]") s in
      let s := re_sub email_re (str "[EMAIL]") s in
      let s := re_sub special_re (str " ") s in
      let s := re_sub digits_re (str "[NUM]") s in
      collapse s
  end.

(** The strings the model is exact for. *)
Definition ascii_text (s : text) : Prop :=
  forallb (fun c => code c <? 128) s = true.

End Text.

(* ================================================================= *)
(** ** The record types of [models.py] and the session *)

Module Models.
Import Py Text.

(** [content_metadata]: a JSON object; only its keys and printed values are
    used by the core. *)
Definition Metadata := dict text.

(** An explanation: [{'term': ..., 'coefficient': ...}] entries. *)
Definition Explanation := list (text * Q).

Record Content : Type := {
  c_id : option nat;              (* primary key, assigned by [flush] *)
  c_user_id : option nat;
  c_content_type : string;
  c_content_text : text;
  c_original_content : text;
  c_content_metadata : option Metadata;
  c_created_at : Z
}.

Record ModerationStatus : Type := {
  ms_content_id : option nat;
  ms_status : string;
  ms_moderation_score : Q;
  ms_is_automated : bool;
  ms_last_updated : Z;
  ms_processing_time : option Q
}.

Record ContentFlag : Type := {
  cf_content_id : option nat;
  cf_flag_type : string;
  cf_flag_score : Q;
  cf_flag_details : Explanation;
  cf_created_at : Z
}.

(** [action_notes]: the caller's text, or the f-string
    [f'Automated {status} with score {moderation_score:.2f}'] kept with its
    two fields. *)
Inductive Notes : Type :=
| UserNotes (t : text)
| AutomatedNotes (status : string) (score : Q).

Record ModerationAction : Type := {
  ma_content_id : option nat;
  ma_user_id : option nat;
  ma_action_type : string;
  ma_action_notes : option Notes;
  ma_previous_status : option string;
  ma_created_at : Z
}.

(** [metric_value]: the JSON payloads [generate_daily_metrics] writes. *)
Inductive MetricValue : Type :=
| DailyCount (count : nat) (date : Z)
| Histogram (h : dict nat)
| Average (q : Q).

Record ModerationMetric : Type := {
  mm_metric_date : Z;
  mm_metric_type : string;
  mm_metric_value : MetricValue
}.

Record Tables : Type := {
  contents : list Content;
  statuses : list ModerationStatus;
  flags : list ContentFlag;
  actions : list ModerationAction;
  metrics : list ModerationMetric
}.

(** [db.session]: what is committed, and the view of the open transaction. *)
Record Session : Type := {
  committed : Tables;
  working : Tables
}.

Inductive LogRecord : Type :=
| ContentNotFound (content_id : nat)
| StatusNotFound (content_id : nat)
| ErrorProcessingContent (e : Exn)
| ErrorUpdatingStatus (e : Exn)
| ErrorClassifying (category : string) (e : Exn)
| ErrorDailyMetrics (e : Exn)
| ErrorEvaluating (category : string) (e : Exn)
| ErrorInRoute (e : Exn).

(** The interpreter state a call can change. *)
Record World : Type := {
  w_session : Session;
  w_draws : nat;               (* numbers drawn from [random] so far *)
  w_log : list LogRecord
}.

(** What a call reads from outside. *)
Record Env : Type := {
  env_now : Z;                          (* [datetime.utcnow()], in microseconds *)
  env_elapsed : Q;                      (* [time.time() - start_time]           *)
  env_flush : option nat;               (* [flush]: the new key, [None] = raises *)
  env_commit : bool;                    (* [commit]: [false] = raises           *)
  env_uniform : Q -> Q -> nat -> Q;     (* [random.uniform(a, b)], n-th draw    *)
  env_hash : text -> Z;                 (* [hash]                               *)
  env_repr : option Metadata -> text;   (* [str(metadata)]                      *)
  env_explain : text -> string -> Result Explanation
                                        (* [get_explainability]                 *)
}.

(** [random.uniform] keeps its documented range. *)
Definition uniform_in_range (env : Env) : Prop :=
  forall (a b : Q) (n : nat), (a <= b)%Q ->
    (a <= env_uniform env a b n)%Q /\ (env_uniform env a b n <= b)%Q.

(** *** The monad of calls *)

Definition M (A : Type) : Type := World -> Result A * World.

Definition ret {A} (a : A) : M A := fun w => (Ok a, w).

Definition bind {A B} (m : M A) (f : A -> M B) : M B :=
  fun w =>
    match m w with
    | (Ok a, w') => f a w'
    | (Raise e, w') => (Raise e, w')
    end.

Definition raise {A} (e : Exn) : M A := fun w => (Raise e, w).

(** [try: body  except Exception as e: handler e] *)
Definition try_except {A} (body : M A) (handler : Exn -> M A) : M A :=
  fun w =>
    match body w with
    | (Ok a, w') => (Ok a, w')
    | (Raise e, w') => handler e w'
    end.

Definition lift {A} (r : Result A) : M A := fun w => (r, w).

Declare Scope py_scope.
Delimit Scope py_scope with py.
Notation "x <- c1 ;; c2" := (bind c1 (fun x => c2))
  (at level 61, c1 at next level, right associativity) : py_scope.
Notation "c1 ;; c2" := (bind c1 (fun _ => c2))
  (at level 61, right associativity) : py_scope.
Local Open Scope py_scope.

(** [for x in xs: acc = f acc x] *)
Fixpoint for_each {A B} (f : B -> A -> M B) (xs : list A) (acc : B) : M B :=
  match xs with
  | [] => ret acc
  | x :: xs' => acc' <- f acc x ;; for_each f xs' acc'
  end.

(** [logger.error(...)] *)
Definition log_error (r : LogRecord) : M unit :=
  fun w => (Ok tt, {| w_session := w_session w;
                      w_draws := w_draws w;
                      w_log := w_log w ++ [r] |}).

(** [random.uniform(a, b)] *)
Definition random_uniform (env : Env) (a b : Q) : M Q :=
  fun w => (Ok (env_uniform env a b (w_draws w)),
            {| w_session := w_session w;
               w_draws := S (w_draws w);
               w_log := w_log w |}).

Definition get_working : M Tables := fun w => (Ok (working (w_session w)), w).

Definition put_working (t : Tables) : M unit :=
  fun w => (Ok tt, {| w_session := {| committed := committed (w_session w);
                                      working := t |};
                      w_draws := w_draws w;
                      w_log := w_log w |}).

(** [db.session.commit()]: publishes the whole transaction, or raises and
    publishes nothing. *)
Definition session_commit (env : Env) : M unit :=
  fun w =>
    if env_commit env
    then (Ok tt, {| w_session := {| committed := working (w_session w);
                                    working := working (w_session w) |};
                    w_draws := w_draws w;
                    w_log := w_log w |})
    else (Raise DatabaseError, w).

(** [db.session.rollback()]: the transaction's changes are dropped; the
    rollback itself is taken not to raise. *)
Definition session_rollback : M unit :=
  fun w => (Ok tt, {| w_session := {| committed := committed (w_session w);
                                      working := committed (w_session w) |};
                      w_draws := w_draws w;
                      w_log := w_log w |}).

Definition with_contents (t : Tables) (l : list Content) : Tables :=
  {| contents := l; statuses := statuses t; flags := flags t;
     actions := actions t; metrics := metrics t |}.
Definition with_statuses (t : Tables) (l : list ModerationStatus) : Tables :=
  {| contents := contents t; statuses := l; flags := flags t;
     actions := actions t; metrics := metrics t |}.
Definition with_flags (t : Tables) (l : list ContentFlag) : Tables :=
  {| contents := contents t; statuses := statuses t; flags := l;
     actions := actions t; metrics := metrics t |}.
Definition with_actions (t : Tables) (l : list ModerationAction) : Tables :=
  {| contents := contents t; statuses := statuses t; flags := flags t;
     actions := l; metrics := metrics t |}.
Definition with_metrics (t : Tables) (l : list ModerationMetric) : Tables :=
  {| contents := contents t; statuses := statuses t; flags := flags t;
     actions := actions t; metrics := l |}.

(** [db.session.add(row)], one per table *)
Definition add_content (c : Content) : M unit :=
  t <- get_working ;; put_working (with_contents t (contents t ++ [c])).
Definition add_status (s : ModerationStatus) : M unit :=
  t <- get_working ;; put_working (with_statuses t (statuses t ++ [s])).
Definition add_flag (f : ContentFlag) : M unit :=
  t <- get_working ;; put_working (with_flags t (flags t ++ [f])).
Definition add_action (a : ModerationAction) : M unit :=
  t <- get_working ;; put_working (with_actions t (actions t ++ [a])).
Definition add_metric (m : ModerationMetric) : M unit :=
  t <- get_working ;; put_working (with_metrics t (metrics t ++ [m])).

Definition same_id (a b : option nat) : bool :=
  match a, b with
  | Some x, Some y => Nat.eqb x y
  | _, _ => false
  end.

(** [Content.query.get(content_id)] *)
Definition query_content (content_id : nat) : M (option Content) :=
  t <- get_working ;;
  ret (find (fun c => same_id (c_id c) (Some content_id)) (contents t)).

(** [ModerationStatus.query.filter_by(content_id=content_id).first()] *)
Definition query_status (content_id : nat) : M (option ModerationStatus) :=
  t <- get_working ;;
  ret (find (fun s => same_id (ms_content_id s) (Some content_id)) (statuses t)).

(** Attribute assignment on the row [first()] returned: the first row of the
    table that satisfies [p] is replaced. *)
Fixpoint update_first {A} (p : A -> bool) (f : A -> A) (l : list A) : list A :=
  match l with
  | [] => []
  | x :: l' => if p x then f x :: l' else x :: update_first p f l'
  end.

End Models.

(* ================================================================= *)
(** ** [moderation/classifier.py] *)

Module Classifier.
Import Py Text Models.
Local Open Scope py_scope.
Local Open Scope string_scope.

(** The TF-IDF row of one text. *)
Definition Features := list Q.

(** A scikit-learn vectorizer as the classifier sees it. *)
Record Vectorizer : Type := {
  vec_has_transform : bool;                 (* [hasattr(v, 'transform')]       *)
  vec_transform : text -> Result Features   (* [v.transform([text])]           *)
}.

(** A scikit-learn estimator as the classifier sees it. *)
Record Estimator : Type := {
  est_predict_proba : Features -> Result (list (list Q))
                                            (* [m.predict_proba(X)]: rows      *)
}.

Record ContentClassifier : Type := {
  categories : list string;
  vectorizers : dict Vectorizer;
  models : dict Estimator;
  thresholds : dict Q
}.

(** [predict_proba] returns probabilities. *)
Definition proba_valid (clf : ContentClassifier) : Prop :=
  forall category m X rows row p,
    dict_get (models clf) category = Some m ->
    est_predict_proba m X = Ok rows ->
    In row rows -> In p row ->
    (0 <= p)%Q /\ (p <= 1)%Q.

(** [l[i]] *)
Definition index {A} (l : list A) (i : nat) : Result A :=
  match nth_error l i with
  | Some a => Ok a
  | None => Raise IndexError
  end.

(** [d[k]] *)
Definition getitem {V} (d : dict V) (k : string) : Result V :=
  match dict_get d k with
  | Some v => Ok v
  | None => Raise KeyError
  end.

(** Sequencing of steps that touch no state. *)
Definition and_then {A B} (r : Result A) (f : A -> Result B) : Result B :=
  match r with
  | Ok a => f a
  | Raise e => Raise e
  end.

(** [{category: random.uniform(0.1, 0.9) for category in self.categories}] *)
Definition generate_random_classification (env : Env) (clf : ContentClassifier)
  : M (dict Q) :=
  for_each
    (fun d category =>
       s <- random_uniform env (1 # 10) (9 # 10) ;;
       ret (dict_set d category s))
    (categories clf) [].

(** Lines 170-177: transform the text, ask the category's model, take the
    probability of the positive class. *)
Definition model_score (clf : ContentClassifier) (category : string) (t : text)
  : Result Q :=
  and_then (getitem (vectorizers clf) category) (fun v =>
  and_then (vec_transform v t) (fun X =>
  and_then (getitem (models clf) category) (fun m =>
  and_then (est_predict_proba m X) (fun rows =>
  and_then (index rows 0) (fun y_prob =>
  index y_prob 1))))).

(** [category in self.vectorizers and hasattr(self.vectorizers[category], 'transform')] *)
Definition can_transform (clf : ContentClassifier) (category : string) : bool :=
  match dict_get (vectorizers clf) category with
  | Some v => vec_has_transform v
  | None => false
  end.

(** One turn of the loop of [classify_text]. *)
Definition classify_category (env : Env) (clf : ContentClassifier) (t : text)
    (results : dict Q) (category : string) : M (dict Q) :=
  try_except
    (if can_transform clf category
     then score <- lift (model_score clf category t) ;;
          ret (dict_set results category score)
     else s <- random_uniform env (1 # 10) (9 # 10) ;;
          ret (dict_set results category s))
    (fun e =>
       log_error (ErrorClassifying category e) ;;
       s <- random_uniform env (1 # 10) (9 # 10) ;;
       ret (dict_set results category s)).

Definition classify_text (env : Env) (clf : ContentClassifier) (t : text)
  : M (dict Q) :=
  if dict_empty (models clf) || dict_empty (vectorizers clf)
  then generate_random_classification env clf
  else for_each (classify_category env clf t) (categories clf) [].

(** [self.thresholds.get(category, 0.5)] *)
Definition get_threshold (clf : ContentClassifier) (category : string) : Q :=
  match dict_get (thresholds clf) category with
  | Some t => t
  | None => 1 # 2
  end.

End Classifier.

(* ================================================================= *)
(** ** [moderation/processor.py] *)

Module Processor.
Import Py Text Models Classifier.
Local Open Scope py_scope.
Local Open Scope string_scope.

(** What [process_content] returns on success. *)
Record Processed : Type := {
  pr_content : Content;
  pr_status : ModerationStatus;
  pr_flags : list ContentFlag;
  pr_action : ModerationAction
}.

(** [len(content_text)] and [content_text[:1000]] need a string: [None]
    raises [TypeError]. *)
Definition the_text (t : option text) : M text :=
  match t with
  | Some s => ret s
  | None => raise TypeError
  end.

(** [content_type in ('image', 'video')] *)
Definition is_media (content_type : string) : bool :=
  String.eqb content_type "image" || String.eqb content_type "video".

(** [metadata and 'filename' in metadata], then [metadata['filename']] *)
Definition filename_of (metadata : option Metadata) : option text :=
  match metadata with
  | Some d => dict_get d "filename"
  | None => None
  end.

(** [max(0.05, min(0.95, float(hash(str(metadata) + suffix) % 100) / 100))] *)
Definition media_score (env : Env) (metadata : option Metadata) (suffix : string)
  : Q :=
  py_max (5 # 100)
    (py_min (95 # 100)
       (inject_Z (env_hash env (env_repr env metadata ++ str suffix)%list mod 100) / 100)).

Definition generate_media_classification (env : Env) (media_type : string)
    (metadata : option Metadata) : dict Q :=
  let c := dict_set [] "violence" (media_score env metadata "") in
  let c := dict_set c "adult_content" (media_score env metadata "1") in
  if String.eqb media_type "image" then
    let c := dict_set c "graphic_violence" (media_score env metadata "2") in
    let c := dict_set c "sexual_content" (media_score env metadata "3") in
    dict_set c "hate_symbols" (media_score env metadata "4")
  else if String.eqb media_type "video" then
    let c := dict_set c "graphic_violence" (media_score env metadata "5") in
    let c := dict_set c "sexual_content" (media_score env metadata "6") in
    let c := dict_set c "dangerous_activity" (media_score env metadata "7") in
    dict_set c "hate_speech" (media_score env metadata "8")
  else c.

(** Lines 75-89: the classifier for text and unknown types, the stub for
    media. *)
Definition classify_content (env : Env) (clf : ContentClassifier)
    (content_type : string) (preprocessed_text : text)
    (metadata : option Metadata) : M (dict Q) :=
  if String.eqb content_type "text" then classify_text env clf preprocessed_text
  else if String.eqb content_type "image"
       then ret (generate_media_classification env "image" metadata)
  else if String.eqb content_type "video"
       then ret (generate_media_classification env "video" metadata)
  else classify_text env clf preprocessed_text.

(** Lines 92-94: [moderation_score = 0], then
    [moderation_score = max(moderation_score, score)] for every entry. *)
Definition overall_score (classification : dict Q) : Q :=
  fold_left (fun moderation_score kv => py_max moderation_score (snd kv))
            classification 0%Q.

(** Lines 97-101 *)
Definition initial_status (moderation_score : Q) : string :=
  if Qltb (8 # 10) moderation_score then "rejected"
  else if Qltb moderation_score (3 # 10) then "approved"
  else "pending".

(** The reference kept instead of a large media payload. *)
Definition media_reference (content_type : string) (metadata : option Metadata)
  : text :=
  let r := (str "[" ++ upper (str content_type) ++ str " content]")%list in
  match filename_of metadata with
  | Some f => (r ++ str " - " ++ f)%list
  | None => r
  end.

(** The text handed to the classifier for media. *)
Definition media_placeholder (content_type : string) (metadata : option Metadata)
  : text :=
  let r := (str "Analyzing " ++ str content_type ++ str " content")%list in
  match filename_of metadata with
  | Some f => (r ++ str ": " ++ f)%list
  | None => r
  end.

(** Replace the last row: the object that was just added receives its key. *)
Fixpoint update_last {A} (f : A -> A) (l : list A) : list A :=
  match l with
  | [] => []
  | [x] => [f x]
  | x :: l' => x :: update_last f l'
  end.

Definition set_id (i : nat) (c : Content) : Content :=
  {| c_id := Some i;
     c_user_id := c_user_id c;
     c_content_type := c_content_type c;
     c_content_text := c_content_text c;
     c_original_content := c_original_content c;
     c_content_metadata := c_content_metadata c;
     c_created_at := c_created_at c |}.

(** [db.session.flush()] after the Content was added: the row is sent to the
    database, which assigns its key or refuses. *)
Definition session_flush (env : Env) : M nat :=
  match env_flush env with
  | Some i =>
      t <- get_working ;;
      put_working (with_contents t (update_last (set_id i) (contents t))) ;;
      ret i
  | None => raise DatabaseError
  end.

(** One turn of the flag loop, lines 116-128. *)
Definition flag_category (env : Env) (content_id : nat) (preprocessed_text : text)
    (flags : list ContentFlag) (kv : string * Q) : M (list ContentFlag) :=
  let (category, score) := kv in
  if Qltb (3 # 10) score then
    explanation <- lift (env_explain env preprocessed_text category) ;;
    let flag := {| cf_content_id := Some content_id;
                   cf_flag_type := category;
                   cf_flag_score := score;
                   cf_flag_details := explanation;
                   cf_created_at := env_now env |} in
    add_flag flag ;;
    ret (flags ++ [flag])%list
  else ret flags.

(** The body of the [try] of [process_content]. *)
Definition process_content_body (env : Env) (clf : ContentClassifier)
    (content_text : option text) (content_type : string)
    (user_id : option nat) (metadata : option Metadata) : M Processed :=
  large_media <- (if is_media content_type
                  then s <- the_text content_text ;;
                       ret (1000 <? List.length s)%nat
                  else ret false) ;;
  let preprocessed_text :=
    if String.eqb content_type "text"
    then preprocess_text content_text
    else media_placeholder content_type metadata in
  s <- the_text content_text ;;
  let original_content :=
    if large_media then media_reference content_type metadata else s in
  let content := {| c_id := None;
                    c_user_id := user_id;
                    c_content_type := content_type;
                    c_content_text :=
                      if (1000 <? List.length s)%nat then firstn 1000 s else s;
                    c_original_content := original_content;
                    c_content_metadata := metadata;
                    c_created_at := env_now env |} in
  add_content content ;;
  content_id <- session_flush env ;;
  classification <-
    classify_content env clf content_type preprocessed_text metadata ;;
  let moderation_score := overall_score classification in
  let status := initial_status moderation_score in
  let moderation_status := {| ms_content_id := Some content_id;
                              ms_status := status;
                              ms_moderation_score := moderation_score;
                              ms_is_automated := true;
                              ms_last_updated := env_now env;
                              ms_processing_time := Some (env_elapsed env) |} in
  add_status moderation_status ;;
  flags <- for_each (flag_category env content_id preprocessed_text)
                    classification [] ;;
  let action := {| ma_content_id := Some content_id;
                   ma_user_id := None;
                   ma_action_type := "automated_" ++ status;
                   ma_action_notes := Some (AutomatedNotes status moderation_score);
                   ma_previous_status := None;
                   ma_created_at := env_now env |} in
  add_action action ;;
  session_commit env ;;
  ret {| pr_content := set_id content_id content;
         pr_status := moderation_status;
         pr_flags := flags;
         pr_action := action |}.

(** [ContentProcessor.process_content]; [None] is the failure value. *)
Definition process_content (env : Env) (clf : ContentClassifier)
    (content_text : option text) (content_type : string)
    (user_id : option nat) (metadata : option Metadata)
  : M (option Processed) :=
  try_except
    (r <- process_content_body env clf content_text content_type user_id metadata ;;
     ret (Some r))
    (fun e =>
       log_error (ErrorProcessingContent e) ;;
       session_rollback ;;
       ret None).

(** The three assignments of lines 209-211 on the loaded row. *)
Definition set_status (status : string) (now : Z) (s : ModerationStatus)
  : ModerationStatus :=
  {| ms_content_id := ms_content_id s;
     ms_status := status;
     ms_moderation_score := ms_moderation_score s;
     ms_is_automated := false;
     ms_last_updated := now;
     ms_processing_time := ms_processing_time s |}.

(** [ContentProcessor.update_moderation_status]; [None] is the failure
    value. *)
Definition update_moderation_status (env : Env) (content_id : nat)
    (status : string) (user_id : option nat) (notes : option text)
  : M (option ModerationStatus) :=
  try_except
    (content <- query_content content_id ;;
     match content with
     | None => log_error (ContentNotFound content_id) ;; ret None
     | Some _ =>
         current_status <- query_status content_id ;;
         match current_status with
         | None => log_error (StatusNotFound content_id) ;; ret None
         | Some cur =>
             let previous_status := ms_status cur in
             t <- get_working ;;
             put_working
               (with_statuses t
                  (update_first
                     (fun s => same_id (ms_content_id s) (Some content_id))
                     (set_status status (env_now env))
                     (statuses t))) ;;
             let action := {| ma_content_id := Some content_id;
                              ma_user_id := user_id;
                              ma_action_type := status;
                              ma_action_notes := option_map UserNotes notes;
                              ma_previous_status := Some previous_status;
                              ma_created_at := env_now env |} in
             add_action action ;;
             session_commit env ;;
             ret (Some (set_status status (env_now env) cur))
         end
     end)
    (fun e =>
       log_error (ErrorUpdatingStatus e) ;;
       session_rollback ;;
       ret None).

(** One request to [update_moderation_status] with the environment it runs
    in. *)
Record StatusUpdate : Type := {
  su_env : Env;
  su_status : string;
  su_user_id : option nat;
  su_notes : option text
}.

(** Successive calls on one content id: the answer of each call and the
    state it leaves, in call order. *)
Fixpoint update_many (content_id : nat) (calls : list StatusUpdate) (w : World)
  : list (Result (option ModerationStatus) * World) :=
  match calls with
  | [] => []
  | c :: calls' =>
      let rw := update_moderation_status (su_env c) content_id
                  (su_status c) (su_user_id c) (su_notes c) w in
      rw :: update_many content_id calls' (snd rw)
  end.

End Processor.

(* ================================================================= *)
(** ** [routes/admin.py]: the form handler in front of [update_moderation_status] *)

Module Admin.
Import Py Text Models Processor.
Local Open Scope py_scope.
Local Open Scope string_scope.

(** The message the handler flashes before it redirects. *)
Inductive Flash : Type :=
| InvalidStatusProvided
| ContentHasBeen (status : string)
| FailedToUpdateStatus
| AnErrorOccurred (e : Exn).

(** [status not in ['approved', 'rejected']]; a missing form field is
    [None]. *)
Definition invalid_status (status : option string) : bool :=
  match status with
  | Some s => negb (String.eqb s "approved" || String.eqb s "rejected")
  | None => true
  end.

(** [update_status(content_id)]: [status] and [notes] are the form fields,
    [current_user] is [current_user.id]. *)
Definition update_status (env : Env) (content_id : nat) (status : option string)
    (notes : option text) (current_user : nat) : M Flash :=
  try_except
    (let notes := match notes with Some n => n | None => [] end in
     match status with
     | Some s =>
         if invalid_status status then ret InvalidStatusProvided
         else
           result <- update_moderation_status env content_id s
                       (Some current_user) (Some notes) ;;
           match result with
           | Some _ => ret (ContentHasBeen s)
           | None => ret FailedToUpdateStatus
           end
     | None => ret InvalidStatusProvided
     end)
    (fun e => log_error (ErrorInRoute e) ;; ret (AnErrorOccurred e)).

End Admin.

(* ================================================================= *)
(** ** [moderation/utils.py]: daily metrics *)

Module Metrics.
Import Py Text Models.
Local Open Scope py_scope.
Local Open Scope string_scope.

(** Microseconds in a day. *)
Definition day : Z := 86400000000.

(** [dt.date()], as a day number. *)
Definition date_of (dt : Z) : Z := (dt / day)%Z.

(** [datetime.combine(d, datetime.min.time())] *)
Definition start_of_day (d : Z) : Z := (d * day)%Z.

(** [datetime.combine(d, datetime.max.time())] *)
Definition end_of_day (d : Z) : Z := (d * day + (day - 1))%Z.

(** [column.between(lo, hi)] *)
Definition between (x lo hi : Z) : bool := ((lo <=? x) && (x <=? hi))%Z.

(** [name not in existing_types] *)
Definition not_in (name : string) (l : list string) : bool :=
  negb (existsb (String.eqb name) l).

(** The counting loops of lines 92-97 and 118-123. *)
Definition count_by (names : list string) : dict nat :=
  fold_left
    (fun counts name =>
       match dict_get counts name with
       | Some n => dict_set counts name (n + 1)%nat
       | None => dict_set counts name 1%nat
       end)
    names [].

Definition updated_on (today : Z) (s : ModerationStatus) : bool :=
  between (ms_last_updated s) (start_of_day today) (end_of_day today).

Definition created_on (today : Z) (f : ContentFlag) : bool :=
  between (cf_created_at f) (start_of_day today) (end_of_day today).

(** [sum(s.processing_time for s in statuses)] over rows whose time is set *)
Definition sum_times (l : list ModerationStatus) : Q :=
  fold_left
    (fun acc s => match ms_processing_time s with
                  | Some q => (acc + q)%Q
                  | None => acc
                  end)
    l 0%Q.

Definition has_time (s : ModerationStatus) : bool :=
  match ms_processing_time s with
  | Some _ => true
  | None => false
  end.

Definition daily_processed_metric (today : Z) (t : Tables) : ModerationMetric :=
  {| mm_metric_date := today;
     mm_metric_type := "daily_processed";
     mm_metric_value :=
       DailyCount (List.length (filter (updated_on today) (statuses t))) today |}.

Definition flag_distribution_metric (today : Z) (t : Tables) : ModerationMetric :=
  {| mm_metric_date := today;
     mm_metric_type := "flag_distribution";
     mm_metric_value :=
       Histogram (count_by (map cf_flag_type (filter (created_on today) (flags t)))) |}.

Definition status_distribution_metric (today : Z) (t : Tables) : ModerationMetric :=
  {| mm_metric_date := today;
     mm_metric_type := "status_distribution";
     mm_metric_value :=
       Histogram (count_by (map ms_status (filter (updated_on today) (statuses t)))) |}.

Definition avg_processing_time_metric (today : Z) (t : Tables) : ModerationMetric :=
  let rows := filter (fun s => updated_on today s && has_time s) (statuses t) in
  {| mm_metric_date := today;
     mm_metric_type := "avg_processing_time";
     mm_metric_value :=
       Average (match rows with
                | [] => 0
                | _ => sum_times rows / Q_of_nat (List.length rows)
                end)%Q |}.

(** One [if name not in existing_types: ... db.session.add(metric)] block. *)
Definition generate_if_missing (existing_types : list string) (name : string)
    (compute : Tables -> ModerationMetric) : M unit :=
  if not_in name existing_types
  then t <- get_working ;; add_metric (compute t)
  else ret tt.

(** [ModerationMetric.query.filter_by(metric_date=today).all()], then the
    metric types of the rows. *)
Definition existing_types_on (today : Z) (t : Tables) : list string :=
  map mm_metric_type (filter (fun m => (mm_metric_date m =? today)%Z) (metrics t)).

(** [generate_daily_metrics]; the result is the ['success'] field of the
    reply. *)
Definition generate_daily_metrics (env : Env) : M bool :=
  try_except
    (let today := date_of (env_now env) in
     t <- get_working ;;
     let existing_types := existing_types_on today t in
     generate_if_missing existing_types "daily_processed"
       (daily_processed_metric today) ;;
     generate_if_missing existing_types "flag_distribution"
       (flag_distribution_metric today) ;;
     generate_if_missing existing_types "status_distribution"
       (status_distribution_metric today) ;;
     generate_if_missing existing_types "avg_processing_time"
       (avg_processing_time_metric today) ;;
     session_commit env ;;
     ret true)
    (fun e =>
       log_error (ErrorDailyMetrics e) ;;
       session_rollback ;;
       ret false).

End Metrics.

(* ================================================================= *)
(** ** [moderation/train_model.py]: evaluation *)

Module TrainModel.
Import Py Text Models Classifier.
Local Open Scope py_scope.
Local Open Scope string_scope.

Record Evaluation : Type := {
  accuracy : Q;
  precision : Q;
  recall : Q;
  f1_score : Q
}.

(** [a / b]: [ZeroDivisionError] when [b] is zero. *)
Definition py_div (a b : Q) : M Q :=
  if Qeq_bool b 0 then raise ZeroDivisionError else ret (a / b)%Q.

(** One turn of the prediction loop, lines 231-235. *)
Definition predict_one (env : Env) (clf : ContentClassifier) (category : string)
    (predictions : list Z) (t : text) : M (list Z) :=
  result <- classify_text env clf t ;;
  let score := match dict_get result category with
               | Some s => s
               | None => 0%Q
               end in
  let prediction := if Qgeb score (get_threshold clf category) then 1%Z else 0%Z in
  ret (predictions ++ [prediction])%list.

(** [sum(1 for p, l in zip(predictions, labels) if test p l)] *)
Definition count_pairs (test : Z -> Z -> bool) (predictions labels : list Z)
  : nat :=
  List.length (filter (fun pl => test (fst pl) (snd pl)) (combine predictions labels)).

Definition true_positives := count_pairs (fun p l => (p =? 1)%Z && (l =? 1)%Z).
Definition false_positives := count_pairs (fun p l => (p =? 1)%Z && (l =? 0)%Z).
Definition false_negatives := count_pairs (fun p l => (p =? 0)%Z && (l =? 1)%Z).

(** Lines 238-255: the four figures from the predictions. *)
Definition compute_metrics (texts : list text) (predictions labels : list Z)
  : M Evaluation :=
  let correct := count_pairs Z.eqb predictions labels in
  accuracy <- match texts with
              | [] => ret 0%Q
              | _ => py_div (Q_of_nat correct) (Q_of_nat (List.length texts))
              end ;;
  let tp := true_positives predictions labels in
  let fp := false_positives predictions labels in
  let fn := false_negatives predictions labels in
  precision <- (if (0 <? tp + fp)%nat
                then py_div (Q_of_nat tp) (Q_of_nat (tp + fp))
                else ret 0%Q) ;;
  recall <- (if (0 <? tp + fn)%nat
             then py_div (Q_of_nat tp) (Q_of_nat (tp + fn))
             else ret 0%Q) ;;
  f1 <- (if Qltb 0 (precision + recall)
         then py_div (2 * precision * recall) (precision + recall)
         else ret 0%Q) ;;
  ret {| accuracy := accuracy;
         precision := precision;
         recall := recall;
         f1_score := f1 |}.

(** The body of the [try] of [evaluate_category]. *)
Definition evaluate_category_body (env : Env) (clf : ContentClassifier)
    (category : string) (texts : list text) (labels : list Z) : M Evaluation :=
  predictions <- for_each (predict_one env clf category) texts [] ;;
  compute_metrics texts predictions labels.

Definition evaluate_category (env : Env) (clf : ContentClassifier)
    (category : string) (texts : list text) (labels : list Z) : M Evaluation :=
  try_except
    (evaluate_category_body env clf category texts labels)
    (fun e =>
       log_error (ErrorEvaluating category e) ;;
       ret {| accuracy := 0; precision := 0; recall := 0; f1_score := 0 |}).

End TrainModel.

(* ================================================================= *)
(** ** Notions used to state and prove the properties *)

Module Notions.
Import Py Text Models Classifier Processor Metrics.

(** *** Text *)

(** A word returned by [split]: not empty, no whitespace. *)
Definition word_ok (w : text) : Prop :=
  w <> [] /\ Forall (fun c => is_space c = false) w.

(** The words a pattern denotes. *)
Fixpoint lang (r : regex) (w : text) : Prop :=
  match r with
  | Lit c => w = [c]
  | Cls p => exists c, w = [c] /\ p c = true
  | Seq r1 r2 => exists w1 w2, w = w1 ++ w2 /\ lang r1 w1 /\ lang r2 w2
  | Alt r1 r2 => lang r1 w \/ lang r2 w
  | Opt r1 => lang r1 w \/ w = []
  | Plus p => w <> [] /\ Forall (fun c => p c = true) w
  end.

(** Every match of [r] holds a character of class [q]. *)
Definition needs (r : regex) (q : ascii -> bool) : Prop :=
  forall w, lang r w -> exists c, In c w /\ q c = true.

(** What is left after the longest run of a class. *)
Fixpoint drop_while (p : ascii -> bool) (s : text) : text :=
  match s with
  | c :: s' => if p c then drop_while p s' else s
  | [] => []
  end.

(** The seven steps of [preprocess_text] on a string. *)
Definition pipeline (s : text) : text :=
  collapse
    (re_sub digits_re (str "[NUM]")
       (re_sub special_re (str " ")
          (re_sub email_re (str "[EMAIL]")
             (re_sub url_re (str "[URL]") (collapse (lower s)))))).

Definition eqc (a b : ascii) : bool := Ascii.eqb a b.

(** A word character that is no digit. *)
Definition okc (c : ascii) : bool := is_word c && negb (is_digit c).

(** The characters a first pass can return. *)
Definition outb (c : ascii) : bool :=
  okc c || eqc c " " || eqc c "[" || eqc c "]".

Definition out2 (c : ascii) : bool := outb c && negb (is_upper c).

(** The characters a second pass can return: lower-case letters, the
    underscore and the blank. *)
Definition csb (c : ascii) : bool :=
  is_lower c || (code c =? 95) || eqc c " ".

Definition q_url (c : ascii) : bool := eqc c ":" || eqc c ".".
Definition q_at (c : ascii) : bool := eqc c "@".

(** No upper-case letter: no [URL], [EMAIL] or [NUM] token was inserted. *)
Definition no_upper (s : text) : Prop := Forall (fun c => is_upper c = false) s.

Ltac each_char c :=
  destruct c as [[] [] [] [] [] [] [] []]; vm_compute;
  try reflexivity; try discriminate; auto.

(** *** Classification *)

(** [s] was drawn by [random.uniform(0.1, 0.9)]. *)
Definition is_draw (env : Env) (s : Q) : Prop :=
  exists n, s = env_uniform env (1 # 10) (9 # 10) n.

(** [not self.models or not self.vectorizers] *)
Definition untrained (clf : ContentClassifier) : bool :=
  dict_empty (models clf) || dict_empty (vectorizers clf).

(** The score [classify_text] gives a category: the model's when there is
    one and it answers, a draw otherwise. *)
Definition score_of (env : Env) (clf : ContentClassifier) (t : text)
    (category : string) (s : Q) : Prop :=
  if untrained clf then is_draw env s
  else if can_transform clf category
       then match model_score clf category t with
            | Ok p => s = p
            | Raise _ => is_draw env s
            end
       else is_draw env s.

(** *** Processing *)

Definition flag_entry (f : ContentFlag) : string * Q :=
  (cf_flag_type f, cf_flag_score f).

(** [score > 0.3] *)
Definition reported (kv : string * Q) : bool := Qltb (3 # 10) (snd kv).

(** The flags of a category among the flags of a call. *)
Definition flags_of (category : string) (fl : list ContentFlag) : list ContentFlag :=
  filter (fun f => String.eqb (cf_flag_type f) category) fl.

(** The rows of a successful call, added to the tables. *)
Definition insert_processed (t : Tables) (r : Processed) : Tables :=
  {| contents := contents t ++ [pr_content r];
     statuses := statuses t ++ [pr_status r];
     flags := flags t ++ pr_flags r;
     actions := actions t ++ [pr_action r];
     metrics := metrics t |}.

Definition new_flag (env : Env) (id : nat) (kv : string * Q) (ex : Explanation)
  : ContentFlag :=
  {| cf_content_id := Some id;
     cf_flag_type := fst kv;
     cf_flag_score := snd kv;
     cf_flag_details := ex;
     cf_created_at := env_now env |}.

Definition world_add_flag (f : ContentFlag) (w : World) : World :=
  {| w_session := {| committed := committed (w_session w);
                     working := with_flags (working (w_session w))
                                  (flags (working (w_session w)) ++ [f]) |};
     w_draws := w_draws w;
     w_log := w_log w |}.

(** The text classified for a submission. *)
Definition preprocessed (ctype : string) (content_text : option text)
    (md : option Metadata) : text :=
  if String.eqb ctype "text" then preprocess_text content_text
  else media_placeholder ctype md.

(** The per-category scores of a call: what [classify_content] returned for
    the submission, the random generator being where the call found it. *)
Definition classification_of (env : Env) (clf : ContentClassifier)
    (content_text : option text) (ctype : string) (md : option Metadata)
    (w : World) (cls : dict Q) : Prop :=
  exists wa wb,
    w_draws wa = w_draws w /\
    classify_content env clf ctype (preprocessed ctype content_text md) md wa
      = (Ok cls, wb).

(** *** Status updates *)

Definition has_id (id : nat) (c : Content) : bool := same_id (c_id c) (Some id).
Definition status_for (id : nat) (s : ModerationStatus) : bool :=
  same_id (ms_content_id s) (Some id).
Definition action_for (id : nat) (a : ModerationAction) : bool :=
  same_id (ma_content_id a) (Some id).

(** The transaction's view of the tables, and the committed tables. *)
Definition view (w : World) : Tables := working (w_session w).
Definition stored (w : World) : Tables := committed (w_session w).

(** The disposition of a content id. *)
Definition disposition (id : nat) (t : Tables) : option string :=
  option_map ms_status (find (status_for id) (statuses t)).

(** The audit rows of a content id. *)
Definition actions_of (id : nat) (t : Tables) : list ModerationAction :=
  filter (action_for id) (actions t).

Definition manual_action (env : Env) (id : nat) (status : string)
    (uid : option nat) (notes : option text) (previous : string)
  : ModerationAction :=
  {| ma_content_id := Some id;
     ma_user_id := uid;
     ma_action_type := status;
     ma_action_notes := option_map UserNotes notes;
     ma_previous_status := Some previous;
     ma_created_at := env_now env |}.

Definition tables_after_update (env : Env) (id : nat) (status : string)
    (uid : option nat) (notes : option text) (previous : string) (t : Tables)
  : Tables :=
  with_actions
    (with_statuses t
       (update_first (status_for id) (set_status status (env_now env)) (statuses t)))
    (actions t ++ [manual_action env id status uid notes previous]).

(** One audited status change: from state [w], the call [u] answered [r] and
    left [w']. *)
Definition audited_step (id : nat) (u : StatusUpdate) (w : World)
    (r : Result (option ModerationStatus)) (w' : World) : Prop :=
  exists prev st a,
    disposition id (view w) = Some prev /\
    r = Ok (Some st) /\
    find (status_for id) (statuses (view w')) = Some st /\
    ms_status st = su_status u /\
    ms_is_automated st = false /\
    ms_last_updated st = env_now (su_env u) /\
    actions (view w') = actions (view w) ++ [a] /\
    ma_content_id a = Some id /\
    ma_previous_status a = Some prev /\
    ma_action_type a = su_status u /\
    stored w' = view w'.

(** Every call of a trace satisfies [P], each from the state the call before
    it left. *)
Fixpoint chain
    (P : StatusUpdate -> World -> Result (option ModerationStatus) -> World -> Prop)
    (calls : list StatusUpdate) (w : World)
    (trace : list (Result (option ModerationStatus) * World)) : Prop :=
  match calls, trace with
  | [], [] => True
  | u :: calls', (r, w') :: trace' => P u w r w' /\ chain P calls' w' trace'
  | _, _ => False
  end.

Definition final_world (w : World)
    (trace : list (Result (option ModerationStatus) * World)) : World :=
  last (map snd trace) w.

(** *** Daily metrics *)

(** The four metric types of the job. *)
Definition metric_types : list string :=
  ["daily_processed"%string; "flag_distribution"%string; "status_distribution"%string;
   "avg_processing_time"%string].

(** The rows one run of the job adds to tables [t] on day [today]: one per
    metric type that has no row for that day. *)
Definition new_metrics (today : Z) (t : Tables) : list ModerationMetric :=
  let existing_types := existing_types_on today t in
  ((if not_in "daily_processed"%string existing_types
    then [daily_processed_metric today t] else []) ++
   (if not_in "flag_distribution"%string existing_types
    then [flag_distribution_metric today t] else []) ++
   (if not_in "status_distribution"%string existing_types
    then [status_distribution_metric today t] else []) ++
   (if not_in "avg_processing_time"%string existing_types
    then [avg_processing_time_metric today t] else []))%list.

(** A metric that reads only the status and flag tables. *)
Definition reads_rows (compute : Tables -> ModerationMetric) : Prop :=
  forall t l, compute (with_metrics t l) = compute t.

(** [num / den if den > 0 else 0] on counts. *)
Definition guarded_ratio (num den : nat) : Q :=
  if 0 <? den then (Q_of_nat num / Q_of_nat den)%Q else 0%Q.

(** What a call returned, [None] standing for every failure. *)
Definition returned {A} (o : Result (option A) * World) : option A :=
  match fst o with
  | Ok (Some a) => Some a
  | _ => None
  end.

(** The database accepts the call's commit. *)
Definition commits (u : StatusUpdate) : Prop := env_commit (su_env u) = true.

End Notions.

(* ================================================================= *)
(** ** A small instance: a classifier with two trained categories and one
    untrained, and a store that holds one moderated item *)

Module Demo.
Import Py Text Models Classifier Processor.
Local Open Scope string_scope.

Definition vectorizer : Vectorizer :=
  {| vec_has_transform := true;
     vec_transform := fun t => Ok [Q_of_nat (List.length t)] |}.

(** A model that gives the positive class probability [p]. *)
Definition estimator (p : Q) : Estimator :=
  {| est_predict_proba := fun _ => Ok [[(1 - p)%Q; p]] |}.

Definition clf : ContentClassifier :=
  {| categories := ["profanity"; "violence"; "harassment"];
     vectorizers := [("profanity", vectorizer); ("violence", vectorizer)];
     models := [("profanity", estimator (29 # 100));
                ("violence", estimator (31 # 100))];
     thresholds := [("profanity", 7 # 10); ("violence", 7 # 10);
                    ("harassment", 65 # 100)] |}.

(** Noon of day 20000; every draw of [random.uniform(a, b)] gives [b]; the
    database accepts the writes and gives the new Content the key 2. *)
Definition env : Env :=
  {| env_now := 1728043200000000;
     env_elapsed := 1 # 100;
     env_flush := Some 2;
     env_commit := true;
     env_uniform := fun a b _ => b;
     env_hash := fun t => Z.of_nat (List.length t);
     env_repr := fun _ => str "None";
     env_explain := fun _ _ => Ok [] |}.

(** The same environment one second later. *)
Definition env_later : Env :=
  {| env_now := 1728043201000000;
     env_elapsed := 1 # 100;
     env_flush := Some 3;
     env_commit := true;
     env_uniform := fun a b _ => b;
     env_hash := fun t => Z.of_nat (List.length t);
     env_repr := fun _ => str "None";
     env_explain := fun _ _ => Ok [] |}.

Definition content1 : Content :=
  {| c_id := Some 1;
     c_user_id := None;
     c_content_type := "text";
     c_content_text := str "hello";
     c_original_content := str "hello";
     c_content_metadata := None;
     c_created_at := 1728000000000000 |}.

Definition status1 : ModerationStatus :=
  {| ms_content_id := Some 1;
     ms_status := "pending";
     ms_moderation_score := 1 # 2;
     ms_is_automated := true;
     ms_last_updated := 1728000000000000;
     ms_processing_time := Some (1 # 100) |}.

Definition action1 : ModerationAction :=
  {| ma_content_id := Some 1;
     ma_user_id := None;
     ma_action_type := "automated_pending";
     ma_action_notes := Some (AutomatedNotes "pending" (1 # 2));
     ma_previous_status := None;
     ma_created_at := 1728000000000000 |}.

Definition tables : Tables :=
  {| contents := [content1];
     statuses := [status1];
     flags := [];
     actions := [action1];
     metrics := [] |}.

Definition world : World :=
  {| w_session := {| committed := tables; working := tables |};
     w_draws := 0;
     w_log := [] |}.

(** [env] with a database that refuses the commit. *)
Definition env_down : Env :=
  {| env_now := env_now env;
     env_elapsed := env_elapsed env;
     env_flush := env_flush env;
     env_commit := false;
     env_uniform := env_uniform env;
     env_hash := env_hash env;
     env_repr := env_repr env;
     env_explain := env_explain env |}.

(** Two reviews of item 1: rejected by user 7, then approved by user 8. *)
Definition reviews : list StatusUpdate :=
  [ {| su_env := env; su_status := "rejected"; su_user_id := Some 7;
       su_notes := Some (str "spam") |};
    {| su_env := env_later; su_status := "approved"; su_user_id := Some 8;
       su_notes := None |} ].

End Demo.

(* ================================================================= *)
(** ** [moderation/processor.py]: [batch_process] *)

Module Batch.
Import Py Text Models Classifier Processor.
Local Open Scope py_scope.
Local Open Scope string_scope.

(** One [content_item] of the list.  [item_content_text] is [None] when the
    dictionary has no ['content_text'] key, and [Some None] when the key holds
    [None]; the other fields are read with [get]. *)
Record ContentItem : Type := {
  item_content_text : option (option text);
  item_content_type : option string;
  item_user_id : option nat;
  item_metadata : option Metadata
}.

(** [content_item['content_text']] *)
Definition item_text (item : ContentItem) : M (option text) :=
  match item_content_text item with
  | Some t => ret t
  | None => raise KeyError
  end.

(** [content_item.get('content_type', 'text')] *)
Definition item_type (item : ContentItem) : string :=
  match item_content_type item with
  | Some t => t
  | None => "text"
  end.

(** One turn of the loop, lines 167-176; every item comes with the
    environment its [process_content] call runs in. *)
Definition batch_item (clf : ContentClassifier) (results : list Processed)
    (call : Env * ContentItem) : M (list Processed) :=
  content_text <- item_text (snd call) ;;
  result <- process_content (fst call) clf content_text (item_type (snd call))
              (item_user_id (snd call)) (item_metadata (snd call)) ;;
  match result with
  | Some r => ret (results ++ [r])%list
  | None => ret results
  end.

(** [ContentProcessor.batch_process] *)
Definition batch_process (clf : ContentClassifier)
    (content_list : list (Env * ContentItem)) : M (list Processed) :=
  for_each (batch_item clf) content_list [].

End Batch.

(* ================================================================= *)
(** ** [moderation/classifier.py]: the classifier built without a model file *)

Module Defaults.
Import Py Text Models Classifier.
Local Open Scope string_scope.

(** [TfidfVectorizer(...)] before [fit]: the method exists and raises. *)
Definition unfitted_vectorizer : Vectorizer :=
  {| vec_has_transform := true;
     vec_transform := fun _ => Raise NotFittedError |}.

(** [LogisticRegression(...)] before [fit]. *)
Definition unfitted_model : Estimator :=
  {| est_predict_proba := fun _ => Raise NotFittedError |}.

Definition default_categories : list string :=
  ["profanity"; "hate_speech"; "violence"; "sexual_content"; "harassment"].

Definition default_thresholds : dict Q :=
  [("profanity", 7 # 10); ("hate_speech", 65 # 100); ("violence", 7 # 10);
   ("sexual_content", 7 # 10); ("harassment", 65 # 100); ("overall", 6 # 10)].

(** [_initialize_empty_models] *)
Definition initialize_empty_models (clf : ContentClassifier) : ContentClassifier :=
  fold_left
    (fun c category =>
       {| categories := categories c;
          vectorizers := dict_set (vectorizers c) category unfitted_vectorizer;
          models := dict_set (models c) category unfitted_model;
          thresholds := thresholds c |})
    (categories clf) clf.

(** [ContentClassifier()], what [ContentProcessor()] holds: no model path is
    given, so the models are the empty ones. *)
Definition new_classifier : ContentClassifier :=
  initialize_empty_models
    {| categories := default_categories;
       vectorizers := [];
       models := [];
       thresholds := default_thresholds |}.

End Defaults.

(* ================================================================= *)
(** ** [routes/api.py] *)

Module Api.
Import Py Text Models Classifier Processor Metrics Notions Batch Defaults.
Local Open Scope py_scope.
Local Open Scope string_scope.

(** The JSON object of a submission.  [sub_content] is [None] when the object
    has no ['content'] field and [Some None] when the field is [null]. *)
Record Submission : Type := {
  sub_content : option (option text);
  sub_content_type : option string;
  sub_user_id : option nat;
  sub_metadata : option Metadata
}.

(** The ['error'] texts of the replies. *)
Inductive ErrorText : Type :=
| MissingRequiredContentField
| FailedToProcessContent
| MissingOrInvalidItemsField
| FailedToProcessBatch
| ContentNotFoundError
| ExceptionText (e : Exn).

(** One entry of ['results'] in the batch reply. *)
Record ItemResponse : Type := {
  ir_content_id : option nat;
  ir_status : string;
  ir_moderation_score : Q;
  ir_flags : list (string * Q)
}.

(** The ['content'] and ['status'] objects of [get_content]. *)
Record ContentView : Type := {
  cv_id : option nat;
  cv_user_id : option nat;
  cv_content_type : string;
  cv_content_text : text;
  cv_created_at : Z
}.

Record StatusView : Type := {
  sv_status : string;
  sv_moderation_score : option Q;
  sv_is_automated : bool;
  sv_processing_time : option Q;
  sv_last_updated : option Z
}.

(** The JSON bodies. *)
Inductive Body : Type :=
| Failure (error : ErrorText)
| Moderated (content_id : option nat) (status : string) (moderation_score : Q)
            (processing_time : option Q) (flags : list (string * Q))
| BatchModerated (processed_count : nat) (results : list ItemResponse)
| ContentDetails (content : ContentView) (status : StatusView)
                 (flags : list (string * Q * Explanation))
| MetricsGenerated (metrics_success : bool).

(** A body and its HTTP status. *)
Definition Reply : Type := Body * nat.

(** [content_type=data.get('content_type', 'text')] *)
Definition submitted_type (d : Submission) : string :=
  match sub_content_type d with
  | Some t => t
  | None => "text"
  end.

Definition route_error (e : Exn) : M Reply :=
  log_error (ErrorInRoute e) ;; ret (Failure (ExceptionText e), 500).

(** [moderate_content]; [data] is [request.json], [None] when it is empty. *)
Definition moderate_content (env : Env) (data : option Submission) : M Reply :=
  try_except
    (match data with
     | None => ret (Failure MissingRequiredContentField, 400)
     | Some d =>
         match sub_content d with
         | None => ret (Failure MissingRequiredContentField, 400)
         | Some content =>
             result <- process_content env new_classifier content (submitted_type d)
                         (sub_user_id d) (sub_metadata d) ;;
             match result with
             | None => ret (Failure FailedToProcessContent, 500)
             | Some r =>
                 ret (Moderated (c_id (pr_content r))
                                (ms_status (pr_status r))
                                (ms_moderation_score (pr_status r))
                                (ms_processing_time (pr_status r))
                                (map flag_entry (pr_flags r)), 200)
             end
         end
     end)
    route_error.

(** Lines 100-109: the items that have a ['content'] field, as
    [batch_process] wants them. *)
Definition batch_items (items : list (Env * Submission)) : list (Env * ContentItem) :=
  flat_map
    (fun item =>
       match sub_content (snd item) with
       | None => []
       | Some content =>
           [(fst item,
             {| item_content_text := Some content;
                item_content_type := Some (submitted_type (snd item));
                item_user_id := sub_user_id (snd item);
                item_metadata := sub_metadata (snd item) |})]
       end)
    items.

Definition item_response (r : Processed) : ItemResponse :=
  {| ir_content_id := c_id (pr_content r);
     ir_status := ms_status (pr_status r);
     ir_moderation_score := ms_moderation_score (pr_status r);
     ir_flags := map flag_entry (pr_flags r) |}.

(** [batch_moderate]; [items] is [data['items']], [None] when the body is
    empty, has no such field or the field is no list. *)
Definition batch_moderate (items : option (list (Env * Submission))) : M Reply :=
  try_except
    (match items with
     | None => ret (Failure MissingOrInvalidItemsField, 400)
     | Some l =>
         results <- batch_process new_classifier (batch_items l) ;;
         match results with
         | [] => ret (Failure FailedToProcessBatch, 500)
         | _ => ret (BatchModerated (List.length results)
                                    (map item_response results), 200)
         end
     end)
    route_error.

(** [ContentFlag.query.filter_by(content_id=content_id).all()] *)
Definition flags_of_content (content_id : nat) (t : Tables) : list ContentFlag :=
  filter (fun f => same_id (cf_content_id f) (Some content_id)) (flags t).

Definition status_view (status : option ModerationStatus) : StatusView :=
  match status with
  | Some s => {| sv_status := ms_status s;
                 sv_moderation_score := Some (ms_moderation_score s);
                 sv_is_automated := ms_is_automated s;
                 sv_processing_time := ms_processing_time s;
                 sv_last_updated := Some (ms_last_updated s) |}
  | None => {| sv_status := "unknown";
               sv_moderation_score := None;
               sv_is_automated := true;
               sv_processing_time := None;
               sv_last_updated := None |}
  end.

Definition content_view (c : Content) : ContentView :=
  {| cv_id := c_id c;
     cv_user_id := c_user_id c;
     cv_content_type := c_content_type c;
     cv_content_text := c_content_text c;
     cv_created_at := c_created_at c |}.

(** [get_content(content_id)] *)
Definition get_content (content_id : nat) : M Reply :=
  try_except
    (content <- query_content content_id ;;
     match content with
     | None => ret (Failure ContentNotFoundError, 404)
     | Some c =>
         status <- query_status content_id ;;
         t <- get_working ;;
         ret (ContentDetails
                (content_view c) (status_view status)
                (map (fun f => (cf_flag_type f, cf_flag_score f, cf_flag_details f))
                     (flags_of_content content_id t)), 200)
     end)
    route_error.

(** [trigger_metrics_generation]: the reply wraps what
    [generate_daily_metrics] returned. *)
Definition trigger_metrics_generation (env : Env) : M Reply :=
  try_except
    (metrics <- generate_daily_metrics env ;;
     ret (MetricsGenerated metrics, 200))
    route_error.

End Api.

(* ================================================================= *)
(** ** [routes/admin.py]: [batch_action] *)

Module AdminBatch.
Import Py Text Models Processor.
Local Open Scope py_scope.
Local Open Scope string_scope.

(** The message the handler flashes before it redirects. *)
Inductive BatchFlash : Type :=
| NoItemsSelected
| InvalidAction
| Successfully (action : string) (success_count total : nat)
| BatchErrorOccurred (e : Exn).

(** [action not in ['approve', 'reject']]; a missing form field is [None]. *)
Definition invalid_action (action : option string) : bool :=
  match action with
  | Some a => negb (String.eqb a "approve" || String.eqb a "reject")
  | None => true
  end.

(** [int(content_id)] on a form value: [None] stands for a value [int]
    refuses, which raises [ValueError]. *)
Definition py_int (content_id : option nat) : M nat :=
  match content_id with
  | Some i => ret i
  | None => raise OtherError
  end.

(** [f"{action}d"] *)
Definition batch_status (action : string) : string := action ++ "d".

(** One turn of the loop, lines 185-196; every id comes with the environment
    its [update_moderation_status] call runs in. *)
Definition batch_one (action : string) (notes : text) (current_user : nat)
    (success_count : nat) (target : Env * option nat) : M nat :=
  try_except
    (content_id <- py_int (snd target) ;;
     result <- update_moderation_status (fst target) content_id
                 (batch_status action) (Some current_user) (Some notes) ;;
     match result with
     | Some _ => ret (success_count + 1)%nat
     | None => ret success_count
     end)
    (fun e => log_error (ErrorInRoute e) ;; ret success_count).

(** [batch_action()]: [action] and [notes] are the form fields, [content_ids]
    the values of [getlist('content_ids')]. *)
Definition batch_action (action : option string) (notes : option text)
    (content_ids : list (Env * option nat)) (current_user : nat) : M BatchFlash :=
  try_except
    (let notes := match notes with Some n => n | None => str "Batch action" end in
     match content_ids with
     | [] => ret NoItemsSelected
     | _ =>
         match action with
         | Some a =>
             if invalid_action action then ret InvalidAction
             else
               success_count <-
                 for_each (batch_one a notes current_user) content_ids 0%nat ;;
               ret (Successfully a success_count (List.length content_ids))
         | None => ret InvalidAction
         end
     end)
    (fun e => log_error (ErrorInRoute e) ;; ret (BatchErrorOccurred e)).

(** The three counters of the dashboard, lines 25-27. *)
Definition status_count (status : string) (t : Tables) : nat :=
  List.length (filter (fun s => String.eqb (ms_status s) status) (statuses t)).

End AdminBatch.

(* ================================================================= *)
(** ** [moderation/utils.py]: [get_moderation_metrics] *)

Module Dashboard.
Import Py Text Models Metrics.
Local Open Scope py_scope.
Local Open Scope string_scope.

(** The ['value'] of a point: the payload of a stored row, or the
    [{'count': n}] of a placeholder or a sample, which has no date. *)
Inductive PointValue : Type :=
| Payload (v : MetricValue)
| CountOnly (n : nat).

(** [{'date': ..., 'value': ...}]; the ISO text of a date orders as the date
    does, so the day number stands for it. *)
Record Point : Type := {
  pt_date : Z;
  pt_value : PointValue
}.

(** [[(end_date - timedelta(days=i)).isoformat() for i in range(days)]] *)
Definition all_dates (end_date days : Z) : list Z :=
  map (fun i => (end_date - Z.of_nat i)%Z) (seq 0 (Z.to_nat days)).

(** [l.sort(key=lambda x: x['date'])], a stable sort: [p] goes before the
    first point that is not earlier. *)
Fixpoint insert_point (p : Point) (l : list Point) : list Point :=
  match l with
  | [] => [p]
  | q :: l' =>
      if (pt_date p <=? pt_date q)%Z then p :: l else q :: insert_point p l'
  end.

Definition sort_by_date (l : list Point) : list Point :=
  fold_right insert_point [] l.

(** Lines 194-202: the rows grouped by metric type, in row order. *)
Definition organize (rows : list ModerationMetric) : dict (list Point) :=
  fold_left
    (fun metrics_by_type metric =>
       let point := {| pt_date := mm_metric_date metric;
                       pt_value := Payload (mm_metric_value metric) |} in
       match dict_get metrics_by_type (mm_metric_type metric) with
       | Some points =>
           dict_set metrics_by_type (mm_metric_type metric) (points ++ [point])%list
       | None =>
           dict_set metrics_by_type (mm_metric_type metric) [point]
       end)
    rows [].

(** Lines 212-231: what is appended for a date without a row; nothing for a
    metric type the chain of tests does not name. *)
Definition placeholder (metric_type : string) (date : Z) : list Point :=
  if String.eqb metric_type "daily_processed"
  then [{| pt_date := date; pt_value := CountOnly 0 |}]
  else if String.eqb metric_type "flag_distribution"
  then [{| pt_date := date; pt_value := Payload (Histogram []) |}]
  else if String.eqb metric_type "status_distribution"
  then [{| pt_date := date; pt_value := Payload (Histogram []) |}]
  else if String.eqb metric_type "avg_processing_time"
  then [{| pt_date := date; pt_value := Payload (Average 0) |}]
  else [].

(** Lines 208-234 for one metric type: [existing_dates] is read once, before
    the placeholders are appended. *)
Definition fill (dates : list Z) (metric_type : string) (values : list Point)
  : list Point :=
  let existing_dates := map pt_date values in
  sort_by_date
    (fold_left
       (fun points date =>
          if existsb (Z.eqb date) existing_dates
          then points
          else (points ++ placeholder metric_type date)%list)
       dates values).

(** The random numbers of the samples besides [random.uniform]. *)
Record Dice : Type := {
  dice_randint : nat -> nat -> nat -> nat;   (* [random.randint(a, b)], n-th draw *)
  dice_random : nat -> Q;                    (* [random.random()], n-th draw      *)
  dice_round : Q -> nat -> Q                 (* [round(x, ndigits)]               *)
}.

Definition draw {A} (value : nat -> A) : M A :=
  fun w => (Ok (value (w_draws w)),
            {| w_session := w_session w;
               w_draws := S (w_draws w);
               w_log := w_log w |}).

Definition random_randint (dice : Dice) (a b : nat) : M nat :=
  draw (dice_randint dice a b).

Definition random_random (dice : Dice) : M Q := draw (dice_random dice).

Definition flag_types : list string :=
  ["profanity"; "hate_speech"; "violence"; "sexual_content"; "harassment"].

Definition status_types : list string := ["pending"; "approved"; "rejected"].

(** The four lists [_generate_sample_metrics] fills. *)
Record SampleSeries : Type := {
  daily_processed : list Point;
  flag_distribution : list Point;
  status_distribution : list Point;
  avg_processing_time : list Point
}.

(** Lines 267-270 *)
Definition sample_flag_counts (dice : Dice) : M (dict nat) :=
  for_each
    (fun flag_counts flag_type =>
       r <- random_random dice ;;
       if Qltb (2 # 10) r
       then n <- random_randint dice 5 50 ;;
            ret (dict_set flag_counts flag_type n)
       else ret flag_counts)
    flag_types [].

(** Lines 278-280 *)
Definition sample_status_counts (dice : Dice) : M (dict nat) :=
  for_each
    (fun status_counts status_type =>
       n <- random_randint dice 10 70 ;;
       ret (dict_set status_counts status_type n))
    status_types [].

(** One turn of the loop of lines 257-291. *)
Definition sample_day (env : Env) (dice : Dice) (end_date : Z) (s : SampleSeries)
    (i : nat) : M SampleSeries :=
  let date := (end_date - Z.of_nat i)%Z in
  count <- random_randint dice 50 200 ;;
  flag_counts <- sample_flag_counts dice ;;
  status_counts <- sample_status_counts dice ;;
  u <- random_uniform env (1 # 10) 2 ;;
  ret {| daily_processed :=
           (daily_processed s ++
            [{| pt_date := date; pt_value := CountOnly count |}])%list;
         flag_distribution :=
           (flag_distribution s ++
            [{| pt_date := date; pt_value := Payload (Histogram flag_counts) |}])%list;
         status_distribution :=
           (status_distribution s ++
            [{| pt_date := date; pt_value := Payload (Histogram status_counts) |}])%list;
         avg_processing_time :=
           (avg_processing_time s ++
            [{| pt_date := date;
                pt_value := Payload (Average (dice_round dice u 2)) |}])%list |}.

(** [_generate_sample_metrics(start_date, end_date, days)] *)
Definition generate_sample_metrics (env : Env) (dice : Dice)
    (start_date end_date days : Z) : M (dict (list Point)) :=
  s <- for_each (sample_day env dice end_date) (seq 0 (Z.to_nat days))
         {| daily_processed := []; flag_distribution := [];
            status_distribution := []; avg_processing_time := [] |} ;;
  ret [("daily_processed", sort_by_date (daily_processed s));
       ("flag_distribution", sort_by_date (flag_distribution s));
       ("status_distribution", sort_by_date (status_distribution s));
       ("avg_processing_time", sort_by_date (avg_processing_time s))].

(** [metric_date >= start_date, metric_date <= end_date] *)
Definition in_window (start_date end_date : Z) (m : ModerationMetric) : bool :=
  ((start_date <=? mm_metric_date m) && (mm_metric_date m <=? end_date))%Z.

(** [get_moderation_metrics(days)].  On rows of the declared types nothing in
    the body raises, so the handler of its [try] has nothing to catch. *)
Definition get_moderation_metrics (env : Env) (dice : Dice) (days : Z)
  : M (dict (list Point)) :=
  let end_date := date_of (env_now env) in
  let start_date := (end_date - days)%Z in
  t <- get_working ;;
  match filter (in_window start_date end_date) (metrics t) with
  | [] => generate_sample_metrics env dice start_date end_date days
  | rows =>
      ret (map (fun kv => (fst kv, fill (all_dates end_date days) (fst kv) (snd kv)))
               (organize rows))
  end.

End Dashboard.

(* ================================================================= *)
(** ** [templates/jinja_filters.py] *)

Module Filters.
Import Py Text Notions.
Local Open Scope string_scope.

(** [s.rstrip()] *)
Definition rstrip (s : text) : text := rev (drop_while is_space (rev s)).

(** [truncate_text(text, length, suffix)]; [None] is a missing value. *)
Definition truncate_text (t : option text) (length : nat) (suffix : text) : text :=
  match t with
  | None => []
  | Some [] => []
  | Some s =>
      if (List.length s <=? length)%nat then s
      else (rstrip (firstn length s) ++ suffix)%list
  end.

(** [word.capitalize()] *)
Definition capitalize (w : text) : text :=
  match w with
  | [] => []
  | c :: w' => upper_char c :: lower w'
  end.

(** [s.split(sep)] for a one-character separator; [cur] is the piece being
    read. *)
Fixpoint split_on (sep : ascii) (cur : text) (s : text) : list text :=
  match s with
  | [] => [cur]
  | c :: s' =>
      if Ascii.eqb c sep then cur :: split_on sep [] s'
      else split_on sep (cur ++ [c])%list s'
  end.

(** [format_flag_type(flag_type)] *)
Definition format_flag_type (flag_type : option text) : text :=
  match flag_type with
  | None => []
  | Some [] => []
  | Some s => join (str " ") (map capitalize (split_on "_" [] s))
  end.

(** [flag_color(score)]; [None] is a missing score. *)
Definition flag_color (score : option Q) : string :=
  match score with
  | None => "text-secondary"
  | Some s =>
      if Qgeb s (8 # 10) then "text-danger"
      else if Qgeb s (5 # 10) then "text-warning"
      else if Qgeb s (3 # 10) then "text-info"
      else "text-success"
  end.

(** [status.lower()] *)
Definition lower_string (s : string) : string :=
  string_of_list_ascii (lower (str s)).

(** [status_color(status)] *)
Definition status_color (status : option string) : string :=
  match status with
  | None => "text-secondary"
  | Some s =>
      if String.eqb s "" then "text-secondary"
      else
        let s := lower_string s in
        if String.eqb s "approved" then "text-success"
        else if String.eqb s "rejected" then "text-danger"
        else if String.eqb s "pending" then "text-warning"
        else "text-info"
  end.

End Filters.

(* ================================================================= *)
(** ** Notions for the properties of the routes, the batches and the
    dashboard *)

Module Invariants.
Import Py Text Models Classifier Processor Metrics Notions Batch Defaults Api
       AdminBatch Dashboard.

(** A session without pending changes. *)
Definition clean (w : World) : Prop := view w = stored w.

(** The tables after the rows of the records were added, in order. *)
Definition insert_all (t : Tables) (rs : list Processed) : Tables :=
  fold_left insert_processed rs t.

(** The item has a ['content_text'] key. *)
Definition has_text_key (call : Env * ContentItem) : Prop :=
  item_content_text (snd call) <> None.

Definition flag_for (id : nat) (f : ContentFlag) : bool :=
  same_id (cf_content_id f) (Some id).

(** No row of the tables refers to the content key. *)
Definition unused (id : nat) (t : Tables) : Prop :=
  find (has_id id) (contents t) = None /\
  find (status_for id) (statuses t) = None /\
  filter (flag_for id) (flags t) = [] /\
  actions_of id t = [].

(** The audit trail as it reads: the type of each action and the status it
    replaced. *)
Definition trail (l : list ModerationAction) : list (string * option string) :=
  map (fun a => (ma_action_type a, ma_previous_status a)) l.

(** The trail of successive manual changes that start from [previous]. *)
Fixpoint manual_trail (previous : string) (statuses : list string)
  : list (string * option string) :=
  match statuses with
  | [] => []
  | s :: rest => (s, Some previous) :: manual_trail s rest
  end.

(** The scores of the categories when each is the next number drawn by
    [random.uniform(0.1, 0.9)], the generator having given [n] numbers. *)
Definition drawn_scores (env : Env) (n : nat) (cats : list string) : dict Q :=
  combine cats (map (env_uniform env (1 # 10) (9 # 10)) (seq n (List.length cats))).

(** The content key exists and has a status row. *)
Definition moderated (id : nat) (t : Tables) : Prop :=
  find (has_id id) (contents t) <> None /\
  find (status_for id) (statuses t) <> None.

(** A target of a batch action that can be reviewed in tables [t]: its id
    parses, the content exists with its status row, and the database commits
    the call. *)
Definition reviewable (t : Tables) (target : Env * option nat) : Prop :=
  env_commit (fst target) = true /\
  exists i, snd target = Some i /\ moderated i t.

(** How often a name occurs in a list. *)
Definition occurrences (name : string) (names : list string) : nat :=
  List.length (filter (String.eqb name) names).

(** The entry of a histogram for a name that was counted [n] times. *)
Definition counted (n : nat) : option nat :=
  match n with
  | O => None
  | S _ => Some n
  end.

(** The sum of the counts of a histogram. *)
Definition total (h : dict nat) : nat := list_sum (map snd h).

(** A flag type as it is displayed, character by character: an underscore
    becomes a blank, the first letter of each piece is put in upper case and
    the other letters in lower case.  [start] says that a piece begins. *)
Fixpoint title_case (start : bool) (s : text) : text :=
  match s with
  | [] => []
  | c :: s' =>
      if Ascii.eqb c "_" then " "%char :: title_case true s'
      else (if start then upper_char c else lower_char c) :: title_case false s'
  end.


(** The flags of a record as [get_content] lists them. *)
Definition flag_details (fl : list ContentFlag) : list (string * Q * Explanation) :=
  map (fun f => (cf_flag_type f, cf_flag_score f, cf_flag_details f)) fl.





End Invariants.

(* ================================================================= *)
(** ** A second instance: requests to the routes *)

Module Scenario.
Import Py Text Models Classifier Processor Batch Api AdminBatch Dashboard.
Local Open Scope string_scope.

(** A picture of 1200 bytes, named. *)
Definition picture : text := repeat "x"%char 1200.

Definition picture_metadata : Metadata := [("filename", str "cat.png")].

(** Two well-formed items and one without the text key. *)
Definition item_a : ContentItem :=
  {| item_content_text := Some (Some (str "first 1"));
     item_content_type := None;
     item_user_id := Some 5;
     item_metadata := None |}.

Definition item_b : ContentItem :=
  {| item_content_text := Some (Some (str "second"));
     item_content_type := Some "text";
     item_user_id := None;
     item_metadata := None |}.

Definition item_no_key : ContentItem :=
  {| item_content_text := None;
     item_content_type := None;
     item_user_id := None;
     item_metadata := None |}.

Definition submission (content : option (option text)) : Submission :=
  {| sub_content := content;
     sub_content_type := None;
     sub_user_id := Some 5;
     sub_metadata := None |}.

(** Dice that always give the lower bound, and keep [x] when rounding. *)
Definition dice : Dice :=
  {| dice_randint := fun a _ _ => a;
     dice_random := fun _ => 1 # 2;
     dice_round := fun x _ => x |}.

(** A store with one metric row of day 19999 and one of an unnamed type. *)
Definition metric_rows : list ModerationMetric :=
  [ {| mm_metric_date := 19999;
       mm_metric_type := "daily_processed";
       mm_metric_value := DailyCount 4 19999 |};
    {| mm_metric_date := 20000;
       mm_metric_type := "queue_length";
       mm_metric_value := Average 3 |} ].

Definition world_with_metrics : World :=
  {| w_session :=
       {| committed := with_metrics Demo.tables metric_rows;
          working := with_metrics Demo.tables metric_rows |};
     w_draws := 0;
     w_log := [] |}.

End Scenario.

(* ================================================================= *)
(** * Properties *)

Import Py Text Models Classifier Processor Notions.

Lemma split_from_run (w : text) : forall cur s,
  Forall (fun c => is_space c = false) w ->
  split_from cur (w ++ s) = split_from (cur ++ w) s.
Proof.
  induction w as [|c w IH]; intros cur s H; simpl.
  - now rewrite app_nil_r.
  - inversion H as [|? ? Hc Hw]; subst. rewrite Hc, IH by assumption.
    now rewrite <- app_assoc.
Qed.

Lemma split_from_words (s : text) : forall cur,
  Forall (fun c => is_space c = false) cur ->
  Forall word_ok (split_from cur s).
Proof.
  induction s as [|c s IH]; intros cur Hcur; simpl.
  - destruct cur; constructor; [split; [discriminate | assumption] | constructor].
  - destruct (is_space c) eqn:E.
    + destruct cur.
      * apply IH; constructor.
      * constructor; [split; [discriminate | assumption] | apply IH; constructor].
    + apply IH. apply Forall_app; split; [assumption | repeat constructor; assumption].
Qed.

Lemma split_join (ws : list text) :
  Forall word_ok ws -> split (join (str " ") ws) = ws.
Proof.
  unfold split. induction ws as [|w ws IH]; intros H; [reflexivity|].
  inversion H as [|? ? [Hne Hw] Hws]; subst.
  destruct ws as [|w2 ws].
  - simpl. rewrite <- (app_nil_r w) at 1. rewrite split_from_run by assumption.
    simpl. destruct w; [contradiction | reflexivity].
  - change (join (str " ") (w :: w2 :: ws))
      with (w ++ str " " ++ join (str " ") (w2 :: ws)).
    rewrite split_from_run by assumption. simpl.
    destruct w; [contradiction |]. simpl. f_equal. apply IH; assumption.
Qed.

Lemma collapse_idem (s : text) : collapse (collapse s) = collapse s.
Proof.
  unfold collapse. rewrite split_join; [reflexivity|].
  apply split_from_words. constructor.
Qed.

(* membership through split and join *)
Lemma in_split_from (s : text) : forall cur w c,
  In w (split_from cur s) -> In c w ->
  In c cur \/ (In c s /\ is_space c = false).
Proof.
  induction s as [|a s IH]; intros cur w c Hw Hc; simpl in Hw.
  - destruct cur; [contradiction|]. destruct Hw as [<-|[]]. now left.
  - destruct (is_space a) eqn:E.
    + destruct cur.
      * destruct (IH _ _ _ Hw Hc) as [[]|[? ?]]. right; split; [now right | assumption].
      * destruct Hw as [<-|Hw]; [now left|].
        destruct (IH _ _ _ Hw Hc) as [[]|[? ?]]. right; split; [now right | assumption].
    + destruct (IH _ _ _ Hw Hc) as [H|[? ?]].
      * apply in_app_or in H. destruct H as [H|[<-|[]]]; [now left|].
        right; split; [now left | assumption].
      * right; split; [now right | assumption].
Qed.

Lemma split_from_in (s : text) : forall cur c,
  In c cur \/ (In c s /\ is_space c = false) ->
  exists w, In w (split_from cur s) /\ In c w.
Proof.
  induction s as [|a s IH]; intros cur c H; simpl.
  - destruct H as [H|[[] _]]. destruct cur; [contradiction|].
    eexists; split; [now left | assumption].
  - destruct (is_space a) eqn:E.
    + destruct H as [H|[[->|H] Hs]]; try congruence.
      * destruct cur; [contradiction|]. eexists; split; [now left | assumption].
      * destruct (IH [] c) as [w [? ?]]; [right; now split|].
        exists w; split; [|assumption]. destruct cur; [assumption | now right].
    + apply IH. destruct H as [H|[[->|H] Hs]].
      * left. apply in_or_app. now left.
      * left. apply in_or_app. right. now left.
      * right. now split.
Qed.

Lemma in_join (sep : text) (ws : list text) (c : ascii) :
  In c (join sep ws) -> In c sep \/ exists w, In w ws /\ In c w.
Proof.
  induction ws as [|w ws IH]; [contradiction|].
  destruct ws as [|w2 ws].
  - simpl. intros H. right. exists w. split; [now left | assumption].
  - change (join sep (w :: w2 :: ws)) with (w ++ sep ++ join sep (w2 :: ws)).
    intros H. apply in_app_or in H. destruct H as [H|H].
    + right. exists w. split; [now left | assumption].
    + apply in_app_or in H. destruct H as [H|H]; [now left|].
      destruct (IH H) as [?|[w' [? ?]]]; [now left|].
      right. exists w'. split; [now right | assumption].
Qed.

Lemma join_in (sep : text) (ws : list text) (w : text) (c : ascii) :
  In w ws -> In c w -> In c (join sep ws).
Proof.
  induction ws as [|w1 ws IH]; [contradiction|].
  intros Hw Hc. destruct ws as [|w2 ws].
  - destruct Hw as [->|[]]. exact Hc.
  - change (join sep (w1 :: w2 :: ws)) with (w1 ++ sep ++ join sep (w2 :: ws)).
    destruct Hw as [->|Hw].
    + apply in_or_app. now left.
    + apply in_or_app. right. apply in_or_app. right. now apply IH.
Qed.

Lemma collapse_in (s : text) (c : ascii) :
  In c (collapse s) -> c = " "%char \/ (In c s /\ is_space c = false).
Proof.
  unfold collapse. intros H. apply in_join in H. destruct H as [[<-|[]]|[w [Hw Hc]]].
  - now left.
  - destruct (in_split_from _ _ _ _ Hw Hc) as [[]|?]. now right.
Qed.

Lemma in_collapse (s : text) (c : ascii) :
  In c s -> is_space c = false -> In c (collapse s).
Proof.
  intros H Hs. destruct (split_from_in s [] c) as [w [Hw Hc]]; [right; now split|].
  unfold collapse. eapply join_in; eassumption.
Qed.

Lemma collapse_Forall (P : ascii -> Prop) (s : text) :
  P " "%char -> (forall c, In c s -> is_space c = false -> P c) ->
  Forall P (collapse s).
Proof.
  intros Hsp H. apply Forall_forall. intros c Hc.
  destruct (collapse_in _ _ Hc) as [->|[? ?]]; auto.
Qed.

Lemma plus_loop_sound (p : ascii -> bool) (k : text -> option text) :
  forall s v, plus_loop p k s = Some v ->
  exists w s', s = w ++ s' /\ Forall (fun c => p c = true) w /\ k s' = Some v.
Proof.
  induction s as [|c s IH]; intros v H; simpl in H.
  - exists [], []. auto.
  - destruct (p c) eqn:E.
    + destruct (plus_loop p k s) eqn:E2.
      * injection H as <-. destruct (IH _ eq_refl) as [w [s' [-> [Hw Hk]]]].
        exists (c :: w), s'. repeat split; auto.
      * exists [], (c :: s). auto.
    + exists [], (c :: s). auto.
Qed.

Lemma match_k_sound (r : regex) : forall s k v,
  match_k r s k = Some v ->
  exists w s', s = w ++ s' /\ lang r w /\ k s' = Some v.
Proof.
  induction r as [c|p|r1 IH1 r2 IH2|r1 IH1 r2 IH2|r1 IH1|p]; intros s k v H; simpl in H.
  - destruct s as [|c' s]; [discriminate|].
    destruct (Ascii.eqb c c') eqn:E; [|discriminate].
    apply Ascii.eqb_eq in E. subst. exists [c'], s. simpl. auto.
  - destruct s as [|c' s]; [discriminate|].
    destruct (p c') eqn:E; [|discriminate].
    exists [c'], s. simpl. repeat split; eauto.
  - apply IH1 in H. destruct H as [w1 [s1 [-> [L1 H]]]].
    apply IH2 in H. destruct H as [w2 [s2 [-> [L2 H]]]].
    exists (w1 ++ w2), s2. rewrite <- app_assoc. repeat split; auto.
    simpl. eauto.
  - destruct (match_k r1 s k) eqn:E.
    + injection H as <-. apply IH1 in E. destruct E as [w [s' [-> [L Hk]]]].
      exists w, s'. simpl. auto.
    + apply IH2 in H. destruct H as [w [s' [-> [L Hk]]]].
      exists w, s'. simpl. auto.
  - destruct (match_k r1 s k) eqn:E.
    + injection H as <-. apply IH1 in E. destruct E as [w [s' [-> [L Hk]]]].
      exists w, s'. simpl. auto.
    + exists [], s. simpl. auto.
  - destruct s as [|c' s]; [discriminate|].
    destruct (p c') eqn:E; [|discriminate].
    apply plus_loop_sound in H. destruct H as [w [s' [-> [Hw Hk]]]].
    exists (c' :: w), s'. simpl. repeat split; auto. discriminate.
Qed.

Lemma re_match_sound (r : regex) (s rest : text) :
  re_match r s = Some rest -> exists w, s = w ++ rest /\ lang r w.
Proof.
  unfold re_match. intros H. apply match_k_sound in H.
  destruct H as [w [s' [-> [L Hk]]]]. injection Hk as <-. eauto.
Qed.

(* a pattern whose every match holds a character of class [q] does not match
   in a text without such characters *)
Lemma re_match_none (r : regex) (q : ascii -> bool) (s : text) :
  needs r q -> Forall (fun c => q c = false) s -> re_match r s = None.
Proof.
  intros Hn Hs. destruct (re_match r s) as [rest|] eqn:E; [|reflexivity].
  apply re_match_sound in E. destruct E as [w [-> L]].
  destruct (Hn _ L) as [c [Hc Hq]].
  rewrite Forall_forall in Hs. rewrite Hs in Hq; [discriminate|].
  apply in_or_app. now left.
Qed.

Lemma re_sub_no_match (r : regex) (q : ascii -> bool) (repl s : text) :
  needs r q -> Forall (fun c => q c = false) s -> re_sub r repl s = s.
Proof.
  intros Hn. unfold re_sub. induction s as [|c s IH]; intros Hs; [reflexivity|].
  simpl. rewrite (re_match_none Hn Hs). inversion Hs; subst. now rewrite IH.
Qed.

Lemma re_sub_from_skip (r : regex) (repl : text) (s : text) : forall n,
  re_sub_from r repl n s = re_sub_from r repl 0 (skipn n s).
Proof.
  induction s as [|c s IH]; intros [|n]; try reflexivity.
  simpl skipn. rewrite <- IH. reflexivity.
Qed.

Lemma re_sub_from_Forall (P : ascii -> Prop) (r : regex) (repl s : text) :
  Forall P repl -> Forall P s -> forall n, Forall P (re_sub_from r repl n s).
Proof.
  intros Hr. induction s as [|c s IH]; intros Hs n; [constructor|].
  inversion Hs; subst. simpl. destruct n; [|now apply IH].
  destruct (re_match r (c :: s)).
  - apply Forall_app. split; [assumption | now apply IH].
  - constructor; [assumption | now apply IH].
Qed.

Lemma re_sub_from_in (r : regex) (repl s : text) (c : ascii) : forall n,
  In c (re_sub_from r repl n s) ->
  In c s \/ (In c repl /\ incl repl (re_sub_from r repl n s)).
Proof.
  induction s as [|a s IH]; intros n H; [contradiction|].
  simpl in *. destruct n.
  - destruct (re_match r (a :: s)).
    + apply in_app_or in H. destruct H as [H|H].
      * right. split; [assumption|]. intros x Hx. apply in_or_app. now left.
      * destruct (IH _ H) as [?|[? ?]]; [left; now right|].
        right. split; [assumption|]. intros x Hx. apply in_or_app. now left.
    + destruct H as [<-|H]; [left; now left|].
      destruct (IH _ H) as [?|[? Hi]]; [left; now right|].
      right. split; [assumption|]. intros x Hx. right. now apply Hi.
  - destruct (IH _ H) as [?|[? ?]]; [left; now right | right; now split].
Qed.

(* a class pattern replaces character by character *)
Lemma re_sub_cls (p : ascii -> bool) (x : ascii) (s : text) :
  re_sub (Cls p) [x] s = map (fun c => if p c then x else c) s.
Proof.
  unfold re_sub. induction s as [|c s IH]; [reflexivity|].
  simpl. unfold re_match. simpl. destruct (p c).
  - rewrite Nat.sub_diag, IH. reflexivity.
  - now rewrite IH.
Qed.

Lemma plus_loop_Some (p : ascii -> bool) (s : text) :
  plus_loop p Some s = Some (drop_while p s).
Proof.
  induction s as [|c s IH]; [reflexivity|].
  simpl. destruct (p c); [now rewrite IH | reflexivity].
Qed.

Lemma drop_while_length (p : ascii -> bool) (s : text) :
  List.length (drop_while p s) <= List.length s.
Proof.
  induction s as [|c s IH]; simpl; [lia|]. destruct (p c); simpl; lia.
Qed.

Lemma skipn_drop_while (p : ascii -> bool) (s : text) :
  skipn (List.length s - List.length (drop_while p s)) s = drop_while p s.
Proof.
  induction s as [|c s IH]; [reflexivity|].
  simpl drop_while. destruct (p c).
  - pose proof (drop_while_length p s).
    change (List.length (c :: s)) with (S (List.length s)).
    rewrite Nat.sub_succ_l by assumption. simpl. exact IH.
  - now rewrite Nat.sub_diag.
Qed.

Lemma re_sub_plus_clears (p : ascii -> bool) (repl : text) :
  Forall (fun c => p c = false) repl ->
  forall s, Forall (fun c => p c = false) (re_sub (Plus p) repl s).
Proof.
  intros Hr s. unfold re_sub.
  remember (List.length s) as n eqn:Hn.
  assert (Hle : List.length s <= n) by lia. clear Hn.
  revert s Hle. induction n as [|n IH]; intros s Hle.
  - destruct s; [constructor | simpl in Hle; lia].
  - destruct s as [|c s]; [constructor|].
    simpl in Hle. simpl. unfold re_match. simpl.
    destruct (p c) eqn:E.
    + rewrite plus_loop_Some. apply Forall_app. split; [assumption|].
      rewrite re_sub_from_skip, skipn_drop_while.
      apply IH. pose proof (drop_while_length p s). lia.
    + constructor; [assumption|]. apply IH. lia.
Qed.

Lemma preprocess_text_Some (s : text) : preprocess_text (Some s) = pipeline s.
Proof. destruct s; reflexivity. Qed.

Lemma needs_url : needs url_re q_url.
Proof.
  intros w L. simpl in L.
  repeat match goal with
         | H : exists _, _ |- _ => destruct H
         | H : _ /\ _ |- _ => destruct H
         | H : _ \/ _ |- _ => destruct H
         end; subst.
  - exists ":"%char. split; [|reflexivity]. simpl. auto 10.
  - exists ":"%char. split; [|reflexivity]. simpl. auto 10.
  - exists "."%char. split; [|reflexivity]. simpl. auto 10.
Qed.

Lemma needs_email : needs email_re q_at.
Proof.
  intros w L. simpl in L.
  repeat match goal with
         | H : exists _, _ |- _ => destruct H
         | H : _ /\ _ |- _ => destruct H
         end; subst.
  exists "@"%char. split; [|reflexivity].
  apply in_or_app. right. now left.
Qed.

Lemma needs_digits : needs digits_re is_digit.
Proof.
  intros w [Hne Hw]. destruct w as [|c w]; [contradiction|].
  inversion Hw; subst. exists c. split; [now left | assumption].
Qed.

Lemma out2_lower (c : ascii) : outb c = true -> out2 (lower_char c) = true.
Proof. each_char c. Qed.
Lemma out2_no_url (c : ascii) : out2 c = true -> q_url c = false.
Proof. each_char c. Qed.
Lemma out2_no_at (c : ascii) : out2 c = true -> q_at c = false.
Proof. each_char c. Qed.
Lemma out2_despecial (c : ascii) :
  out2 c = true -> csb (if special c then " "%char else c) = true.
Proof. each_char c. Qed.
Lemma csb_no_digit (c : ascii) : csb c = true -> is_digit c = false.
Proof. each_char c. Qed.
Lemma csb_no_url (c : ascii) : csb c = true -> q_url c = false.
Proof. each_char c. Qed.
Lemma csb_no_at (c : ascii) : csb c = true -> q_at c = false.
Proof. each_char c. Qed.
Lemma csb_lower (c : ascii) : csb c = true -> lower_char c = c.
Proof. each_char c. Qed.
Lemma csb_not_special (c : ascii) :
  csb c = true -> (if special c then " "%char else c) = c.
Proof. each_char c. Qed.
Lemma csb_no_upper (c : ascii) : csb c = true -> is_upper c = false.
Proof. each_char c. Qed.
Lemma despecial_word (c : ascii) :
  is_space (if special c then " "%char else c) = false ->
  is_digit (if special c then " "%char else c) = false ->
  okc (if special c then " "%char else c) = true.
Proof. each_char c. Qed.
Lemma outb_clean (c : ascii) :
  outb c = true -> is_upper c = false -> c <> "["%char -> c <> "]"%char ->
  csb c = true.
Proof. each_char c; intros; exfalso; auto. Qed.

Lemma Forall_impl_bool (p q : ascii -> bool) (s : text) :
  (forall c, p c = true -> q c = false) ->
  Forall (fun c => p c = true) s -> Forall (fun c => q c = false) s.
Proof. intros H. apply Forall_impl. exact H. Qed.

(* what a second pass returns *)
Lemma pipeline_second (y : text) :
  Forall (fun c => outb c = true) y -> Forall (fun c => csb c = true) (pipeline y).
Proof.
  intros Hy. unfold pipeline.
  assert (H1 : Forall (fun c => out2 c = true) (collapse (lower y))).
  { apply collapse_Forall; [reflexivity|]. intros c Hc _.
    unfold lower in Hc. apply in_map_iff in Hc. destruct Hc as [a [<- Ha]].
    apply out2_lower. rewrite Forall_forall in Hy. now apply Hy. }
  rewrite (re_sub_no_match (str "[URL]") needs_url)
    by (eapply Forall_impl_bool; [apply out2_no_url | exact H1]).
  rewrite (re_sub_no_match (str "[EMAIL]") needs_email)
    by (eapply Forall_impl_bool; [apply out2_no_at | exact H1]).
  assert (H2 : Forall (fun c => csb c = true)
                 (re_sub special_re (str " ") (collapse (lower y)))).
  { unfold special_re. change (str " ") with [" "%char]. rewrite re_sub_cls.
    apply Forall_forall. intros c Hc. apply in_map_iff in Hc.
    destruct Hc as [a [<- Ha]]. apply out2_despecial.
    rewrite Forall_forall in H1. now apply H1. }
  rewrite (re_sub_no_match (str "[NUM]") needs_digits)
    by (eapply Forall_impl_bool; [apply csb_no_digit | exact H2]).
  apply collapse_Forall; [reflexivity|]. intros c Hc _.
  rewrite Forall_forall in H2. now apply H2.
Qed.

(* clean, collapsed text is left as it is *)
Lemma pipeline_fixed (y : text) :
  Forall (fun c => csb c = true) y -> collapse y = y -> pipeline y = y.
Proof.
  intros Hy Hc. unfold pipeline.
  assert (Hl : lower y = y).
  { unfold lower. rewrite <- (map_id y) at 2. apply map_ext_in.
    intros c Hin. apply csb_lower. rewrite Forall_forall in Hy. now apply Hy. }
  rewrite Hl, Hc.
  rewrite (re_sub_no_match (str "[URL]") needs_url)
    by (eapply Forall_impl_bool; [apply csb_no_url | exact Hy]).
  rewrite (re_sub_no_match (str "[EMAIL]") needs_email)
    by (eapply Forall_impl_bool; [apply csb_no_at | exact Hy]).
  assert (Hs : re_sub special_re (str " ") y = y).
  { unfold special_re. change (str " ") with [" "%char]. rewrite re_sub_cls.
    rewrite <- (map_id y) at 2. apply map_ext_in.
    intros c Hin. apply csb_not_special. rewrite Forall_forall in Hy. now apply Hy. }
  rewrite Hs.
  rewrite (re_sub_no_match (str "[NUM]") needs_digits)
    by (eapply Forall_impl_bool; [apply csb_no_digit | exact Hy]).
  exact Hc.
Qed.

Lemma pipeline_collapsed (s : text) : collapse (pipeline s) = pipeline s.
Proof. unfold pipeline. apply collapse_idem. Qed.

(* what a first pass returns *)
Lemma pipeline_chars (s : text) (c : ascii) :
  In c (pipeline s) ->
  okc c = true \/ c = " "%char \/
  ((c = "["%char \/ c = "]"%char) /\ In "N"%char (pipeline s)).
Proof.
  unfold pipeline.
  set (t4 := re_sub email_re (str "[EMAIL]")
               (re_sub url_re (str "[URL]") (collapse (lower s)))).
  set (t5 := re_sub special_re (str " ") t4).
  set (z := re_sub digits_re (str "[NUM]") t5).
  intros Hc. apply collapse_in in Hc. destruct Hc as [->|[Hz Hsp]]; [auto|].
  assert (Hd : is_digit c = false).
  { assert (F : Forall (fun c => is_digit c = false) z).
    { apply re_sub_plus_clears. repeat constructor. }
    rewrite Forall_forall in F. now apply F. }
  apply re_sub_from_in in Hz. destruct Hz as [H5|[Hr Hi]].
  - left. unfold t5, special_re in H5. change (str " ") with [" "%char] in H5.
    rewrite re_sub_cls in H5. apply in_map_iff in H5.
    destruct H5 as [a [<- _]]. now apply despecial_word.
  - assert (HN : In "N"%char (collapse z)).
    { apply in_collapse; [|reflexivity]. apply Hi. simpl. auto. }
    simpl in Hr.
    destruct Hr as [<-|[<-|[<-|[<-|[<-|[]]]]]]; auto.
Qed.

Lemma pipeline_out (s : text) : Forall (fun c => outb c = true) (pipeline s).
Proof.
  apply Forall_forall. intros c Hc.
  destruct (pipeline_chars _ _ Hc) as [H|[->|[[->| ->] _]]];
    [unfold outb; now rewrite H | reflexivity | reflexivity | reflexivity].
Qed.

Lemma third_pass (s : text) : pipeline (pipeline (pipeline s)) = pipeline (pipeline s).
Proof.
  apply pipeline_fixed; [|apply pipeline_collapsed].
  apply pipeline_second. apply pipeline_out.
Qed.

Lemma second_pass_iff (s : text) :
  pipeline (pipeline s) = pipeline s <-> no_upper (pipeline s).
Proof.
  split.
  - intros H. rewrite <- H. unfold no_upper.
    eapply Forall_impl; [apply csb_no_upper|].
    apply pipeline_second. apply pipeline_out.
  - intros Hu. apply pipeline_fixed; [|apply pipeline_collapsed].
    apply Forall_forall. intros c Hc.
    unfold no_upper in Hu. rewrite Forall_forall in Hu.
    destruct (pipeline_chars _ _ Hc) as [H|[->|[_ HN]]].
    + assert (Ho : outb c = true) by (unfold outb; now rewrite H).
      apply outb_clean; auto.
      * intros ->. discriminate H.
      * intros ->. discriminate H.
    + reflexivity.
    + apply Hu in HN. discriminate HN.
Qed.

(* ---------- Q comparisons ---------- *)
Lemma Qltb_lt (a b : Q) : Qltb a b = true <-> (a < b)%Q.
Proof.
  unfold Qltb. rewrite Qlt_alt. destruct (a ?= b)%Q; split; congruence.
Qed.

Lemma Qltb_ge (a b : Q) : Qltb a b = false <-> (b <= a)%Q.
Proof.
  rewrite <- not_true_iff_false, Qltb_lt. split; [apply Qnot_lt_le | apply Qle_not_lt].
Qed.

(* ---------- dictionaries ---------- *)
Section DictFacts.
Variable V : Type.
Implicit Types (d : dict V) (k : string) (v : V).

Lemma dict_get_set d k v k' :
  dict_get (dict_set d k v) k' = if String.eqb k' k then Some v else dict_get d k'.
Proof.
  induction d as [|[k0 v0] d IH]; simpl.
  - destruct (String.eqb k' k); reflexivity.
  - destruct (String.eqb k k0) eqn:E; simpl.
    + apply String.eqb_eq in E. subst k0.
      destruct (String.eqb k' k); reflexivity.
    + destruct (String.eqb k' k0) eqn:E2.
      * apply String.eqb_eq in E2. subst k0.
        rewrite String.eqb_sym, E. reflexivity.
      * exact IH.
Qed.

Lemma dict_get_None d k : dict_get d k = None <-> ~ In k (keys d).
Proof.
  induction d as [|[k0 v0] d IH]; simpl; [tauto|].
  destruct (String.eqb k k0) eqn:E.
  - apply String.eqb_eq in E. subst. split; [discriminate | intros H; exfalso; auto].
  - apply String.eqb_neq in E. rewrite IH. split; intros H.
    + intros [?|?]; [congruence | auto].
    + intros ?. apply H. now right.
Qed.

Lemma In_dict_get d k v : NoDup (keys d) -> In (k, v) d -> dict_get d k = Some v.
Proof.
  induction d as [|[k0 v0] d IH]; simpl; [contradiction|].
  intros Hnd [H|H]; inversion Hnd as [|? ? Hnotin Hnd']; subst.
  - injection H as -> ->. now rewrite String.eqb_refl.
  - destruct (String.eqb k k0) eqn:E; [|now apply IH].
    apply String.eqb_eq in E. subst k0. exfalso. apply Hnotin.
    change k with (fst (k, v)). now apply in_map.
Qed.

Lemma keys_dict_set d k v c : In c (keys (dict_set d k v)) <-> c = k \/ In c (keys d).
Proof.
  induction d as [|[k0 v0] d IH]; simpl.
  - split; [intros [<-|[]]; now left | intros [->|[]]; now left].
  - destruct (String.eqb k k0) eqn:E; simpl.
    + apply String.eqb_eq in E. subst k0. intuition.
    + rewrite IH. intuition.
Qed.

Lemma dict_set_NoDup d k v : NoDup (keys d) -> NoDup (keys (dict_set d k v)).
Proof.
  induction d as [|[k0 v0] d IH]; simpl; intros H.
  - constructor; [intros [] | constructor].
  - inversion H as [|? ? Hnotin Hnd]; subst.
    destruct (String.eqb k k0) eqn:E; simpl.
    + apply String.eqb_eq in E. subst k0. now constructor.
    + constructor; [|now apply IH].
      rewrite keys_dict_set. intros [->|?]; [|contradiction].
      rewrite String.eqb_refl in E. discriminate.
Qed.

Lemma dict_set_not_nil d k v : dict_set d k v <> [].
Proof. destruct d as [|[k0 v0] d]; simpl; [|destruct (String.eqb k k0)]; discriminate. Qed.
End DictFacts.

(* ---------- loops that fill a dictionary ---------- *)
Section FillLoop.
Variable f : dict Q -> string -> M (dict Q).
Variable P : string -> Q -> Prop.
Hypothesis step : forall d c w,
  exists s w', f d c w = (Ok (dict_set d c s), w') /\
               w_session w' = w_session w /\ P c s.

Lemma fill_loop (cats : list string) : forall d w,
  NoDup (keys d) ->
  (forall c s, dict_get d c = Some s -> P c s) ->
  exists d' w',
    for_each f cats d w = (Ok d', w') /\
    w_session w' = w_session w /\
    NoDup (keys d') /\
    (forall c, In c (keys d') <-> In c cats \/ In c (keys d)) /\
    (forall c s, dict_get d' c = Some s -> P c s).
Proof.
  induction cats as [|c cats IH]; intros d w Hnd HP.
  - exists d, w. simpl. unfold ret. repeat split; auto; tauto.
  - destruct (step d c w) as [s [w1 [E [Hs Hp]]]].
    destruct (IH (dict_set d c s) w1) as [d' [w' [E' [Hs' [Hnd' [Hk HP']]]]]].
    + now apply dict_set_NoDup.
    + intros c0 s0. rewrite dict_get_set.
      destruct (String.eqb c0 c) eqn:Ec; [|now apply HP].
      apply String.eqb_eq in Ec. intros [= <-]. now subst.
    + exists d', w'. simpl. unfold bind. rewrite E, E'.
      repeat split; auto; try congruence.
      * intros H. apply Hk in H. rewrite keys_dict_set in H. intuition.
      * intros H. apply Hk. rewrite keys_dict_set. intuition.
Qed.
End FillLoop.

Lemma random_step (env : Env) (d : dict Q) (c : string) (w : World) :
  exists s w',
    bind (random_uniform env (1 # 10) (9 # 10)) (fun s => ret (dict_set d c s)) w
      = (Ok (dict_set d c s), w') /\
    w_session w' = w_session w /\ is_draw env s.
Proof.
  eexists. eexists. unfold bind, random_uniform, ret. simpl.
  repeat split. now exists (w_draws w).
Qed.

Lemma classify_category_step (env : Env) (clf : ContentClassifier) (t : text)
    (d : dict Q) (c : string) (w : World) :
  untrained clf = false ->
  exists s w', classify_category env clf t d c w = (Ok (dict_set d c s), w') /\
               w_session w' = w_session w /\ score_of env clf t c s.
Proof.
  intros Hu. unfold classify_category, score_of, try_except. rewrite Hu.
  destruct (can_transform clf c).
  - unfold bind at 1. unfold lift.
    destruct (model_score clf c t) as [p|e].
    + exists p, w. unfold ret. auto.
    + unfold bind at 1. unfold log_error.
      match goal with |- context [bind _ _ ?w1] => destruct (random_step env d c w1) as [s [w' [E [Hs Hd]]]] end.
      exists s, w'. rewrite E. repeat split; auto.
  - destruct (random_step env d c w) as [s [w' [E [Hs Hd]]]].
    exists s, w'. rewrite E. auto.
Qed.

Lemma classify_text_spec (env : Env) (clf : ContentClassifier) (t : text) (w : World) :
  exists d w',
    classify_text env clf t w = (Ok d, w') /\
    w_session w' = w_session w /\
    NoDup (keys d) /\
    (forall c, In c (keys d) <-> In c (categories clf)) /\
    (forall c s, dict_get d c = Some s -> score_of env clf t c s).
Proof.
  unfold classify_text. fold (untrained clf).
  destruct (untrained clf) eqn:Hu.
  - destruct (@fill_loop
                (fun d category => bind (random_uniform env (1 # 10) (9 # 10))
                                        (fun s => ret (dict_set d category s)))
                (fun _ s => is_draw env s)
                (fun d c w => @random_step env d c w)
                (categories clf) [] w) as [d [w' [E [Hs [Hnd [Hk HP]]]]]].
    + constructor.
    + discriminate.
    + exists d, w'. unfold generate_random_classification. rewrite E.
      repeat split; auto.
      * intros H. apply Hk in H. destruct H as [?|[]]. assumption.
      * intros H. apply Hk. now left.
      * intros c s H. unfold score_of. rewrite Hu. eauto.
  - destruct (@fill_loop (classify_category env clf t) (score_of env clf t)
                (fun d c w => @classify_category_step env clf t d c w Hu)
                (categories clf) [] w) as [d [w' [E [Hs [Hnd [Hk HP]]]]]].
    + constructor.
    + discriminate.
    + exists d, w'. rewrite E. repeat split; auto.
      * intros H. apply Hk in H. destruct H as [?|[]]. assumption.
      * intros H. apply Hk. now left.
Qed.

Lemma and_then_Ok {A B} (r : Result A) (f : A -> Result B) (b : B) :
  and_then r f = Ok b -> exists a, r = Ok a /\ f a = Ok b.
Proof. destruct r; simpl; [eauto | discriminate]. Qed.

Lemma model_score_proba (clf : ContentClassifier) (c : string) (t : text) (p : Q) :
  proba_valid clf -> model_score clf c t = Ok p -> (0 <= p)%Q /\ (p <= 1)%Q.
Proof.
  intros Hv H. unfold model_score in H.
  apply and_then_Ok in H. destruct H as [v [_ H]].
  apply and_then_Ok in H. destruct H as [X [_ H]].
  apply and_then_Ok in H. destruct H as [m [Hm H]].
  apply and_then_Ok in H. destruct H as [rows [Hr H]].
  apply and_then_Ok in H. destruct H as [y_prob [Hy H]].
  unfold getitem in Hm. destruct (dict_get (models clf) c) as [m'|] eqn:Em; [|discriminate].
  injection Hm as ->.
  unfold index in Hy, H.
  destruct (nth_error rows 0) eqn:E0; [|discriminate]. injection Hy as ->.
  destruct (nth_error y_prob 1) eqn:E1; [|discriminate]. injection H as ->.
  eapply Hv; eauto using nth_error_In.
Qed.

Lemma draw_range (env : Env) (s : Q) :
  uniform_in_range env -> is_draw env s -> (1 # 10 <= s)%Q /\ (s <= 9 # 10)%Q.
Proof.
  intros Hu [n ->]. apply Hu. discriminate.
Qed.

Lemma score_of_unit (env : Env) (clf : ContentClassifier) (t : text) (c : string) (s : Q) :
  uniform_in_range env -> proba_valid clf ->
  score_of env clf t c s -> (0 <= s)%Q /\ (s <= 1)%Q.
Proof.
  intros Hu Hv H.
  assert (D : is_draw env s -> (0 <= s)%Q /\ (s <= 1)%Q).
  { intros Hd. destruct (draw_range Hu Hd) as [H1 H2]. split.
    - eapply Qle_trans; [|exact H1]. discriminate.
    - eapply Qle_trans; [exact H2|]. discriminate. }
  unfold score_of in H. destruct (untrained clf); [auto|].
  destruct (can_transform clf c); [|auto].
  destruct (model_score clf c t) eqn:E; [|auto].
  subst. eapply model_score_proba; eauto.
Qed.

Lemma classify_content_spec (env : Env) (clf : ContentClassifier) (ctype : string)
    (pt : text) (md : option Metadata) (w : World) :
  exists cls w',
    classify_content env clf ctype pt md w = (Ok cls, w') /\
    w_session w' = w_session w /\ NoDup (keys cls).
Proof.
  unfold classify_content.
  destruct (classify_text_spec env clf pt w) as [d [w' [E [Hs [Hnd _]]]]].
  assert (Hm : forall mt, NoDup (keys (generate_media_classification env mt md))).
  { intros mt. unfold generate_media_classification.
    destruct (String.eqb mt "image"); [|destruct (String.eqb mt "video")];
      repeat apply dict_set_NoDup; constructor. }
  destruct (String.eqb ctype "text"); [eauto|].
  destruct (String.eqb ctype "image"); [unfold ret; eauto|].
  destruct (String.eqb ctype "video"); [unfold ret; eauto|].
  eauto.
Qed.

Lemma for_each_cons {A B} (f : B -> A -> M B) (x : A) (xs : list A) (acc : B) (w : World) :
  for_each f (x :: xs) acc w =
  match f acc x w with
  | (Ok a, w') => for_each f xs a w'
  | (Raise e, w') => (Raise e, w')
  end.
Proof. reflexivity. Qed.

Lemma flag_category_step (env : Env) (id : nat) (pt : text)
    (fl : list ContentFlag) (kv : string * Q) (w : World) :
  flag_category env id pt fl kv w =
  if reported kv
  then match env_explain env pt (fst kv) with
       | Ok ex => (Ok (fl ++ [new_flag env id kv ex]),
                   world_add_flag (new_flag env id kv ex) w)
       | Raise e => (Raise e, w)
       end
  else (Ok fl, w).
Proof.
  destruct kv as [category score]. unfold flag_category, reported. simpl.
  destruct (Qltb (3 # 10) score); [|reflexivity].
  unfold bind, lift. destruct (env_explain env pt category); reflexivity.
Qed.

Lemma flag_loop (env : Env) (id : nat) (pt : text) (cls : dict Q) :
  forall fl w,
    match for_each (flag_category env id pt) cls fl w with
    | (Ok fl', w') =>
        exists new,
          fl' = fl ++ new /\
          map flag_entry new = filter reported cls /\
          Forall (fun f => cf_content_id f = Some id) new /\
          committed (w_session w') = committed (w_session w) /\
          working (w_session w') =
            with_flags (working (w_session w)) (flags (working (w_session w)) ++ new)
    | (Raise e, w') => committed (w_session w') = committed (w_session w)
    end.
Proof.
  induction cls as [|kv cls IH]; intros fl w.
  - simpl. exists []. rewrite !app_nil_r. repeat split; auto.
    destruct w as [[c [? ? ? ? ?]] ? ?]. reflexivity.
  - rewrite for_each_cons, flag_category_step. simpl filter.
    destruct (reported kv) eqn:E.
    + destruct (env_explain env pt (fst kv)) as [ex|e]; [|reflexivity].
      specialize (IH (fl ++ [new_flag env id kv ex])
                     (world_add_flag (new_flag env id kv ex) w)).
      destruct (for_each (flag_category env id pt) cls
                  (fl ++ [new_flag env id kv ex])
                  (world_add_flag (new_flag env id kv ex) w)) as [[fl'|e] w'];
        [|exact IH].
      destruct IH as [new [-> [Hm [Hid [Hc Hw]]]]].
      exists (new_flag env id kv ex :: new). rewrite <- app_assoc.
      repeat split; auto.
      * simpl. rewrite Hm. unfold flag_entry at 1. simpl. now destruct kv.
      * rewrite Hw. unfold with_flags. simpl. now rewrite <- app_assoc.
    + specialize (IH fl w).
      destruct (for_each (flag_category env id pt) cls fl w) as [[fl'|e] w']; exact IH.
Qed.

Lemma update_last_app {A} (f : A -> A) (l : list A) (x : A) :
  update_last f (l ++ [x]) = l ++ [f x].
Proof.
  induction l as [|a l IH]; [reflexivity|].
  simpl. rewrite IH. destruct (l ++ [x]) eqn:E; [|reflexivity].
  destruct l; discriminate.
Qed.

Lemma bind_step {A B} (m : M A) (f : A -> M B) (w : World) (a : A) (w1 : World) :
  m w = (Ok a, w1) -> bind m f w = f a w1.
Proof. intros H. unfold bind. now rewrite H. Qed.

Lemma bind_raise {A B} (m : M A) (f : A -> M B) (w : World) (e : Exn) (w1 : World) :
  m w = (Raise e, w1) -> bind m f w = (Raise e, w1).
Proof. intros H. unfold bind. now rewrite H. Qed.

Lemma process_content_body_cases (env : Env) (clf : ContentClassifier)
    (content_text : option text) (ctype : string) (uid : option nat)
    (md : option Metadata) (w : World) :
  match process_content_body env clf content_text ctype uid md w with
  | (Raise e, w') => committed (w_session w') = committed (w_session w)
  | (Ok r, w') =>
      exists s i cls wa wb,
        content_text = Some s /\ env_flush env = Some i /\ env_commit env = true /\
        classify_content env clf ctype (preprocessed ctype content_text md) md wa
          = (Ok cls, wb) /\
        w_draws wa = w_draws w /\ NoDup (keys cls) /\
        c_id (pr_content r) = Some i /\
        pr_status r = {| ms_content_id := Some i;
                         ms_status := initial_status (overall_score cls);
                         ms_moderation_score := overall_score cls;
                         ms_is_automated := true;
                         ms_last_updated := env_now env;
                         ms_processing_time := Some (env_elapsed env) |} /\
        map flag_entry (pr_flags r) = filter reported cls /\
        Forall (fun f => cf_content_id f = Some i) (pr_flags r) /\
        pr_action r = {| ma_content_id := Some i;
                         ma_user_id := None;
                         ma_action_type := ("automated_" ++ initial_status (overall_score cls))%string;
                         ma_action_notes :=
                           Some (AutomatedNotes (initial_status (overall_score cls))
                                                (overall_score cls));
                         ma_previous_status := None;
                         ma_created_at := env_now env |} /\
        committed (w_session w') = insert_processed (working (w_session w)) r /\
        working (w_session w') = committed (w_session w')
  end.
Proof.
  unfold process_content_body. fold (preprocessed ctype content_text md).
  destruct content_text as [s|].
  2:{ unfold bind at 1. destruct (is_media ctype); simpl; reflexivity. }
  rewrite (@bind_step _ _ _ _ w (is_media ctype && (1000 <? List.length s)) w)
    by (unfold bind, the_text, ret; destruct (is_media ctype); reflexivity).
  erewrite bind_step by reflexivity.
  erewrite bind_step by reflexivity.
  unfold session_flush.
  destruct (env_flush env) as [i|]; [|reflexivity].
  erewrite bind_step by reflexivity.
  cbn [w_session working committed w_draws w_log with_contents contents statuses
       flags actions metrics].
  rewrite update_last_app.
  match goal with |- context [bind (classify_content _ _ _ _ _) _ ?w2] =>
    destruct (classify_content_spec env clf ctype (preprocessed ctype (Some s) md) md w2)
      as [cls [w3 [Ec [Hs3 Hnd]]]]
  end.
  erewrite bind_step by exact Ec.
  erewrite bind_step by reflexivity.
  match goal with |- context [bind (for_each ?f ?c ?a) _ ?w4] =>
    pose proof (flag_loop env i (preprocessed ctype (Some s) md) cls [] w4) as Hfl;
    destruct (for_each f c a w4) as [[fl|e] w5] eqn:Efl
  end.
  2:{ erewrite bind_raise by exact Efl. rewrite Hfl. simpl. rewrite Hs3. reflexivity. }
  erewrite bind_step by exact Efl.
  destruct Hfl as [new [Hfl [Hm [Hid [Hc5 Hw5]]]]]. simpl in Hfl. subst fl.
  erewrite bind_step by reflexivity.
  unfold session_commit.
  destruct (env_commit env) eqn:Ecm.
  2:{ erewrite bind_raise by reflexivity. simpl. rewrite Hc5. simpl.
      rewrite Hs3. reflexivity. }
  erewrite bind_step by reflexivity.
  unfold ret. cbn [w_session committed working pr_content pr_status pr_flags pr_action].
  eexists s, i, cls, _, w3.
  split; [reflexivity|]. split; [reflexivity|]. split; [reflexivity|].
  split; [exact Ec|].
  repeat split; auto.
  rewrite Hw5. cbn [w_session working]. rewrite Hs3.
  reflexivity.
Qed.

Lemma update_found (env : Env) (id : nat) (status : string) (uid : option nat)
    (notes : option text) (w : World) (c : Content) (cur : ModerationStatus) :
  find (has_id id) (contents (view w)) = Some c ->
  find (status_for id) (statuses (view w)) = Some cur ->
  update_moderation_status env id status uid notes w =
  if env_commit env
  then (Ok (Some (set_status status (env_now env) cur)),
        {| w_session :=
             {| committed := tables_after_update env id status uid notes (ms_status cur) (view w);
                working := tables_after_update env id status uid notes (ms_status cur) (view w) |};
           w_draws := w_draws w;
           w_log := w_log w |})
  else (Ok None,
        {| w_session := {| committed := stored w; working := stored w |};
           w_draws := w_draws w;
           w_log := w_log w ++ [ErrorUpdatingStatus DatabaseError] |}).
Proof.
  intros Hc Hs. unfold update_moderation_status, try_except.
  erewrite bind_step by (unfold query_content, bind, get_working, ret; reflexivity).
  fold (has_id id). unfold view in Hc, Hs. rewrite Hc.
  erewrite bind_step by (unfold query_status, bind, get_working, ret; reflexivity).
  fold (status_for id). rewrite Hs.
  erewrite bind_step by reflexivity.
  erewrite bind_step by reflexivity.
  erewrite bind_step by reflexivity.
  unfold session_commit. destruct (env_commit env).
  - erewrite bind_step by reflexivity. reflexivity.
  - erewrite bind_raise by reflexivity. reflexivity.
Qed.

Lemma update_no_content (env : Env) (id : nat) (status : string) (uid : option nat)
    (notes : option text) (w : World) :
  find (has_id id) (contents (view w)) = None ->
  update_moderation_status env id status uid notes w =
  (Ok None, {| w_session := w_session w;
               w_draws := w_draws w;
               w_log := w_log w ++ [ContentNotFound id] |}).
Proof.
  intros Hc. unfold update_moderation_status, try_except.
  erewrite bind_step by (unfold query_content, bind, get_working, ret; reflexivity).
  fold (has_id id). unfold view in Hc. rewrite Hc. reflexivity.
Qed.

Lemma update_no_status (env : Env) (id : nat) (status : string) (uid : option nat)
    (notes : option text) (w : World) (c : Content) :
  find (has_id id) (contents (view w)) = Some c ->
  find (status_for id) (statuses (view w)) = None ->
  update_moderation_status env id status uid notes w =
  (Ok None, {| w_session := w_session w;
               w_draws := w_draws w;
               w_log := w_log w ++ [StatusNotFound id] |}).
Proof.
  intros Hc Hs. unfold update_moderation_status, try_except.
  erewrite bind_step by (unfold query_content, bind, get_working, ret; reflexivity).
  fold (has_id id). unfold view in Hc, Hs. rewrite Hc.
  erewrite bind_step by (unfold query_status, bind, get_working, ret; reflexivity).
  fold (status_for id). rewrite Hs. reflexivity.
Qed.

Lemma find_update_first {A} (p : A -> bool) (f : A -> A) (l : list A) (x : A) :
  find p l = Some x -> p (f x) = true -> find p (update_first p f l) = Some (f x).
Proof.
  induction l as [|a l IH]; simpl; [discriminate|].
  destruct (p a) eqn:E.
  - intros [= ->] H. simpl. now rewrite H.
  - intros H1 H2. simpl. rewrite E. now apply IH.
Qed.

Lemma disposition_after (env : Env) (id : nat) (status : string) (uid : option nat)
    (notes : option text) (prev : string) (t : Tables) (cur : ModerationStatus) :
  find (status_for id) (statuses t) = Some cur ->
  disposition id (tables_after_update env id status uid notes prev t) = Some status.
Proof.
  intros H. unfold disposition, tables_after_update. simpl.
  rewrite (find_update_first _ _ _ H); [reflexivity|].
  apply find_some in H. destruct H as [_ H]. exact H.
Qed.

Lemma actions_after (env : Env) (id : nat) (status : string) (uid : option nat)
    (notes : option text) (prev : string) (t : Tables) :
  actions_of id (tables_after_update env id status uid notes prev t)
  = actions_of id t ++ [manual_action env id status uid notes prev].
Proof.
  unfold actions_of, tables_after_update. simpl. rewrite filter_app. simpl.
  unfold action_for at 2. simpl. now rewrite Nat.eqb_refl.
Qed.

Lemma update_audited (id : nat) (u : StatusUpdate) (w : World) (c : Content)
    (cur : ModerationStatus) :
  find (has_id id) (contents (view w)) = Some c ->
  find (status_for id) (statuses (view w)) = Some cur ->
  commits u ->
  let rw := update_moderation_status (su_env u) id (su_status u) (su_user_id u)
              (su_notes u) w in
  audited_step id u w (fst rw) (snd rw) /\
  contents (view (snd rw)) = contents (view w) /\
  actions_of id (view (snd rw)) =
    actions_of id (view w) ++
    [manual_action (su_env u) id (su_status u) (su_user_id u) (su_notes u) (ms_status cur)].
Proof.
  intros Hc Hs Hcm. unfold commits in Hcm.
  rewrite (@update_found (su_env u) id (su_status u) (su_user_id u) (su_notes u) w c cur Hc Hs), Hcm. simpl.
  split; [|split].
  - exists (ms_status cur), (set_status (su_status u) (env_now (su_env u)) cur),
           (manual_action (su_env u) id (su_status u) (su_user_id u) (su_notes u) (ms_status cur)).
    unfold disposition. rewrite Hs. repeat split.
    unfold view at 1. simpl. apply find_update_first; [assumption|].
    apply find_some in Hs. destruct Hs as [_ Hs]. exact Hs.
  - reflexivity.
  - unfold view at 1. simpl. apply actions_after.
Qed.

Lemma last_default {A} (l : list A) : forall (x d d' : A),
  last (x :: l) d = last (x :: l) d'.
Proof.
  induction l as [|y l IH]; intros x d d'; [reflexivity|].
  change (last (y :: l) d = last (y :: l) d'). apply IH.
Qed.

Lemma last_cons {A} (l : list A) (x d : A) : last (x :: l) d = last l x.
Proof.
  destruct l as [|y l]; [reflexivity|].
  change (last (y :: l) d = last (y :: l) x). apply last_default.
Qed.

Lemma update_many_audited (id : nat) (calls : list StatusUpdate) : forall (w : World)
    (c : Content) (cur : ModerationStatus),
  find (has_id id) (contents (view w)) = Some c ->
  find (status_for id) (statuses (view w)) = Some cur ->
  Forall commits calls ->
  chain (audited_step id) calls w (update_many id calls w) /\
  exists new,
    actions_of id (view (final_world w (update_many id calls w)))
      = actions_of id (view w) ++ new /\
    List.length new = List.length calls /\
    Forall (fun a => ma_previous_status a <> None) new.
Proof.
  induction calls as [|u calls IH]; intros w c cur Hc Hs Hcm.
  - split; [exact I|]. exists []. simpl. rewrite app_nil_r. auto.
  - inversion Hcm as [|? ? Hu Hrest]; subst.
    destruct (@update_audited id u w c cur Hc Hs Hu) as [Ha [Hcont Hact]].
    simpl update_many.
    set (rw := update_moderation_status (su_env u) id (su_status u) (su_user_id u)
                 (su_notes u) w) in *.
    destruct Ha as [prev [st [a Ha]]].
    assert (Hc' : find (has_id id) (contents (view (snd rw))) = Some c)
      by (rewrite Hcont; exact Hc).
    assert (Hs' : find (status_for id) (statuses (view (snd rw))) = Some st)
      by (apply Ha).
    destruct (IH (snd rw) c st Hc' Hs' Hrest) as [Hch [new [Hn [Hl Hp]]]].
    split.
    + simpl. destruct rw as [r w1]. simpl in *. split; [|exact Hch].
      exists prev, st, a. exact Ha.
    + exists (manual_action (su_env u) id (su_status u) (su_user_id u) (su_notes u)
                (ms_status cur) :: new).
      repeat split.
      * unfold final_world in *. simpl map.
        rewrite last_cons, Hn, Hact, <- app_assoc. reflexivity.
      * simpl. now rewrite Hl.
      * constructor; [discriminate | exact Hp].
Qed.

Lemma chain_committed (id : nat) (calls : list StatusUpdate) : forall (w : World)
    (trace : list (Result (option ModerationStatus) * World)),
  chain (audited_step id) calls w trace ->
  calls <> [] ->
  stored (final_world w trace) = view (final_world w trace).
Proof.
  induction calls as [|u calls IH]; intros w trace Hch Hne; [contradiction|].
  destruct trace as [|[r w'] trace]; [contradiction|].
  destruct Hch as [Hstep Hch]. unfold final_world. simpl map. rewrite last_cons.
  destruct calls as [|u' calls].
  - destruct trace; [|contradiction]. simpl.
    destruct Hstep as [prev [st [a Hstep]]]. apply Hstep.
  - apply (IH w' trace Hch). discriminate.
Qed.

(** *** The outcome of [process_content] *)

Lemma process_content_outcome (env : Env) (clf : ContentClassifier)
    (content_text : option text) (ctype : string) (uid : option nat)
    (md : option Metadata) (w : World) :
  match process_content_body env clf content_text ctype uid md w with
  | (Ok r, w1) =>
      process_content env clf content_text ctype uid md w = (Ok (Some r), w1)
  | (Raise e, w1) =>
      process_content env clf content_text ctype uid md w =
      (Ok None,
       {| w_session := {| committed := stored w1; working := stored w1 |};
          w_draws := w_draws w1;
          w_log := w_log w1 ++ [ErrorProcessingContent e] |})
  end.
Proof.
  unfold process_content, try_except.
  destruct (process_content_body env clf content_text ctype uid md w) as [[r|e] w1] eqn:E.
  - erewrite bind_step by exact E. reflexivity.
  - erewrite bind_raise by exact E. reflexivity.
Qed.

Lemma process_content_success (env : Env) (clf : ContentClassifier)
    (content_text : option text) (ctype : string) (uid : option nat)
    (md : option Metadata) (w : World) (r : Processed) (w' : World) :
  process_content env clf content_text ctype uid md w = (Ok (Some r), w') ->
  process_content_body env clf content_text ctype uid md w = (Ok r, w').
Proof.
  intros H.
  pose proof (process_content_outcome env clf content_text ctype uid md w) as Ho.
  destruct (process_content_body env clf content_text ctype uid md w) as [[r1|e] w1].
  - rewrite Ho in H. now injection H as -> ->.
  - rewrite Ho in H. discriminate.
Qed.

(** The facts about a successful call that the properties below share. *)
Lemma process_content_facts (env : Env) (clf : ContentClassifier)
    (content_text : option text) (ctype : string) (uid : option nat)
    (md : option Metadata) (w : World) (r : Processed) (w' : World) :
  process_content env clf content_text ctype uid md w = (Ok (Some r), w') ->
  exists cls,
    classification_of env clf content_text ctype md w cls /\
    NoDup (keys cls) /\
    ms_moderation_score (pr_status r) = overall_score cls /\
    ms_status (pr_status r) = initial_status (overall_score cls) /\
    map flag_entry (pr_flags r) = filter reported cls /\
    stored w' = insert_processed (view w) r.
Proof.
  intros H. apply process_content_success in H.
  pose proof (process_content_body_cases env clf content_text ctype uid md w) as Hc.
  rewrite H in Hc.
  destruct Hc as [s [i [cls [wa [wb Hc]]]]].
  destruct Hc as [_ [_ [_ [Ec [Hd [Hnd [_ [Hst [Hfl [_ [_ [Hcm _]]]]]]]]]]]].
  exists cls. repeat split; auto.
  - exists wa, wb. auto.
  - rewrite Hst. reflexivity.
  - rewrite Hst. reflexivity.
Qed.

(** *** The disposition rule *)

Lemma initial_status_rule (score : Q) :
  ((8 # 10 < score)%Q -> initial_status score = "rejected"%string) /\
  ((score < 3 # 10)%Q -> initial_status score = "approved"%string) /\
  ((3 # 10 <= score)%Q -> (score <= 8 # 10)%Q ->
   initial_status score = "pending"%string).
Proof.
  unfold initial_status. repeat split.
  - intros H. apply Qltb_lt in H. now rewrite H.
  - intros H.
    assert (H8 : Qltb (8 # 10) score = false).
    { apply Qltb_ge. apply Qlt_le_weak. eapply Qlt_trans; [exact H|]. reflexivity. }
    apply Qltb_lt in H. now rewrite H8, H.
  - intros H3 H8. apply Qltb_ge in H3, H8. now rewrite H8, H3.
Qed.

(** *** Flags *)

Lemma filter_key (cls : dict Q) (category : string) :
  NoDup (keys cls) ->
  filter (fun kv => String.eqb (fst kv) category) cls =
  match dict_get cls category with
  | Some s => [(category, s)]
  | None => []
  end.
Proof.
  induction cls as [|[k v] cls IH]; intros Hnd; [reflexivity|].
  inversion Hnd as [|? ? Hnotin Hnd']; subst. simpl.
  rewrite (String.eqb_sym category k).
  destruct (String.eqb k category) eqn:E.
  - apply String.eqb_eq in E. subst k.
    rewrite IH by assumption.
    apply dict_get_None in Hnotin. now rewrite Hnotin.
  - now apply IH.
Qed.

Lemma filter_comm {A} (p q : A -> bool) (l : list A) :
  filter p (filter q l) = filter q (filter p l).
Proof.
  induction l as [|x l IH]; [reflexivity|]. simpl.
  destruct (p x) eqn:Ep, (q x) eqn:Eq; simpl; rewrite ?Ep, ?Eq, IH; reflexivity.
Qed.

Lemma filter_map_swap {A B} (g : A -> B) (p : B -> bool) (l : list A) :
  map g (filter (fun x => p (g x)) l) = filter p (map g l).
Proof.
  induction l as [|x l IH]; [reflexivity|]. simpl.
  destruct (p (g x)); simpl; now rewrite IH.
Qed.

Lemma flags_of_category (cls : dict Q) (fl : list ContentFlag) (category : string) :
  NoDup (keys cls) ->
  map flag_entry fl = filter reported cls ->
  map flag_entry (flags_of category fl) =
  match dict_get cls category with
  | Some s => if reported (category, s) then [(category, s)] else []
  | None => []
  end.
Proof.
  intros Hnd Hfl. unfold flags_of.
  change (fun f : ContentFlag => String.eqb (cf_flag_type f) category)
    with (fun f : ContentFlag => (fun kv : string * Q => String.eqb (fst kv) category) (flag_entry f)).
  rewrite filter_map_swap, Hfl, filter_comm, filter_key by assumption.
  destruct (dict_get cls category); reflexivity.
Qed.

(** *** The overall score *)

Lemma py_max_cases (a b : Q) :
  (py_max a b = a /\ (b <= a)%Q) \/ (py_max a b = b /\ (a < b)%Q).
Proof.
  unfold py_max. destruct (Qltb a b) eqn:E.
  - right. split; [reflexivity | now apply Qltb_lt].
  - left. split; [reflexivity | now apply Qltb_ge].
Qed.

Lemma fold_py_max (cls : dict Q) : forall acc : Q,
  let m := fold_left (fun a kv => py_max a (snd kv)) cls acc in
  (acc <= m)%Q /\
  (forall kv, In kv cls -> (snd kv <= m)%Q) /\
  (m = acc \/ exists kv, In kv cls /\ m = snd kv).
Proof.
  induction cls as [|kv cls IH]; intros acc; simpl.
  - split; [apply Qle_refl|]. split; [intros ? []|]. now left.
  - destruct (IH (py_max acc (snd kv))) as [H1 [H2 H3]].
    destruct (py_max_cases acc (snd kv)) as [[E Hle]|[E Hlt]]; rewrite E in *.
    + split; [exact H1|]. split.
      * intros kv' [<-|Hin]; [eapply Qle_trans; eassumption | now apply H2].
      * destruct H3 as [H3|[kv' [Hin H3]]]; [now left | right; eauto].
    + split; [eapply Qle_trans; [apply Qlt_le_weak; exact Hlt | exact H1]|]. split.
      * intros kv' [<-|Hin]; [exact H1 | now apply H2].
      * right. destruct H3 as [H3|[kv' [Hin H3]]]; eauto.
Qed.

Lemma overall_score_max (cls : dict Q) :
  cls <> [] ->
  (forall kv, In kv cls -> (0 <= snd kv)%Q) ->
  (exists kv, In kv cls /\ (snd kv == overall_score cls)%Q) /\
  (forall kv, In kv cls -> (snd kv <= overall_score cls)%Q).
Proof.
  intros Hne Hpos. unfold overall_score.
  destruct (fold_py_max cls 0) as [H1 [H2 H3]]. split; [|exact H2].
  destruct H3 as [H3|[kv [Hin H3]]].
  - destruct cls as [|kv cls]; [contradiction|].
    exists kv. split; [now left|].
    apply Qle_antisym.
    + apply H2. now left.
    + rewrite H3. apply Hpos. now left.
  - exists kv. split; [assumption|]. rewrite H3. reflexivity.
Qed.

(** *** The range of the scores *)

Lemma In_dict_set {V} (d : dict V) (k : string) (v : V) (kv : string * V) :
  In kv (dict_set d k v) -> kv = (k, v) \/ In kv d.
Proof.
  induction d as [|[k0 v0] d IH]; simpl.
  - intros [<-|[]]. now left.
  - destruct (String.eqb k k0); simpl.
    + intros [<-|H]; [now left | right; now right].
    + intros [<-|H]; [right; now left|].
      destruct (IH H) as [?|?]; [now left | right; now right].
Qed.

Lemma media_score_range (env : Env) (md : option Metadata) (suffix : string) :
  (0 <= media_score env md suffix)%Q /\ (media_score env md suffix <= 1)%Q.
Proof.
  unfold media_score.
  set (x := (inject_Z _ / 100)%Q).
  assert (Hy : (py_min (95 # 100) x <= 95 # 100)%Q).
  { unfold py_min. destruct (Qltb x (95 # 100)) eqn:E.
    - apply Qlt_le_weak. now apply Qltb_lt.
    - apply Qle_refl. }
  destruct (py_max_cases (5 # 100) (py_min (95 # 100) x)) as [[E _]|[E Hlt]];
    rewrite E.
  - split; discriminate.
  - split.
    + apply Qlt_le_weak. eapply Qlt_trans; [|exact Hlt]. reflexivity.
    + eapply Qle_trans; [exact Hy|]. discriminate.
Qed.

Lemma media_classification_range (env : Env) (mt : string) (md : option Metadata) :
  generate_media_classification env mt md <> [] /\
  forall kv, In kv (generate_media_classification env mt md) ->
             (0 <= snd kv)%Q /\ (snd kv <= 1)%Q.
Proof.
  unfold generate_media_classification. split.
  - destruct (String.eqb mt "image"); [|destruct (String.eqb mt "video")];
      apply dict_set_not_nil.
  - intros kv H.
    destruct (String.eqb mt "image"); [|destruct (String.eqb mt "video")];
      repeat (apply In_dict_set in H; destruct H as [->|H];
              [apply media_score_range|]);
      destruct H.
Qed.

Lemma classify_text_range (env : Env) (clf : ContentClassifier) (t : text)
    (w : World) (cls : dict Q) (w' : World) :
  uniform_in_range env -> proba_valid clf -> categories clf <> [] ->
  classify_text env clf t w = (Ok cls, w') ->
  cls <> [] /\ forall kv, In kv cls -> (0 <= snd kv)%Q /\ (snd kv <= 1)%Q.
Proof.
  intros Hu Hv Hne E.
  destruct (classify_text_spec env clf t w) as [d [w1 [E1 [_ [Hnd [Hk Hs]]]]]].
  rewrite E in E1. injection E1 as <- <-. split.
  - destruct (categories clf) as [|c cs] eqn:Ec; [contradiction|].
    assert (Hin : In c (keys cls)) by (apply Hk; now left).
    intros ->. destruct Hin.
  - intros [c s] Hin. simpl.
    apply (@score_of_unit env clf t c s Hu Hv).
    apply Hs. now apply In_dict_get.
Qed.

Lemma classify_content_range (env : Env) (clf : ContentClassifier) (ctype : string)
    (pt : text) (md : option Metadata) (w : World) (cls : dict Q) (w' : World) :
  uniform_in_range env -> proba_valid clf -> categories clf <> [] ->
  classify_content env clf ctype pt md w = (Ok cls, w') ->
  cls <> [] /\ forall kv, In kv cls -> (0 <= snd kv)%Q /\ (snd kv <= 1)%Q.
Proof.
  intros Hu Hv Hne. unfold classify_content.
  destruct (String.eqb ctype "text");
    [now apply classify_text_range|].
  destruct (String.eqb ctype "image");
    [unfold ret; intros [= <- <-]; apply media_classification_range|].
  destruct (String.eqb ctype "video");
    [unfold ret; intros [= <- <-]; apply media_classification_range|].
  now apply classify_text_range.
Qed.

(* ================================================================= *)
(** ** Daily metrics *)

Section DailyMetrics.
Import Metrics.

Lemma tables_eta (t : Tables) : with_metrics t (metrics t ++ []) = t.
Proof. destruct t. unfold with_metrics. simpl. now rewrite app_nil_r. Qed.

Lemma generate_if_missing_step (existing : list string) (name : string)
    (compute : Tables -> ModerationMetric) (w : World) (t0 : Tables)
    (added : list ModerationMetric) :
  reads_rows compute ->
  view w = with_metrics t0 (metrics t0 ++ added) ->
  exists w',
    generate_if_missing existing name compute w = (Ok tt, w') /\
    stored w' = stored w /\
    view w' = with_metrics t0
                (metrics t0 ++ added ++
                 (if not_in name existing then [compute t0] else [])).
Proof.
  intros Hr Hv. unfold reads_rows in Hr. unfold generate_if_missing.
  destruct (not_in name existing).
  - eexists. split; [reflexivity|]. split; [reflexivity|].
    unfold view at 1. simpl. fold (view w). rewrite Hv, Hr.
    unfold with_metrics. simpl. now rewrite <- app_assoc.
  - exists w. split; [reflexivity|]. split; [reflexivity|].
    now rewrite app_nil_r.
Qed.

Lemma generate_daily_metrics_spec (env : Env) (w : World) :
  let today := date_of (env_now env) in
  let t' := with_metrics (view w) (metrics (view w) ++ new_metrics today (view w)) in
  exists w',
    generate_daily_metrics env w = (Ok (env_commit env), w') /\
    if env_commit env
    then stored w' = t' /\ view w' = t'
    else stored w' = stored w /\ view w' = stored w.
Proof.
  intros today t'. unfold generate_daily_metrics, try_except.
  fold today.
  erewrite bind_step by reflexivity. fold (view w).
  set (ex := existing_types_on today (view w)).
  destruct (@generate_if_missing_step ex "daily_processed"
              (daily_processed_metric today) w (view w) [])
    as [w1 [E1 [S1 V1]]]; [intros ? ?; reflexivity | now rewrite tables_eta |].
  destruct (@generate_if_missing_step ex "flag_distribution"
              (flag_distribution_metric today) w1 (view w) _ (fun _ _ => eq_refl) V1)
    as [w2 [E2 [S2 V2]]].
  destruct (@generate_if_missing_step ex "status_distribution"
              (status_distribution_metric today) w2 (view w) _ (fun _ _ => eq_refl) V2)
    as [w3 [E3 [S3 V3]]].
  destruct (@generate_if_missing_step ex "avg_processing_time"
              (avg_processing_time_metric today) w3 (view w) _ (fun _ _ => eq_refl) V3)
    as [w4 [E4 [S4 V4]]].
  erewrite bind_step by exact E1.
  erewrite bind_step by exact E2.
  erewrite bind_step by exact E3.
  erewrite bind_step by exact E4.
  assert (V : view w4 = t').
  { rewrite V4. unfold t', new_metrics. fold ex. simpl.
    now rewrite <- !app_assoc. }
  unfold session_commit. destruct (env_commit env).
  - erewrite bind_step by reflexivity. eexists. split; [reflexivity|].
    unfold stored, view. simpl. fold (view w4). now rewrite V.
  - erewrite bind_raise by reflexivity. eexists. split; [reflexivity|].
    unfold stored, view. simpl. fold (stored w4).
    now rewrite S4, S3, S2, S1.
Qed.

Lemma not_in_false (name : string) (l : list string) :
  not_in name l = false <-> In name l.
Proof.
  unfold not_in. rewrite negb_false_iff, existsb_exists. split.
  - intros [x [Hin E]]. apply String.eqb_eq in E. now subst.
  - intros H. exists name. split; [assumption | apply String.eqb_refl].
Qed.

Lemma not_in_true (name : string) (l : list string) :
  not_in name l = true <-> ~ In name l.
Proof.
  rewrite <- not_in_false. destruct (not_in name l); split; congruence.
Qed.

Lemma existing_types_app (today : Z) (t : Tables) (l : list ModerationMetric) :
  existing_types_on today (with_metrics t (metrics t ++ l)) =
  existing_types_on today t ++
  map mm_metric_type (filter (fun m => (mm_metric_date m =? today)%Z) l).
Proof.
  unfold existing_types_on. simpl. now rewrite filter_app, map_app.
Qed.

Lemma new_metrics_types (today : Z) (t : Tables) :
  map mm_metric_type (new_metrics today t) =
  filter (fun name => not_in name (existing_types_on today t)) metric_types.
Proof.
  unfold new_metrics, metric_types. simpl filter.
  destruct (not_in "daily_processed" _), (not_in "flag_distribution" _),
           (not_in "status_distribution" _), (not_in "avg_processing_time" _);
    reflexivity.
Qed.

Lemma new_metrics_dates (today : Z) (t : Tables) :
  Forall (fun m => mm_metric_date m = today) (new_metrics today t).
Proof.
  unfold new_metrics.
  destruct (not_in "daily_processed" _), (not_in "flag_distribution" _),
           (not_in "status_distribution" _), (not_in "avg_processing_time" _);
    repeat constructor.
Qed.

(** The rows a run adds: dated today, of the four types, one per type, none
    of a type already recorded. *)
Lemma new_metrics_rows (today : Z) (t : Tables) :
  Forall (fun m => mm_metric_date m = today /\
                   In (mm_metric_type m) metric_types /\
                   ~ In (mm_metric_type m) (existing_types_on today t))
         (new_metrics today t) /\
  NoDup (map mm_metric_type (new_metrics today t)).
Proof.
  split.
  - apply Forall_forall. intros m Hm. split.
    + pose proof (new_metrics_dates today t) as Hd.
      rewrite Forall_forall in Hd. now apply Hd.
    + assert (Hin : In (mm_metric_type m) (map mm_metric_type (new_metrics today t)))
        by now apply in_map.
      rewrite new_metrics_types in Hin. apply filter_In in Hin.
      destruct Hin as [H1 H2]. split; [exact H1 | now apply not_in_true].
  - rewrite new_metrics_types. apply NoDup_filter.
    unfold metric_types.
    repeat (constructor;
            [simpl; intros H;
             repeat (destruct H as [H|H]; [discriminate|]); exact H|]).
    constructor.
Qed.

Lemma new_metrics_today (today : Z) (t : Tables) :
  filter (fun m => (mm_metric_date m =? today)%Z) (new_metrics today t)
  = new_metrics today t.
Proof.
  destruct (new_metrics_rows today t) as [H _].
  induction (new_metrics today t) as [|m l IH]; [reflexivity|].
  inversion H as [|? ? [Hd _] Hl]; subst. simpl.
  rewrite Z.eqb_refl. now rewrite IH.
Qed.

(** After a run every type is recorded. *)
Lemma all_types_recorded (today : Z) (t : Tables) (name : string) :
  In name metric_types ->
  In name (existing_types_on today
             (with_metrics t (metrics t ++ new_metrics today t))).
Proof.
  intros Hin. rewrite existing_types_app, new_metrics_today.
  apply in_or_app.
  destruct (not_in name (existing_types_on today t)) eqn:E;
    [|left; now apply not_in_false].
  right. unfold new_metrics.
  simpl in Hin.
  destruct Hin as [<-|[<-|[<-|[<-|[]]]]]; rewrite E;
    rewrite !map_app; repeat (apply in_or_app; first [left; now left | right]).
  now left.
Qed.

(** Nothing is added once every type is recorded. *)
Lemma new_metrics_none (today : Z) (t : Tables) :
  (forall name, In name metric_types -> In name (existing_types_on today t)) ->
  new_metrics today t = [].
Proof.
  intros H. unfold new_metrics.
  rewrite !(proj2 (not_in_false _ _)); [reflexivity | | | |];
    apply H; simpl; auto.
Qed.

End DailyMetrics.

(* ================================================================= *)
(** ** Evaluation *)

Section Evaluation.
Import TrainModel.

Lemma Q_of_nat_nonzero (n : nat) : 0 < n -> Qeq_bool (Q_of_nat n) 0 = false.
Proof.
  intros H. apply not_true_iff_false. intros E. apply Qeq_bool_eq in E.
  unfold Q_of_nat, Qeq in E. simpl in E. lia.
Qed.

Lemma py_div_nat (a : Q) (n : nat) (w : World) :
  0 < n -> py_div a (Q_of_nat n) w = (Ok (a / Q_of_nat n)%Q, w).
Proof.
  intros H. unfold py_div. now rewrite Q_of_nat_nonzero.
Qed.

Lemma py_div_pos (a b : Q) (w : World) :
  Qltb 0 b = true -> py_div a b w = (Ok (a / b)%Q, w).
Proof.
  intros H. unfold py_div.
  destruct (Qeq_bool b 0) eqn:E; [|reflexivity].
  apply Qeq_bool_eq in E. apply Qltb_lt in H. rewrite E in H.
  exfalso. revert H. apply Qlt_irrefl.
Qed.

Lemma compute_metrics_spec (texts : list text) (predictions labels : list Z)
    (w : World) :
  exists ev,
    compute_metrics texts predictions labels w = (Ok ev, w) /\
    precision ev =
      guarded_ratio (true_positives predictions labels)
        (true_positives predictions labels + false_positives predictions labels) /\
    recall ev =
      guarded_ratio (true_positives predictions labels)
        (true_positives predictions labels + false_negatives predictions labels) /\
    f1_score ev =
      (if Qltb 0 (precision ev + recall ev)
       then 2 * precision ev * recall ev / (precision ev + recall ev)
       else 0)%Q.
Proof.
  unfold compute_metrics, guarded_ratio.
  set (tp := true_positives predictions labels).
  set (fp := false_positives predictions labels).
  set (fn := false_negatives predictions labels).
  assert (Ha : exists a, (match texts with
                          | [] => ret 0%Q
                          | _ :: _ => py_div (Q_of_nat (count_pairs Z.eqb predictions labels))
                                        (Q_of_nat (List.length texts))
                          end) w = (Ok a, w)).
  { destruct texts as [|t ts]; [eexists; reflexivity|].
    eexists. apply py_div_nat. simpl. lia. }
  destruct Ha as [a Ha]. erewrite bind_step by exact Ha.
  assert (Hp : (if 0 <? tp + fp then py_div (Q_of_nat tp) (Q_of_nat (tp + fp)) else ret 0%Q) w
               = (Ok (if 0 <? tp + fp then (Q_of_nat tp / Q_of_nat (tp + fp))%Q else 0%Q), w)).
  { destruct (0 <? tp + fp) eqn:E; [|reflexivity].
    apply py_div_nat. now apply Nat.ltb_lt. }
  erewrite bind_step by exact Hp.
  assert (Hr : (if 0 <? tp + fn then py_div (Q_of_nat tp) (Q_of_nat (tp + fn)) else ret 0%Q) w
               = (Ok (if 0 <? tp + fn then (Q_of_nat tp / Q_of_nat (tp + fn))%Q else 0%Q), w)).
  { destruct (0 <? tp + fn) eqn:E; [|reflexivity].
    apply py_div_nat. now apply Nat.ltb_lt. }
  erewrite bind_step by exact Hr.
  set (p := if 0 <? tp + fp then (Q_of_nat tp / Q_of_nat (tp + fp))%Q else 0%Q).
  set (r := if 0 <? tp + fn then (Q_of_nat tp / Q_of_nat (tp + fn))%Q else 0%Q).
  assert (Hf : (if Qltb 0 (p + r) then py_div (2 * p * r) (p + r) else ret 0%Q) w
               = (Ok (if Qltb 0 (p + r) then (2 * p * r / (p + r))%Q else 0%Q), w)).
  { destruct (Qltb 0 (p + r)) eqn:E; [|reflexivity]. now apply py_div_pos. }
  erewrite bind_step by exact Hf.
  eexists. split; [reflexivity|]. simpl. auto.
Qed.

Lemma predict_loop (env : Env) (clf : ContentClassifier) (category : string)
    (texts : list text) : forall (predictions : list Z) (w : World),
  exists predictions' w',
    for_each (predict_one env clf category) texts predictions w
    = (Ok predictions', w').
Proof.
  induction texts as [|t texts IH]; intros predictions w.
  - exists predictions, w. reflexivity.
  - rewrite for_each_cons. unfold predict_one at 1.
    destruct (classify_text_spec env clf t w) as [d [w1 [E _]]].
    erewrite bind_step by exact E. unfold ret. apply IH.
Qed.

Lemma filter_none {A} (f : A -> bool) (l : list A) :
  (forall x, In x l -> f x = false) -> filter f l = [].
Proof.
  induction l as [|x l IH]; intros H; [reflexivity|].
  simpl. rewrite (H x) by now left. apply IH. intros y Hy. apply H. now right.
Qed.

Lemma count_pairs_none (test : Z -> Z -> bool) (predictions labels : list Z) :
  (forall p l, In l labels -> test p l = false) ->
  count_pairs test predictions labels = 0.
Proof.
  intros H. unfold count_pairs. rewrite filter_none; [reflexivity|].
  intros [p l] Hin. simpl. apply H. eapply in_combine_r. exact Hin.
Qed.

Lemma guarded_ratio_zero (den : nat) : (guarded_ratio 0 den == 0)%Q.
Proof.
  unfold guarded_ratio. destruct (0 <? den); [|reflexivity].
  unfold Q_of_nat. simpl. unfold Qdiv. apply Qmult_0_l.
Qed.

End Evaluation.

(* ================================================================= *)
(** ** The small instance *)

Lemma demo_uniform_in_range : uniform_in_range Demo.env.
Proof.
  intros a b n H. simpl. split; [exact H | apply Qle_refl].
Defined.

Lemma demo_proba_valid : proba_valid Demo.clf.
Proof.
  intros category m X rows row p Hm Hr Hrow Hp. simpl in Hm.
  destruct (String.eqb category "profanity").
  - injection Hm as <-. simpl in Hr. injection Hr as <-.
    destruct Hrow as [<-|[]]. destruct Hp as [<-|[<-|[]]]; split; discriminate.
  - destruct (String.eqb category "violence"); [|discriminate].
    injection Hm as <-. simpl in Hr. injection Hr as <-.
    destruct Hrow as [<-|[]]. destruct Hp as [<-|[<-|[]]]; split; discriminate.
Defined.

Lemma demo_processed :
  exists r w',
    process_content Demo.env Demo.clf (Some (str "You are 2 kind")) "text"
      (Some 5) None Demo.world = (Ok (Some r), w').
Proof. vm_compute. eexists. eexists. reflexivity. Defined.

(** The instance, evaluated. *)

Example demo_preprocess_plain :
  preprocess_text (Some (str "Hello,   World!")) = str "hello world".
Proof. reflexivity. Qed.

Example demo_preprocess_tokens :
  preprocess_text (Some (str "Visit http://x.com or mail me@x.org 12 times"))
  = str "visit URL or mail EMAIL [NUM] times".
Proof. reflexivity. Qed.

Example demo_classification :
  fst (classify_text Demo.env Demo.clf (str "you are [NUM] kind") Demo.world)
  = Ok [("profanity"%string, 29 # 100); ("violence"%string, 31 # 100);
        ("harassment"%string, 9 # 10)].
Proof. reflexivity. Qed.

Example demo_dispositions :
  map initial_status [85 # 100; 1 # 10; 5 # 10; 8 # 10; 3 # 10]
  = ["rejected"; "approved"; "pending"; "pending"; "pending"]%string.
Proof. reflexivity. Qed.

(** Scores 0.29, 0.31 and 0.9: overall 0.9 (their mean is 0.5), rejected,
    flags for the second and third category only. *)
Example demo_process_content :
  option_map
    (fun r => (ms_status (pr_status r), ms_moderation_score (pr_status r),
               map flag_entry (pr_flags r)))
    (returned (process_content Demo.env Demo.clf (Some (str "You are 2 kind"))
                 "text" (Some 5) None Demo.world))
  = Some ("rejected"%string, 9 # 10,
          [("violence"%string, 31 # 100); ("harassment"%string, 9 # 10)]).
Proof. vm_compute. reflexivity. Qed.

(** A refused commit and a missing text: [None], and the tables as before. *)
Example demo_process_content_refused :
  let out := process_content Demo.env_down Demo.clf (Some (str "You are 2 kind"))
               "text" (Some 5) None Demo.world in
  fst out = Ok None /\ w_session (snd out) = w_session Demo.world /\
  w_log (snd out) = [ErrorProcessingContent DatabaseError].
Proof. vm_compute. auto. Qed.

Example demo_process_content_no_text :
  let out := process_content Demo.env Demo.clf None "text" (Some 5) None
               Demo.world in
  fst out = Ok None /\ w_session (snd out) = w_session Demo.world /\
  w_log (snd out) = [ErrorProcessingContent TypeError].
Proof. vm_compute. auto. Qed.

(** The audit trail of item 1 after the two reviews. *)
Example demo_reviews :
  map (fun a => (ma_action_type a, ma_previous_status a))
      (actions_of 1 (stored (final_world Demo.world
                               (update_many 1 Demo.reviews Demo.world))))
  = [("automated_pending", None); ("rejected", Some "pending");
     ("approved", Some "rejected")]%string.
Proof. vm_compute. reflexivity. Qed.

(** Two runs of the daily job on the same day: four rows, then the same four. *)
Example demo_daily_metrics :
  let w1 := snd (Metrics.generate_daily_metrics Demo.env Demo.world) in
  let w2 := snd (Metrics.generate_daily_metrics Demo.env_later w1) in
  map mm_metric_type (metrics (stored w1)) = metric_types /\
  metrics (stored w2) = metrics (stored w1).
Proof. vm_compute. auto. Qed.

(** Labels all zero for a category whose fallback score 0.9 passes its
    threshold: two false positives, and precision, recall and F1 are zero. *)
Example demo_evaluate_category :
  match fst (TrainModel.evaluate_category Demo.env Demo.clf "harassment"
               [str "one"; str "two"] [0%Z; 0%Z] Demo.world) with
  | Ok ev => Qeq_bool (TrainModel.precision ev) 0 &&
             Qeq_bool (TrainModel.recall ev) 0 &&
             Qeq_bool (TrainModel.f1_score ev) 0 &&
             Qeq_bool (TrainModel.accuracy ev) 0
  | Raise _ => false
  end = true.
Proof. vm_compute. reflexivity. Qed.

(* ================================================================= *)
(** * The claims *)

(** C1.  Every call to [process_content] either commits all its rows
    together (the Content, and the ModerationStatus, the ContentFlags and the
    first ModerationAction that carry its key, are added to the committed
    tables, and nothing else changes), or, when anything in the body raises,
    rolls the transaction back, returns the failure value [None] and leaves
    the committed tables as they were. *)
Theorem process_content_atomic (env : Env) (clf : ContentClassifier)
    (content_text : option text) (ctype : string) (uid : option nat)
    (md : option Metadata) (w : World) :
  let call := process_content env clf content_text ctype uid md w in
  let body := process_content_body env clf content_text ctype uid md w in
  (exists r i,
      fst body = Ok r /\
      fst call = Ok (Some r) /\
      c_id (pr_content r) = Some i /\
      ms_content_id (pr_status r) = Some i /\
      Forall (fun f => cf_content_id f = Some i) (pr_flags r) /\
      ma_content_id (pr_action r) = Some i /\
      stored (snd call) = insert_processed (view w) r /\
      view (snd call) = stored (snd call))
  \/
  (exists e,
      fst body = Raise e /\
      fst call = Ok None /\
      stored (snd call) = stored w /\
      view (snd call) = stored w).
Proof.
  intros call body. unfold call, body.
  pose proof (process_content_outcome env clf content_text ctype uid md w) as Ho.
  pose proof (process_content_body_cases env clf content_text ctype uid md w) as Hc.
  destruct (process_content_body env clf content_text ctype uid md w) as [[r|e] w1].
  - left. destruct Hc as [s [i [cls [wa [wb Hc]]]]].
    destruct Hc as [_ [_ [_ [_ [_ [_ [Hid [Hst [_ [Hfl [Hac [Hcm Hvw]]]]]]]]]]]].
    exists r, i. rewrite Ho. simpl.
    split; [reflexivity|]. split; [reflexivity|]. split; [exact Hid|].
    split; [now rewrite Hst|]. split; [exact Hfl|]. split; [now rewrite Hac|].
    split; [exact Hcm | exact Hvw].
  - right. exists e. rewrite Ho. simpl. unfold stored, view. simpl.
    unfold stored. repeat split; exact Hc.
Qed.

(** C2.  From a state in which the content id has a Content row and a
    ModerationStatus row, every one of N successive calls to
    [update_moderation_status] that the database commits returns the updated
    row, whose disposition is the requested status, whose automated flag is
    cleared and whose last-updated time is the call's clock, and appends
    exactly one ModerationAction whose previous status is the disposition the
    call found (never null) and whose type is the requested status; after the
    N calls the content id has exactly N more action rows, all with a
    previous status, and they are committed.  When the Content row or the ModerationStatus row is
    missing the call logs that it was not found, returns [None] and changes
    no table. *)
Theorem update_status_audit (id : nat) (w : World) :
  (forall (calls : list StatusUpdate) (c : Content) (cur : ModerationStatus),
      find (has_id id) (contents (view w)) = Some c ->
      find (status_for id) (statuses (view w)) = Some cur ->
      Forall commits calls ->
      chain (audited_step id) calls w (update_many id calls w) /\
      exists new,
        actions_of id (view (final_world w (update_many id calls w)))
          = actions_of id (view w) ++ new /\
        List.length new = List.length calls /\
        Forall (fun a => ma_previous_status a <> None) new /\
        (calls <> [] ->
         stored (final_world w (update_many id calls w))
         = view (final_world w (update_many id calls w))))
  /\
  (forall (env : Env) (status : string) (uid : option nat) (notes : option text),
      find (has_id id) (contents (view w)) = None \/
      find (status_for id) (statuses (view w)) = None ->
      exists record,
        (record = ContentNotFound id \/ record = StatusNotFound id) /\
        update_moderation_status env id status uid notes w =
        (Ok None, {| w_session := w_session w;
                     w_draws := w_draws w;
                     w_log := w_log w ++ [record] |})).
Proof.
  split.
  - intros calls c cur Hc Hs Hcm.
    destruct (@update_many_audited id calls w c cur Hc Hs Hcm)
      as [Hch [new [Hn [Hl Hp]]]].
    split; [exact Hch|]. exists new.
    split; [exact Hn|]. split; [exact Hl|]. split; [exact Hp|].
    intros Hne. exact (@chain_committed id calls w (update_many id calls w) Hch Hne).
  - intros env status uid notes H.
    destruct (find (has_id id) (contents (view w))) as [c|] eqn:Ec.
    + destruct H as [H|H]; [discriminate|].
      exists (StatusNotFound id). split; [now right|].
      now apply update_no_status with c.
    + exists (ContentNotFound id). split; [now left|].
      now apply update_no_content.
Qed.

(** C2 on the instance: two reviews of item 1 append two audit rows; item 9
    does not exist. *)
Lemma update_status_audit_witness :
  (find (has_id 1) (contents (view Demo.world)) = Some Demo.content1 /\
   find (status_for 1) (statuses (view Demo.world)) = Some Demo.status1 /\
   Forall commits Demo.reviews /\
   chain (audited_step 1) Demo.reviews Demo.world
     (update_many 1 Demo.reviews Demo.world) /\
   exists new,
     actions_of 1 (view (final_world Demo.world
                           (update_many 1 Demo.reviews Demo.world)))
       = actions_of 1 (view Demo.world) ++ new /\
     List.length new = 2) /\
  (find (has_id 9) (contents (view Demo.world)) = None /\
   exists record,
     update_moderation_status Demo.env 9 "approved" None None Demo.world =
     (Ok None, {| w_session := w_session Demo.world;
                  w_draws := w_draws Demo.world;
                  w_log := w_log Demo.world ++ [record] |})).
Proof.
  split.
  - assert (H1 : find (has_id 1) (contents (view Demo.world)) = Some Demo.content1)
      by reflexivity.
    assert (H2 : find (status_for 1) (statuses (view Demo.world)) = Some Demo.status1)
      by reflexivity.
    assert (H3 : Forall commits Demo.reviews)
      by (repeat constructor).
    split; [exact H1|]. split; [exact H2|]. split; [exact H3|].
    destruct (proj1 (update_status_audit 1 Demo.world) _ _ _ H1 H2 H3)
      as [Hch [new [Hn [Hl _]]]].
    split; [exact Hch|]. exists new. split; [exact Hn | exact Hl].
  - split; [reflexivity|].
    destruct (proj2 (update_status_audit 9 Demo.world) Demo.env "approved"%string
                None None (or_introl eq_refl)) as [record [_ H]].
    exists record. exact H.
Defined.

(** C3.  The disposition written by a successful call to [process_content]
    depends on the overall score alone: rejected when the score is above 0.8,
    approved when it is below 0.3, pending in between; a score of exactly 0.8
    is not rejected and a score of exactly 0.3 is not approved. *)
Theorem initial_disposition_rule (env : Env) (clf : ContentClassifier)
    (content_text : option text) (ctype : string) (uid : option nat)
    (md : option Metadata) (w : World) (r : Processed) (w' : World) :
  process_content env clf content_text ctype uid md w = (Ok (Some r), w') ->
  let score := ms_moderation_score (pr_status r) in
  let status := ms_status (pr_status r) in
  In (pr_status r) (statuses (stored w')) /\
  status = initial_status score /\
  ((8 # 10 < score)%Q -> status = "rejected"%string) /\
  ((score < 3 # 10)%Q -> status = "approved"%string) /\
  ((3 # 10 <= score)%Q -> (score <= 8 # 10)%Q -> status = "pending"%string) /\
  ((score == 8 # 10)%Q -> status <> "rejected"%string) /\
  ((score == 3 # 10)%Q -> status <> "approved"%string).
Proof.
  intros H score status.
  destruct (process_content_facts _ _ _ _ _ _ _ H)
    as [cls [_ [_ [Hsc [Hst [_ Hcm]]]]]].
  assert (E : status = initial_status score)
    by (unfold status, score; now rewrite Hst, Hsc).
  destruct (initial_status_rule score) as [R1 [R2 R3]].
  split; [rewrite Hcm; simpl; apply in_or_app; right; now left|].
  split; [exact E|]. rewrite E.
  split; [exact R1|]. split; [exact R2|]. split; [exact R3|]. split.
  - intros H8. rewrite R3; [discriminate | rewrite H8; discriminate | rewrite H8; apply Qle_refl].
  - intros H3. rewrite R3; [discriminate | rewrite H3; apply Qle_refl | rewrite H3; discriminate].
Qed.

(** C3 on the instance: the fallback draw 0.9 of the untrained category is
    the overall score, and the item is rejected. *)
Lemma initial_disposition_rule_witness :
  exists r w',
    process_content Demo.env Demo.clf (Some (str "You are 2 kind")) "text"
      (Some 5) None Demo.world = (Ok (Some r), w') /\
    ms_status (pr_status r) = initial_status (ms_moderation_score (pr_status r)) /\
    ((8 # 10 < ms_moderation_score (pr_status r))%Q ->
     ms_status (pr_status r) = "rejected"%string).
Proof.
  destruct demo_processed as [r [w' E]]. exists r, w'.
  split; [exact E|].
  pose proof (initial_disposition_rule _ _ _ _ _ _ _ E) as H. simpl in H.
  split; apply H.
Defined.

(** C4.  A successful call to [process_content] creates exactly one
    ContentFlag for every category whose score is strictly above 0.3, carrying
    that score, and none for a category whose score is at most 0.3 or that was
    not scored; these flags are the rows the call adds to the flag table. *)
Theorem flags_per_category (env : Env) (clf : ContentClassifier)
    (content_text : option text) (ctype : string) (uid : option nat)
    (md : option Metadata) (w : World) (r : Processed) (w' : World) :
  process_content env clf content_text ctype uid md w = (Ok (Some r), w') ->
  exists cls,
    classification_of env clf content_text ctype md w cls /\
    flags (stored w') = flags (view w) ++ pr_flags r /\
    forall category,
      match dict_get cls category with
      | Some score =>
          ((3 # 10 < score)%Q ->
           exists f, flags_of category (pr_flags r) = [f] /\
                     cf_flag_type f = category /\ cf_flag_score f = score) /\
          ((score <= 3 # 10)%Q -> flags_of category (pr_flags r) = [])
      | None => flags_of category (pr_flags r) = []
      end.
Proof.
  intros H.
  destruct (process_content_facts _ _ _ _ _ _ _ H)
    as [cls [Hcl [Hnd [_ [_ [Hfl Hcm]]]]]].
  exists cls. split; [exact Hcl|]. split; [now rewrite Hcm|].
  intros category.
  pose proof (@flags_of_category cls (pr_flags r) category Hnd Hfl) as Hf.
  destruct (dict_get cls category) as [score|].
  - unfold reported in Hf. simpl in Hf. split.
    + intros Hlt. apply Qltb_lt in Hlt. rewrite Hlt in Hf.
      destruct (flags_of category (pr_flags r)) as [|f [|g l]]; try discriminate.
      exists f. injection Hf as Ht Hs. auto.
    + intros Hle. apply Qltb_ge in Hle. rewrite Hle in Hf.
      now destruct (flags_of category (pr_flags r)).
  - now destruct (flags_of category (pr_flags r)).
Qed.

(** C4 on the instance: scores 0.29, 0.31 and 0.9 give no flag, one flag and
    one flag. *)
Lemma flags_per_category_witness :
  exists r w',
    process_content Demo.env Demo.clf (Some (str "You are 2 kind")) "text"
      (Some 5) None Demo.world = (Ok (Some r), w') /\
    exists cls,
      classification_of Demo.env Demo.clf (Some (str "You are 2 kind")) "text"
        None Demo.world cls /\
      flags (stored w') = flags (view Demo.world) ++ pr_flags r.
Proof.
  destruct demo_processed as [r [w' E]]. exists r, w'.
  split; [exact E|].
  destruct (flags_per_category _ _ _ _ _ _ _ E) as [cls [H1 [H2 _]]].
  exists cls. split; assumption.
Defined.

(** C5.  The overall moderation score stored by a successful call to
    [process_content] is the maximum of the per-category scores of the call:
    it is the score of some category and no category scores higher.  The
    scores are those of a classifier with at least one category whose models
    return probabilities, the random fallback keeping its range. *)
Theorem overall_score_is_maximum (env : Env) (clf : ContentClassifier)
    (content_text : option text) (ctype : string) (uid : option nat)
    (md : option Metadata) (w : World) (r : Processed) (w' : World) :
  uniform_in_range env -> proba_valid clf -> categories clf <> [] ->
  process_content env clf content_text ctype uid md w = (Ok (Some r), w') ->
  exists cls,
    classification_of env clf content_text ctype md w cls /\
    In (pr_status r) (statuses (stored w')) /\
    (exists category score,
        In (category, score) cls /\
        (score == ms_moderation_score (pr_status r))%Q) /\
    (forall category score,
        In (category, score) cls ->
        (score <= ms_moderation_score (pr_status r))%Q).
Proof.
  intros Hu Hv Hne H.
  destruct (process_content_facts _ _ _ _ _ _ _ H)
    as [cls [Hcl [_ [Hsc [_ [_ Hcm]]]]]].
  exists cls. split; [exact Hcl|].
  split; [rewrite Hcm; simpl; apply in_or_app; right; now left|].
  destruct Hcl as [wa [wb [_ Ec]]].
  destruct (@classify_content_range _ _ _ _ _ _ _ _ Hu Hv Hne Ec) as [Hn Hr].
  destruct (@overall_score_max cls Hn (fun kv Hin => proj1 (Hr kv Hin)))
    as [[[c s] [Hin Heq]] Hmax].
  rewrite Hsc. split.
  - exists c, s. auto.
  - intros c' s' Hin'. apply (Hmax (c', s') Hin').
Qed.

(** C5 on the instance. *)
Lemma overall_score_is_maximum_witness :
  uniform_in_range Demo.env /\ proba_valid Demo.clf /\
  categories Demo.clf <> [] /\
  exists r w',
    process_content Demo.env Demo.clf (Some (str "You are 2 kind")) "text"
      (Some 5) None Demo.world = (Ok (Some r), w') /\
    exists cls,
      classification_of Demo.env Demo.clf (Some (str "You are 2 kind")) "text"
        None Demo.world cls /\
      forall category score,
        In (category, score) cls ->
        (score <= ms_moderation_score (pr_status r))%Q.
Proof.
  split; [exact demo_uniform_in_range|]. split; [exact demo_proba_valid|].
  split; [discriminate|].
  destruct demo_processed as [r [w' E]]. exists r, w'.
  split; [exact E|].
  destruct (@overall_score_is_maximum _ _ _ _ _ _ _ _ _ demo_uniform_in_range
              demo_proba_valid (fun H => nil_cons (eq_sym H)) E)
    as [cls [H1 [_ [_ H3]]]].
  exists cls. split; assumption.
Defined.

(** C6.  [classify_text] never raises: for every text it returns a
    dictionary that gives every known category a score.  The score is the
    model's probability when the classifier is trained, the category's
    vectorizer can transform and the prediction goes through; in every other
    case (no model at all, no usable vectorizer for the category, or a step of
    the prediction raising) it is a number drawn by
    [random.uniform(0.1, 0.9)], for that category only, which lies between 0.1
    and 0.9 when the generator keeps its range.  With models that return
    probabilities every score lies in [0,1]. *)
Theorem classify_text_total (env : Env) (clf : ContentClassifier) (t : text)
    (w : World) :
  exists results w',
    classify_text env clf t w = (Ok results, w') /\
    forall category, In category (categories clf) ->
      exists s,
        dict_get results category = Some s /\
        (untrained clf = false -> can_transform clf category = true ->
         forall p, model_score clf category t = Ok p -> s = p) /\
        ((untrained clf = true \/ can_transform clf category = false \/
          exists e, model_score clf category t = Raise e) ->
         is_draw env s /\
         (uniform_in_range env -> (1 # 10 <= s)%Q /\ (s <= 9 # 10)%Q)) /\
        (uniform_in_range env -> proba_valid clf -> (0 <= s)%Q /\ (s <= 1)%Q).
Proof.
  destruct (classify_text_spec env clf t w) as [d [w' [E [_ [_ [Hk Hs]]]]]].
  exists d, w'. split; [exact E|].
  intros category Hin. apply Hk in Hin.
  destruct (dict_get d category) as [s|] eqn:Eg;
    [|apply dict_get_None in Eg; contradiction].
  exists s. split; [reflexivity|].
  specialize (Hs _ _ Eg).
  split; [|split].
  - intros Hun Hct p Hp. unfold score_of in Hs. now rewrite Hun, Hct, Hp in Hs.
  - intros Hcase.
    assert (Hd : is_draw env s).
    { unfold score_of in Hs. destruct (untrained clf); [exact Hs|].
      destruct (can_transform clf category).
      - destruct Hcase as [?|[?|[e He]]]; try discriminate.
        now rewrite He in Hs.
      - exact Hs. }
    split; [exact Hd|]. intros Hu. now apply (@draw_range env s).
  - intros Hu Hv. exact (@score_of_unit env clf t category s Hu Hv Hs).
Qed.

(** C6 on the instance. *)
Lemma classify_text_total_witness :
  uniform_in_range Demo.env /\ proba_valid Demo.clf /\
  exists results w',
    classify_text Demo.env Demo.clf (str "you are kind") Demo.world
      = (Ok results, w') /\
    forall category, In category (categories Demo.clf) ->
      exists s, dict_get results category = Some s /\
                (0 <= s)%Q /\ (s <= 1)%Q.
Proof.
  split; [exact demo_uniform_in_range|]. split; [exact demo_proba_valid|].
  destruct (classify_text_total Demo.env Demo.clf (str "you are kind") Demo.world)
    as [results [w' [E H]]].
  exists results, w'. split; [exact E|].
  intros category Hin. destruct (H category Hin) as [s [H1 [_ [_ H2]]]].
  exists s. split; [exact H1|].
  exact (H2 demo_uniform_in_range demo_proba_valid).
Defined.

(** C7, the claim as stated fails: a digit becomes the token [NUM] with its
    brackets, and a second pass turns that token into [num]. *)
Lemma preprocess_text_not_idempotent :
  preprocess_text (Some (str "1")) = str "[NUM]" /\
  preprocess_text (Some (str "[NUM]")) = str "num" /\
  preprocess_text (Some (preprocess_text (Some (str "1"))))
  <> preprocess_text (Some (str "1")).
Proof.
  split; [reflexivity|]. split; [reflexivity|].
  vm_compute. discriminate.
Qed.

(** C7 (as the code has it).  [preprocess_text] is total and maps [None] and
    the empty string to the empty string.  On ASCII text, applying it to its
    own result changes nothing exactly when that result holds no upper-case
    letter, that is when no [URL], [EMAIL] or [NUM] token was inserted; and in
    every case the second application reaches a fixed point. *)
Theorem preprocess_text_second_pass (x : text) :
  ascii_text x ->
  preprocess_text None = [] /\
  preprocess_text (Some []) = [] /\
  (preprocess_text (Some (preprocess_text (Some x))) = preprocess_text (Some x)
   <-> no_upper (preprocess_text (Some x))) /\
  preprocess_text (Some (preprocess_text (Some (preprocess_text (Some x)))))
  = preprocess_text (Some (preprocess_text (Some x))).
Proof.
  intros _. rewrite !preprocess_text_Some.
  split; [reflexivity|]. split; [reflexivity|].
  split; [apply second_pass_iff | apply third_pass].
Qed.

(** C7 on a sentence without digits, links or addresses. *)
Lemma preprocess_text_second_pass_witness :
  ascii_text (str "Hello,   World!") /\
  (preprocess_text (Some (preprocess_text (Some (str "Hello,   World!"))))
     = preprocess_text (Some (str "Hello,   World!"))
   <-> no_upper (preprocess_text (Some (str "Hello,   World!")))) /\
  preprocess_text
    (Some (preprocess_text (Some (preprocess_text (Some (str "Hello,   World!"))))))
  = preprocess_text (Some (preprocess_text (Some (str "Hello,   World!")))).
Proof.
  assert (H : ascii_text (str "Hello,   World!")) by reflexivity.
  split; [exact H|].
  destruct (preprocess_text_second_pass H) as [_ [_ [H1 H2]]].
  split; [exact H1 | exact H2].
Defined.

(** C8.  [generate_daily_metrics] is idempotent per date and metric type.  A
    run that commits keeps every existing metric row and appends one row,
    dated today, for each of the four metric types that had no row for today,
    and none for a type already recorded; afterwards all four types are
    recorded for today.  A second run on the same date therefore adds
    nothing and overwrites nothing: the tables are the same before and after
    it. *)
Theorem generate_daily_metrics_idempotent (env1 env2 : Env) (w : World) :
  env_commit env1 = true ->
  Metrics.date_of (env_now env1) = Metrics.date_of (env_now env2) ->
  let today := Metrics.date_of (env_now env1) in
  let first := Metrics.generate_daily_metrics env1 w in
  let second := Metrics.generate_daily_metrics env2 (snd first) in
  let added := new_metrics today (view w) in
  fst first = Ok true /\
  metrics (stored (snd first)) = metrics (view w) ++ added /\
  Forall (fun m => mm_metric_date m = today /\
                   In (mm_metric_type m) metric_types /\
                   ~ In (mm_metric_type m) (Metrics.existing_types_on today (view w)))
         added /\
  NoDup (map mm_metric_type added) /\
  (forall name, In name metric_types ->
                In name (Metrics.existing_types_on today (stored (snd first)))) /\
  fst second = Ok (env_commit env2) /\
  stored (snd second) = stored (snd first) /\
  view (snd second) = view (snd first).
Proof.
  intros Hcm Hd today first second added.
  destruct (generate_daily_metrics_spec env1 w) as [w1 [E1 H1]].
  rewrite Hcm in E1, H1. fold today in H1. destruct H1 as [S1 V1].
  assert (Ef : first = (Ok true, w1)) by exact E1.
  assert (Hall : forall name, In name metric_types ->
                   In name (Metrics.existing_types_on today (stored w1))).
  { intros name Hin. rewrite S1. now apply all_types_recorded. }
  destruct (generate_daily_metrics_spec env2 w1) as [w2 [E2 H2]].
  rewrite <- Hd in H2. fold today in H2.
  assert (Es : second = (Ok (env_commit env2), w2))
    by (unfold second; rewrite Ef; exact E2).
  rewrite Ef, Es. simpl.
  destruct (new_metrics_rows today (view w)) as [Hrows Hnd].
  split; [reflexivity|]. split; [now rewrite S1|].
  split; [exact Hrows|]. split; [exact Hnd|]. split; [exact Hall|].
  split; [reflexivity|].
  assert (Hnone : new_metrics today (view w1) = []).
  { apply new_metrics_none. intros name Hin. rewrite V1, <- S1. now apply Hall. }
  rewrite Hnone, tables_eta in H2.
  destruct (env_commit env2).
  - destruct H2 as [-> ->]. rewrite V1, S1. auto.
  - destruct H2 as [-> ->]. rewrite V1, S1. auto.
Qed.

(** C8 on the instance: two runs on day 20000. *)
Lemma generate_daily_metrics_idempotent_witness :
  env_commit Demo.env = true /\
  Metrics.date_of (env_now Demo.env) = Metrics.date_of (env_now Demo.env_later) /\
  fst (Metrics.generate_daily_metrics Demo.env Demo.world) = Ok true /\
  stored (snd (Metrics.generate_daily_metrics Demo.env_later
                 (snd (Metrics.generate_daily_metrics Demo.env Demo.world))))
  = stored (snd (Metrics.generate_daily_metrics Demo.env Demo.world)).
Proof.
  assert (H1 : env_commit Demo.env = true) by reflexivity.
  assert (H2 : Metrics.date_of (env_now Demo.env)
               = Metrics.date_of (env_now Demo.env_later)) by reflexivity.
  split; [exact H1|]. split; [exact H2|].
  pose proof (@generate_daily_metrics_idempotent Demo.env Demo.env_later Demo.world
                H1 H2) as H.
  simpl in H. destruct H as [Hf [_ [_ [_ [_ [_ [Hs _]]]]]]].
  split; [exact Hf | exact Hs].
Defined.

(** C9.  [evaluate_category] never divides by zero: its body always returns
    (the handler of the [try] is not taken), and precision, recall and F1 are
    each [0] whenever their denominator is zero and the quotient otherwise.
    In particular, when every label of the category is [0], precision, recall
    and F1 are all zero, whatever the classifier predicts. *)
Theorem evaluate_category_safe (env : Env) (clf : ContentClassifier)
    (category : string) (texts : list text) (labels : list Z) (w : World) :
  exists predictions ev w',
    for_each (TrainModel.predict_one env clf category) texts [] w
      = (Ok predictions, w') /\
    TrainModel.evaluate_category_body env clf category texts labels w = (Ok ev, w') /\
    TrainModel.evaluate_category env clf category texts labels w = (Ok ev, w') /\
    let tp := TrainModel.true_positives predictions labels in
    let fp := TrainModel.false_positives predictions labels in
    let fn := TrainModel.false_negatives predictions labels in
    let p := TrainModel.precision ev in
    let r := TrainModel.recall ev in
    (tp + fp = 0 -> p = 0%Q) /\
    (0 < tp + fp -> p = (Q_of_nat tp / Q_of_nat (tp + fp))%Q) /\
    (tp + fn = 0 -> r = 0%Q) /\
    (0 < tp + fn -> r = (Q_of_nat tp / Q_of_nat (tp + fn))%Q) /\
    ((p + r == 0)%Q -> TrainModel.f1_score ev = 0%Q) /\
    ((0 < p + r)%Q -> TrainModel.f1_score ev = (2 * p * r / (p + r))%Q) /\
    (Forall (fun l => l = 0%Z) labels ->
     (p == 0)%Q /\ (r == 0)%Q /\ (TrainModel.f1_score ev == 0)%Q).
Proof.
  destruct (predict_loop env clf category texts [] w) as [predictions [w' Ep]].
  destruct (compute_metrics_spec texts predictions labels w')
    as [ev [Ec [Hp [Hr Hf]]]].
  exists predictions, ev, w'.
  assert (Eb : TrainModel.evaluate_category_body env clf category texts labels w
               = (Ok ev, w')).
  { unfold TrainModel.evaluate_category_body. erewrite bind_step by exact Ep.
    exact Ec. }
  split; [exact Ep|]. split; [exact Eb|].
  split; [unfold TrainModel.evaluate_category, try_except; now rewrite Eb|].
  intros tp fp fn p r. fold tp fp in Hp. fold tp fn in Hr. fold p r in Hf.
  fold p in Hp. fold r in Hr. unfold guarded_ratio in Hp, Hr.
  split; [intros H; rewrite Hp, H; reflexivity|].
  split; [intros H; apply Nat.ltb_lt in H; rewrite Hp, H; reflexivity|].
  split; [intros H; rewrite Hr, H; reflexivity|].
  split; [intros H; apply Nat.ltb_lt in H; rewrite Hr, H; reflexivity|].
  split.
  { intros H. rewrite Hf.
    assert (E : Qltb 0 (p + r) = false)
      by (apply Qltb_ge; rewrite H; apply Qle_refl).
    now rewrite E. }
  split.
  { intros H. apply Qltb_lt in H. now rewrite Hf, H. }
  intros Hl. rewrite Forall_forall in Hl.
  assert (Htp : tp = 0).
  { apply count_pairs_none. intros q l Hin. rewrite (Hl l Hin).
    apply andb_false_r. }
  assert (Hfn : fn = 0).
  { apply count_pairs_none. intros q l Hin. rewrite (Hl l Hin).
    apply andb_false_r. }
  assert (Hp0 : (p == 0)%Q).
  { rewrite Hp, Htp. apply (guarded_ratio_zero (0 + fp)). }
  assert (Hr0 : (r == 0)%Q).
  { rewrite Hr, Htp, Hfn. reflexivity. }
  split; [exact Hp0|]. split; [exact Hr0|].
  rewrite Hf.
  assert (E : Qltb 0 (p + r) = false).
  { apply Qltb_ge. rewrite Hp0, Hr0. discriminate. }
  rewrite E. reflexivity.
Qed.

(** C10.  [update_moderation_status] does not validate the new status: for
    every string [s], a call on a content id that has a Content row and a
    ModerationStatus row, committed by the database, returns the updated row,
    stores [s] as the disposition and appends one ModerationAction whose type
    is [s].  Only the form handler of the admin routes refuses a status other
    than approved and rejected, before it calls the processor. *)
Theorem update_status_unvalidated (env : Env) (id : nat) (s : string)
    (uid : option nat) (notes : option text) (w : World) (c : Content)
    (cur : ModerationStatus) :
  find (has_id id) (contents (view w)) = Some c ->
  find (status_for id) (statuses (view w)) = Some cur ->
  env_commit env = true ->
  (exists st w' a,
      update_moderation_status env id s uid notes w = (Ok (Some st), w') /\
      ms_status st = s /\
      disposition id (stored w') = Some s /\
      actions (stored w') = actions (view w) ++ [a] /\
      ma_content_id a = Some id /\
      ma_action_type a = s /\
      ma_previous_status a = Some (ms_status cur))
  /\
  (s <> "approved"%string -> s <> "rejected"%string ->
   forall user : nat,
     Admin.update_status env id (Some s) notes user w
     = (Ok Admin.InvalidStatusProvided, w)).
Proof.
  intros Hc Hs Hcm. split.
  - rewrite (@update_found env id s uid notes w c cur Hc Hs), Hcm.
    eexists. eexists. exists (manual_action env id s uid notes (ms_status cur)).
    split; [reflexivity|]. unfold stored. simpl.
    repeat split. now apply disposition_after with cur.
  - intros Ha Hr user. unfold Admin.update_status, try_except, Admin.invalid_status.
    apply String.eqb_neq in Ha, Hr. rewrite Ha, Hr. reflexivity.
Qed.

(** C10 on the instance: the status "rejectd" is stored as it is. *)
Lemma update_status_unvalidated_witness :
  find (has_id 1) (contents (view Demo.world)) = Some Demo.content1 /\
  find (status_for 1) (statuses (view Demo.world)) = Some Demo.status1 /\
  env_commit Demo.env = true /\
  (exists st w' a,
      update_moderation_status Demo.env 1 "rejectd" (Some 7) None Demo.world
        = (Ok (Some st), w') /\
      ms_status st = "rejectd"%string /\
      disposition 1 (stored w') = Some "rejectd"%string /\
      actions (stored w') = actions (view Demo.world) ++ [a] /\
      ma_action_type a = "rejectd"%string) /\
  Admin.update_status Demo.env 1 (Some "rejectd"%string) None 7 Demo.world
    = (Ok Admin.InvalidStatusProvided, Demo.world).
Proof.
  assert (H1 : find (has_id 1) (contents (view Demo.world)) = Some Demo.content1)
    by reflexivity.
  assert (H2 : find (status_for 1) (statuses (view Demo.world)) = Some Demo.status1)
    by reflexivity.
  assert (H3 : env_commit Demo.env = true) by reflexivity.
  split; [exact H1|]. split; [exact H2|]. split; [exact H3|].
  destruct (@update_status_unvalidated Demo.env 1 "rejectd"%string (Some 7) None
              Demo.world Demo.content1 Demo.status1 H1 H2 H3) as [Hcore Hroute].
  split.
  - destruct Hcore as [st [w' [a [E [Hs [Hd [Ha [_ [Ht _]]]]]]]]].
    exists st, w', a. auto.
  - apply Hroute; discriminate.
Defined.

(* ================================================================= *)
(** * Further properties: the rest of the processor, the routes, the
    dashboard and the filters *)

Import Batch Defaults Api AdminBatch Dashboard Invariants.

(** ** Inversion of the monad *)

Lemma bind_Ok {A B} (m : M A) (f : A -> M B) (w : World) (b : B) (w' : World) :
  bind m f w = (Ok b, w') -> exists a w1, m w = (Ok a, w1) /\ f a w1 = (Ok b, w').
Proof. unfold bind. destruct (m w) as [[a|e] w1]; [eauto | discriminate]. Qed.

Lemma find_app {A} (p : A -> bool) (l l' : list A) :
  find p (l ++ l') = match find p l with
                     | Some x => Some x
                     | None => find p l'
                     end.
Proof. induction l as [|x l IH]; simpl; [reflexivity|]. now destruct (p x). Qed.

(** ** What a call to [process_content] leaves *)

Lemma process_content_step (env : Env) (clf : ContentClassifier)
    (content_text : option text) (ctype : string) (uid : option nat)
    (md : option Metadata) (w : World) :
  exists o w1,
    process_content env clf content_text ctype uid md w = (Ok o, w1) /\
    match o with
    | Some r =>
        process_content_body env clf content_text ctype uid md w = (Ok r, w1) /\
        stored w1 = insert_processed (view w) r /\ view w1 = stored w1
    | None => stored w1 = stored w /\ view w1 = stored w
    end.
Proof.
  pose proof (process_content_outcome env clf content_text ctype uid md w) as Ho.
  pose proof (process_content_body_cases env clf content_text ctype uid md w) as Hc.
  destruct (process_content_body env clf content_text ctype uid md w) as [[r|e] w1].
  - exists (Some r), w1. split; [exact Ho|].
    destruct Hc as [s [i [cls [wa [wb Hc]]]]].
    destruct Hc as [_ [_ [_ [_ [_ [_ [_ [_ [_ [_ [_ [Hcm Hvw]]]]]]]]]]]].
    split; [reflexivity|]. split; [exact Hcm | exact Hvw].
  - eexists None, _. split; [exact Ho|].
    unfold stored, view. simpl. unfold stored. split; exact Hc.
Qed.

Lemma process_content_record (env : Env) (clf : ContentClassifier)
    (content_text : option text) (ctype : string) (uid : option nat)
    (md : option Metadata) (w : World) (r : Processed) (w' : World) :
  process_content_body env clf content_text ctype uid md w = (Ok r, w') ->
  exists s i,
    content_text = Some s /\ env_flush env = Some i /\
    pr_content r =
      {| c_id := Some i;
         c_user_id := uid;
         c_content_type := ctype;
         c_content_text := if (1000 <? List.length s)%nat then firstn 1000 s else s;
         c_original_content :=
           if is_media ctype && (1000 <? List.length s)%nat
           then media_reference ctype md else s;
         c_content_metadata := md;
         c_created_at := env_now env |} /\
    ms_content_id (pr_status r) = Some i /\
    ms_last_updated (pr_status r) = env_now env /\
    ma_content_id (pr_action r) = Some i /\
    ma_previous_status (pr_action r) = None /\
    ma_action_type (pr_action r)
      = ("automated_" ++ ms_status (pr_status r))%string.
Proof.
  unfold process_content_body. intros H.
  apply bind_Ok in H. destruct H as [lm [w1 [E1 H]]].
  apply bind_Ok in H. destruct H as [s [w2 [E2 H]]].
  destruct content_text as [s0|]; [|discriminate E2].
  injection E2 as -> ->.
  assert (Elm : lm = is_media ctype && (1000 <? List.length s)%nat).
  { destruct (is_media ctype); unfold bind, the_text, ret in E1;
      now injection E1 as <- _. }
  apply bind_Ok in H. destruct H as [u3 [w3 [_ H]]].
  apply bind_Ok in H. destruct H as [i [w4 [E4 H]]].
  unfold session_flush in E4.
  destruct (env_flush env) as [i0|] eqn:Ef; [|discriminate E4].
  apply bind_Ok in E4. destruct E4 as [t4 [w4a [_ E4]]].
  apply bind_Ok in E4. destruct E4 as [u4 [w4b [_ E4]]].
  injection E4 as -> _.
  apply bind_Ok in H. destruct H as [cls [w5 [_ H]]].
  apply bind_Ok in H. destruct H as [u6 [w6 [_ H]]].
  apply bind_Ok in H. destruct H as [fl [w7 [_ H]]].
  apply bind_Ok in H. destruct H as [u8 [w8 [_ H]]].
  apply bind_Ok in H. destruct H as [u9 [w9 [_ H]]].
  injection H as <- _.
  exists s, i. subst lm. simpl. repeat split; reflexivity.
Qed.

(** X1.  The Content row a successful [process_content] commits never holds
    more than the first 1000 characters of the submission in [content_text]:
    the field is the submitted text cut at 1000 characters.
    [original_content] keeps the whole submission, except for an image or a
    video of more than 1000 characters, where it holds the reference built
    from the content type and the file name instead of the payload. *)
Theorem stored_text_bounded (env : Env) (clf : ContentClassifier)
    (content_text : option text) (ctype : string) (uid : option nat)
    (md : option Metadata) (w : World) (r : Processed) (w' : World) :
  process_content env clf content_text ctype uid md w = (Ok (Some r), w') ->
  exists s,
    content_text = Some s /\
    In (pr_content r) (contents (stored w')) /\
    c_content_text (pr_content r) = firstn 1000 s /\
    List.length (c_content_text (pr_content r)) <= 1000 /\
    (is_media ctype = true -> 1000 < List.length s ->
     c_original_content (pr_content r) = media_reference ctype md) /\
    (is_media ctype = false \/ List.length s <= 1000 ->
     c_original_content (pr_content r) = s).
Proof.
  intros H.
  destruct (process_content_facts _ _ _ _ _ _ _ H) as [cls [_ [_ [_ [_ [_ Hcm]]]]]].
  apply process_content_success in H.
  destruct (process_content_record _ _ _ _ _ _ _ H) as [s [i [Hs [_ [Hc _]]]]].
  exists s. split; [exact Hs|].
  split; [rewrite Hcm; simpl; apply in_or_app; right; now left|].
  rewrite Hc. cbn [c_content_text c_original_content].
  match goal with |- context [if ?b then firstn _ _ else _] =>
    destruct b eqn:E
  end.
  - apply Nat.ltb_lt in E. rewrite andb_true_r.
    split; [reflexivity|]. split; [apply firstn_le_length|]. split.
    + intros Hm _. now rewrite Hm.
    + intros [Hm|Hl]; [now rewrite Hm | lia].
  - apply Nat.ltb_ge in E. rewrite andb_false_r.
    split; [symmetry; now apply firstn_all2|]. split; [exact E|]. split.
    + intros _ Hl. lia.
    + reflexivity.
Qed.

Lemma scenario_picture_processed :
  exists r w',
    process_content Demo.env Demo.clf (Some Scenario.picture) "image" (Some 5)
      (Some Scenario.picture_metadata) Demo.world = (Ok (Some r), w').
Proof. vm_compute. eexists. eexists. reflexivity. Defined.

(** X1 on a picture of 1200 characters named cat.png. *)
Lemma stored_text_bounded_witness :
  exists r w',
    process_content Demo.env Demo.clf (Some Scenario.picture) "image" (Some 5)
      (Some Scenario.picture_metadata) Demo.world = (Ok (Some r), w') /\
    c_content_text (pr_content r) = firstn 1000 Scenario.picture /\
    c_original_content (pr_content r) = str "[IMAGE content] - cat.png".
Proof.
  destruct scenario_picture_processed as [r [w' E]]. exists r, w'.
  split; [exact E|].
  destruct (stored_text_bounded _ _ _ _ _ _ _ E) as [s [Hs [_ [Ht [_ [Hm _]]]]]].
  injection Hs as <-. split; [exact Ht|].
  rewrite Hm; [reflexivity | reflexivity | apply Nat.ltb_lt; reflexivity].
Defined.

(** ** Flags and disposition *)

(** X2.  The flags of a successful [process_content] agree with its score
    and its disposition.  The score is never negative; when it is at most
    0.3 the call creates no flag, and when it is above 0.3 some flag carries
    exactly the overall score.  So an item that is approved automatically
    has no flag, and an item that is rejected automatically has a flag whose
    score is above 0.8. *)
Theorem flags_follow_score (env : Env) (clf : ContentClassifier)
    (content_text : option text) (ctype : string) (uid : option nat)
    (md : option Metadata) (w : World) (r : Processed) (w' : World) :
  process_content env clf content_text ctype uid md w = (Ok (Some r), w') ->
  let score := ms_moderation_score (pr_status r) in
  (0 <= score)%Q /\
  ((score <= 3 # 10)%Q -> pr_flags r = []) /\
  ((3 # 10 < score)%Q ->
   exists f, In f (pr_flags r) /\ cf_flag_score f = score) /\
  (ms_status (pr_status r) = "approved"%string -> pr_flags r = []) /\
  (ms_status (pr_status r) = "rejected"%string ->
   exists f, In f (pr_flags r) /\ (8 # 10 < cf_flag_score f)%Q).
Proof.
  intros H score.
  destruct (process_content_facts _ _ _ _ _ _ _ H)
    as [cls [_ [_ [Hsc [Hst [Hfl _]]]]]].
  destruct (fold_py_max cls 0%Q) as [H0 [Hle Hex]].
  fold (overall_score cls) in H0, Hle, Hex.
  assert (Es : score = overall_score cls) by exact Hsc.
  assert (Hlow : (score <= 3 # 10)%Q -> pr_flags r = []).
  { intros Hs.
    assert (Hn : filter reported cls = []).
    { apply filter_none. intros kv Hin. unfold reported. apply Qltb_ge.
      apply Qle_trans with (overall_score cls); [now apply Hle | now rewrite <- Es]. }
    rewrite Hn in Hfl. now apply map_eq_nil in Hfl. }
  assert (Hhigh : (3 # 10 < score)%Q ->
                  exists f, In f (pr_flags r) /\ cf_flag_score f = score).
  { intros Hs. destruct Hex as [Hex|[kv [Hin Hex]]].
    - rewrite Es, Hex in Hs. discriminate Hs.
    - assert (Hr : In kv (filter reported cls)).
      { apply filter_In. split; [exact Hin|]. unfold reported. apply Qltb_lt.
        now rewrite <- Hex, <- Es. }
      rewrite <- Hfl in Hr. apply in_map_iff in Hr. destruct Hr as [f [Hf Hinf]].
      exists f. split; [exact Hinf|].
      rewrite Es, Hex, <- Hf. reflexivity. }
  split; [now rewrite Es|]. split; [exact Hlow|]. split; [exact Hhigh|].
  rewrite Hst, <- Es. unfold initial_status. split.
  - intros Ha. destruct (Qltb (8 # 10) score); [discriminate Ha|].
    destruct (Qltb score (3 # 10)) eqn:E; [|discriminate Ha].
    apply Hlow. apply Qlt_le_weak. now apply Qltb_lt.
  - intros Hr. destruct (Qltb (8 # 10) score) eqn:E.
    + apply Qltb_lt in E. destruct Hhigh as [f [Hin Hf]].
      { apply Qlt_trans with (8 # 10); [reflexivity | exact E]. }
      exists f. split; [exact Hin | now rewrite Hf].
    + destruct (Qltb score (3 # 10)); discriminate Hr.
Qed.

(** X2 on the instance: the rejected item has a flag above 0.8. *)
Lemma flags_follow_score_witness :
  exists r w',
    process_content Demo.env Demo.clf (Some (str "You are 2 kind")) "text"
      (Some 5) None Demo.world = (Ok (Some r), w') /\
    (0 <= ms_moderation_score (pr_status r))%Q /\
    (ms_status (pr_status r) = "rejected"%string ->
     exists f, In f (pr_flags r) /\ (8 # 10 < cf_flag_score f)%Q).
Proof.
  destruct demo_processed as [r [w' E]]. exists r, w'.
  split; [exact E|].
  pose proof (flags_follow_score _ _ _ _ _ _ _ E) as H. simpl in H.
  split; apply H.
Defined.

(** ** Images and videos *)

Lemma classify_content_media (env : Env) (clf : ContentClassifier) (ctype : string)
    (pt : text) (md : option Metadata) :
  is_media ctype = true ->
  classify_content env clf ctype pt md
  = ret (generate_media_classification env ctype md).
Proof.
  unfold is_media, classify_content. intros H.
  destruct (String.eqb ctype "image") eqn:Ei.
  - apply String.eqb_eq in Ei. subst ctype. reflexivity.
  - destruct (String.eqb ctype "video") eqn:Ev; [|discriminate H].
    apply String.eqb_eq in Ev. subst ctype. reflexivity.
Qed.

Lemma media_score_bounds (env : Env) (md : option Metadata) (suffix : string) :
  (5 # 100 <= media_score env md suffix)%Q /\ (media_score env md suffix <= 95 # 100)%Q.
Proof.
  unfold media_score, py_max, py_min.
  match goal with |- context [Qltb ?x (95 # 100)] =>
    destruct (Qltb x (95 # 100)) eqn:E1
  end.
  - match goal with |- context [Qltb (5 # 100) ?x] =>
      destruct (Qltb (5 # 100) x) eqn:E2
    end.
    + apply Qltb_lt in E1, E2. split; now apply Qlt_le_weak.
    + split; [apply Qle_refl | discriminate].
  - split; discriminate.
Qed.

Lemma media_classification_bounds (env : Env) (mt : string) (md : option Metadata) :
  forall kv, In kv (generate_media_classification env mt md) ->
             (5 # 100 <= snd kv)%Q /\ (snd kv <= 95 # 100)%Q.
Proof.
  intros kv. unfold generate_media_classification.
  destruct (String.eqb mt "image"); [|destruct (String.eqb mt "video")];
    intros H;
    repeat (apply In_dict_set in H; destruct H as [->|H];
            [apply media_score_bounds|]);
    destruct H.
Qed.

(** X3.  For an image or a video the verdict of [process_content] is a
    function of the content type and the metadata alone.  The scores are the
    ones [_generate_media_classification] derives from the hash of the
    printed metadata: five categories for an image, six for a video, every
    score between 0.05 and 0.95.  Neither the payload, nor the text
    classifier, nor the random generator has a part in the overall score,
    the disposition and the types and scores of the flags of a successful
    call. *)
Theorem media_verdict_from_metadata (env : Env) (clf : ContentClassifier)
    (content_text : option text) (ctype : string) (uid : option nat)
    (md : option Metadata) (w : World) (r : Processed) (w' : World) :
  is_media ctype = true ->
  process_content env clf content_text ctype uid md w = (Ok (Some r), w') ->
  let cls := generate_media_classification env ctype md in
  ms_moderation_score (pr_status r) = overall_score cls /\
  ms_status (pr_status r) = initial_status (overall_score cls) /\
  map flag_entry (pr_flags r) = filter reported cls /\
  keys cls
    = (if String.eqb ctype "image"
       then ["violence"; "adult_content"; "graphic_violence"; "sexual_content";
             "hate_symbols"]
       else ["violence"; "adult_content"; "graphic_violence"; "sexual_content";
             "dangerous_activity"; "hate_speech"])%string /\
  (5 # 100 <= ms_moderation_score (pr_status r))%Q /\
  (ms_moderation_score (pr_status r) <= 95 # 100)%Q /\
  Forall (fun f => (5 # 100 <= cf_flag_score f)%Q /\ (cf_flag_score f <= 95 # 100)%Q)
         (pr_flags r).
Proof.
  intros Hm E cls.
  destruct (process_content_facts _ _ _ _ _ _ _ E)
    as [cls' [[wa [wb [_ Ec]]] [_ [Hsc [Hst [Hfl _]]]]]].
  rewrite (@classify_content_media env clf ctype _ md Hm) in Ec.
  injection Ec as <- _. fold cls in Hsc, Hst, Hfl.
  pose proof (media_classification_bounds env ctype md) as Hb. fold cls in Hb.
  destruct (media_classification_range env ctype md) as [Hne _]. fold cls in Hne.
  destruct (fold_py_max cls 0%Q) as [_ [Hle Hex]].
  fold (overall_score cls) in Hle, Hex.
  split; [exact Hsc|]. split; [exact Hst|]. split; [exact Hfl|].
  split; [|split; [|split]].
  - unfold cls, is_media in *.
    destruct (String.eqb ctype "image") eqn:Ei.
    + apply String.eqb_eq in Ei. subst ctype. reflexivity.
    + destruct (String.eqb ctype "video") eqn:Ev; [|discriminate Hm].
      apply String.eqb_eq in Ev. subst ctype. reflexivity.
  - rewrite Hsc. destruct cls as [|kv l] eqn:Eg; [now elim Hne|].
    apply Qle_trans with (snd kv); [apply Hb | apply Hle]; now left.
  - rewrite Hsc. destruct Hex as [->|[kv [Hin ->]]]; [discriminate | now apply Hb].
  - apply Forall_forall. intros f Hin.
    assert (Hf : In (flag_entry f) (filter reported cls))
      by (rewrite <- Hfl; now apply in_map).
    apply filter_In in Hf. destruct Hf as [Hf _].
    exact (Hb _ Hf).
Qed.

(** X3 on the instance: the picture named cat.png. *)
Lemma media_verdict_from_metadata_witness :
  is_media "image" = true /\
  exists r w',
    process_content Demo.env Demo.clf (Some Scenario.picture) "image" (Some 5)
      (Some Scenario.picture_metadata) Demo.world = (Ok (Some r), w') /\
    ms_moderation_score (pr_status r)
    = overall_score (generate_media_classification Demo.env "image"
                       (Some Scenario.picture_metadata)).
Proof.
  assert (H : is_media "image" = true) by reflexivity.
  split; [exact H|].
  destruct scenario_picture_processed as [r [w' E]]. exists r, w'.
  split; [exact E|].
  pose proof (@media_verdict_from_metadata _ _ _ _ _ _ _ _ _ H E) as Hv.
  cbn zeta in Hv. exact (proj1 Hv).
Defined.

(** ** Status updates: the refused commit and the frame *)

Lemma find_update_other {A} (p q : A -> bool) (f : A -> A) (l : list A) :
  (forall x, q (f x) = q x) ->
  (forall x, q x = true -> p x = false) ->
  find q (update_first p f l) = find q l.
Proof.
  intros Hf Hpq. induction l as [|x l IH]; simpl; [reflexivity|].
  destruct (p x) eqn:Ep; simpl.
  - rewrite Hf. destruct (q x) eqn:Eq; [|reflexivity].
    apply Hpq in Eq. congruence.
  - now rewrite IH.
Qed.

Lemma same_id_other (a : option nat) (i j : nat) :
  i <> j -> same_id a (Some j) = true -> same_id a (Some i) = false.
Proof.
  intros Hij. destruct a as [x|]; simpl; [|discriminate].
  intros H. apply Nat.eqb_eq in H. subst x. now apply Nat.eqb_neq, not_eq_sym.
Qed.

Lemma disposition_other (env : Env) (i j : nat) (status : string) (uid : option nat)
    (notes : option text) (prev : string) (t : Tables) :
  i <> j ->
  disposition j (tables_after_update env i status uid notes prev t) = disposition j t.
Proof.
  intros Hij. unfold disposition, tables_after_update. simpl. f_equal.
  apply find_update_other.
  - intros x. reflexivity.
  - intros x. unfold status_for. now apply same_id_other.
Qed.

Lemma actions_other (env : Env) (i j : nat) (status : string) (uid : option nat)
    (notes : option text) (prev : string) (t : Tables) :
  i <> j ->
  actions_of j (tables_after_update env i status uid notes prev t) = actions_of j t.
Proof.
  intros Hij. unfold actions_of, tables_after_update. simpl.
  rewrite filter_app. simpl. unfold action_for at 2. simpl.
  assert (E : (i =? j) = false) by now apply Nat.eqb_neq.
  rewrite E. apply app_nil_r.
Qed.

(** X4.  An update that the database refuses to commit changes nothing: on
    a content id that has its Content and ModerationStatus rows,
    [update_moderation_status] returns [None], rolls the session back to the
    committed tables, and logs the database error; the form handler
    [update_status] then flashes that the update failed. *)
Theorem update_refused_commit (env : Env) (id : nat) (status : string)
    (uid : option nat) (notes : option text) (w : World) (c : Content)
    (cur : ModerationStatus) :
  find (has_id id) (contents (view w)) = Some c ->
  find (status_for id) (statuses (view w)) = Some cur ->
  env_commit env = false ->
  let out := update_moderation_status env id status uid notes w in
  fst out = Ok None /\
  stored (snd out) = stored w /\
  view (snd out) = stored w /\
  w_log (snd out) = w_log w ++ [ErrorUpdatingStatus DatabaseError] /\
  (status = "approved"%string \/ status = "rejected"%string ->
   forall user : nat,
     fst (Admin.update_status env id (Some status) notes user w)
     = Ok Admin.FailedToUpdateStatus).
Proof.
  intros Hc Hs Hcm out. unfold out.
  rewrite (@update_found env id status uid notes w c cur Hc Hs), Hcm. simpl.
  repeat split.
  intros Hv user. unfold Admin.update_status, try_except.
  assert (Ev : Admin.invalid_status (Some status) = false)
    by (destruct Hv as [->| ->]; reflexivity).
  rewrite Ev.
  pose proof (@update_found env id status (Some user)
                (Some match notes with Some n => n | None => [] end) w c cur Hc Hs)
    as Hu.
  rewrite Hcm in Hu. erewrite bind_step by exact Hu. reflexivity.
Qed.

(** X4 on the instance: the database is down when item 1 is rejected. *)
Lemma update_refused_commit_witness :
  find (has_id 1) (contents (view Demo.world)) = Some Demo.content1 /\
  find (status_for 1) (statuses (view Demo.world)) = Some Demo.status1 /\
  env_commit Demo.env_down = false /\
  fst (update_moderation_status Demo.env_down 1 "rejected" (Some 7) None Demo.world)
    = Ok None /\
  stored (snd (update_moderation_status Demo.env_down 1 "rejected" (Some 7) None
                 Demo.world)) = stored Demo.world.
Proof.
  assert (H1 : find (has_id 1) (contents (view Demo.world)) = Some Demo.content1)
    by reflexivity.
  assert (H2 : find (status_for 1) (statuses (view Demo.world)) = Some Demo.status1)
    by reflexivity.
  assert (H3 : env_commit Demo.env_down = false) by reflexivity.
  split; [exact H1|]. split; [exact H2|]. split; [exact H3|].
  pose proof (@update_refused_commit Demo.env_down 1 "rejected"%string (Some 7) None
                Demo.world Demo.content1 Demo.status1 H1 H2 H3) as H.
  simpl in H. destruct H as [Ha [Hb _]].
  split; [exact Ha | exact Hb].
Defined.

(** X5.  A committed status update touches one status row and adds one
    action row, nothing else: the Content, ContentFlag and metric tables are
    as before, every other content id keeps its disposition and its audit
    rows, and the updated row keeps its content id, its moderation score and
    its processing time. *)
Theorem update_frame (env : Env) (id : nat) (status : string) (uid : option nat)
    (notes : option text) (w : World) (c : Content) (cur : ModerationStatus) :
  find (has_id id) (contents (view w)) = Some c ->
  find (status_for id) (statuses (view w)) = Some cur ->
  env_commit env = true ->
  exists st w',
    update_moderation_status env id status uid notes w = (Ok (Some st), w') /\
    contents (stored w') = contents (view w) /\
    flags (stored w') = flags (view w) /\
    metrics (stored w') = metrics (view w) /\
    List.length (statuses (stored w')) = List.length (statuses (view w)) /\
    (forall other, other <> id ->
       disposition other (stored w') = disposition other (view w) /\
       actions_of other (stored w') = actions_of other (view w)) /\
    ms_content_id st = ms_content_id cur /\
    ms_moderation_score st = ms_moderation_score cur /\
    ms_processing_time st = ms_processing_time cur /\
    w_draws w' = w_draws w /\ w_log w' = w_log w.
Proof.
  intros Hc Hs Hcm.
  rewrite (@update_found env id status uid notes w c cur Hc Hs), Hcm.
  eexists. eexists. split; [reflexivity|]. unfold stored. simpl.
  repeat split.
  - generalize (statuses (view w)). intros l.
    induction l as [|x l IH]; simpl; [reflexivity|].
    destruct (status_for id x); simpl; [reflexivity | now rewrite IH].
  - apply (@disposition_other env id other status uid notes (ms_status cur) (view w)).
    now apply not_eq_sym.
  - apply (@actions_other env id other status uid notes (ms_status cur) (view w)).
    now apply not_eq_sym.
Qed.

(** X5 on the instance: item 1 is reviewed; the tables of the other kinds
    are untouched. *)
Lemma update_frame_witness :
  find (has_id 1) (contents (view Demo.world)) = Some Demo.content1 /\
  find (status_for 1) (statuses (view Demo.world)) = Some Demo.status1 /\
  env_commit Demo.env = true /\
  exists st w',
    update_moderation_status Demo.env 1 "approved" (Some 7) None Demo.world
      = (Ok (Some st), w') /\
    contents (stored w') = contents (view Demo.world) /\
    ms_moderation_score st = ms_moderation_score Demo.status1.
Proof.
  assert (H1 : find (has_id 1) (contents (view Demo.world)) = Some Demo.content1)
    by reflexivity.
  assert (H2 : find (status_for 1) (statuses (view Demo.world)) = Some Demo.status1)
    by reflexivity.
  assert (H3 : env_commit Demo.env = true) by reflexivity.
  split; [exact H1|]. split; [exact H2|]. split; [exact H3|].
  destruct (@update_frame Demo.env 1 "approved"%string (Some 7) None Demo.world
              Demo.content1 Demo.status1 H1 H2 H3)
    as [st [w' [E [Hc [_ [_ [_ [_ [_ [Hsc _]]]]]]]]]].
  exists st, w'. split; [exact E|]. split; [exact Hc | exact Hsc].
Defined.

(** ** The audit trail of an item, from its submission on *)

Lemma update_many_trail (id : nat) (calls : list StatusUpdate) : forall (w : World)
    (c : Content) (cur : ModerationStatus),
  find (has_id id) (contents (view w)) = Some c ->
  find (status_for id) (statuses (view w)) = Some cur ->
  Forall commits calls ->
  clean w ->
  let w' := final_world w (update_many id calls w) in
  trail (actions_of id (stored w'))
    = trail (actions_of id (stored w))
      ++ manual_trail (ms_status cur) (map su_status calls) /\
  disposition id (stored w') = Some (last (map su_status calls) (ms_status cur)).
Proof.
  induction calls as [|u calls IH]; intros w c cur Hc Hs Hcm Hcl.
  - simpl. unfold final_world. simpl. rewrite app_nil_r. split; [reflexivity|].
    unfold disposition. rewrite <- Hcl, Hs. reflexivity.
  - inversion Hcm as [|u' calls' Hu Hrest]; subst.
    cbn zeta. cbn [update_many]. unfold final_world. cbn [map].
    rewrite last_cons. fold (final_world
      (snd (update_moderation_status (su_env u) id (su_status u) (su_user_id u)
              (su_notes u) w))
      (update_many id calls
         (snd (update_moderation_status (su_env u) id (su_status u) (su_user_id u)
                 (su_notes u) w)))).
    pose proof (@update_found (su_env u) id (su_status u) (su_user_id u) (su_notes u)
                  w c cur Hc Hs) as E.
    unfold commits in Hu. rewrite Hu in E. rewrite E. cbn [snd].
    match goal with |- context [update_many id calls ?w1] => set (w1' := w1) end.
    assert (Hc1 : find (has_id id) (contents (view w1')) = Some c) by exact Hc.
    assert (Hs1 : find (status_for id) (statuses (view w1'))
                  = Some (set_status (su_status u) (env_now (su_env u)) cur)).
    { unfold w1', view. simpl. apply find_update_first; [exact Hs|].
      unfold status_for, set_status. simpl.
      apply find_some in Hs. exact (proj2 Hs). }
    assert (Hcl1 : clean w1') by reflexivity.
    destruct (IH w1' c _ Hc1 Hs1 Hrest Hcl1) as [Ht Hd].
    cbn zeta in Ht, Hd. rewrite Ht, Hd. cbn [set_status ms_status].
    split.
    + assert (Ea : actions_of id (stored w1')
                   = actions_of id (view w)
                     ++ [manual_action (su_env u) id (su_status u) (su_user_id u)
                           (su_notes u) (ms_status cur)]).
      { unfold w1', stored. simpl. apply actions_after. }
      rewrite Ea. unfold trail. rewrite map_app. simpl.
      rewrite <- app_assoc. simpl. now rewrite Hcl.
    + simpl. f_equal. symmetry.
      destruct (map su_status calls) as [|s l]; [reflexivity|].
      apply last_default.
Qed.

(** X6.  The audit trail reconstructs the history of an item.  When
    [process_content] stores an item under a key no row used before and N
    committed status updates follow, the ModerationAction rows of the item
    read, in order: the automated action of the initial disposition, with no
    previous status, then one row per update whose type is the status that
    update set and whose previous status is the one set just before it (the
    initial disposition for the first update).  The disposition stored at
    the end is the status of the last update. *)
Theorem audit_trail_after_reviews (env : Env) (clf : ContentClassifier)
    (content_text : option text) (ctype : string) (uid : option nat)
    (md : option Metadata) (w : World) (r : Processed) (w1 : World) (i : nat)
    (calls : list StatusUpdate) :
  process_content env clf content_text ctype uid md w = (Ok (Some r), w1) ->
  env_flush env = Some i ->
  unused i (view w) ->
  Forall commits calls ->
  let w' := final_world w1 (update_many i calls w1) in
  let d0 := ms_status (pr_status r) in
  trail (actions_of i (stored w'))
    = (("automated_" ++ d0)%string, None) :: manual_trail d0 (map su_status calls) /\
  disposition i (stored w') = Some (last (map su_status calls) d0).
Proof.
  intros H Hf [Hu1 [Hu2 [_ Hu4]]] Hcm w' d0.
  destruct (process_content_step env clf content_text ctype uid md w)
    as [o [w1' [E Ho]]].
  rewrite H in E. injection E as <- <-.
  destruct Ho as [Hb [Hst Hvw]].
  destruct (process_content_record _ _ _ _ _ _ _ Hb)
    as [s [i' [_ [Hf' [Hc [Hsi [_ [Hai [Hap Hat]]]]]]]]].
  rewrite Hf in Hf'. injection Hf' as <-.
  assert (Hc1 : find (has_id i) (contents (view w1)) = Some (pr_content r)).
  { rewrite Hvw, Hst. simpl. rewrite find_app, Hu1. simpl.
    unfold has_id. rewrite Hc. simpl. now rewrite Nat.eqb_refl. }
  assert (Hs1 : find (status_for i) (statuses (view w1)) = Some (pr_status r)).
  { rewrite Hvw, Hst. simpl. rewrite find_app, Hu2. simpl.
    unfold status_for. rewrite Hsi. simpl. now rewrite Nat.eqb_refl. }
  destruct (@update_many_trail i calls w1 _ _ Hc1 Hs1 Hcm Hvw) as [Ht Hd].
  cbn zeta in Ht, Hd. fold w' in Ht, Hd. fold d0 in Ht, Hd.
  split; [|exact Hd].
  rewrite Ht. rewrite Hst. unfold actions_of in *. simpl.
  rewrite filter_app, Hu4. simpl. unfold action_for at 1. rewrite Hai. simpl.
  rewrite Nat.eqb_refl. unfold trail. simpl. now rewrite Hap, Hat.
Qed.

(** X6 on the instance: a new item gets key 2, is rejected automatically,
    then reviewed twice. *)
Lemma audit_trail_after_reviews_witness :
  exists r w1,
    process_content Demo.env Demo.clf (Some (str "You are 2 kind")) "text"
      (Some 5) None Demo.world = (Ok (Some r), w1) /\
    env_flush Demo.env = Some 2 /\
    unused 2 (view Demo.world) /\
    Forall commits Demo.reviews /\
    trail (actions_of 2 (stored (final_world w1 (update_many 2 Demo.reviews w1))))
    = (("automated_" ++ ms_status (pr_status r))%string, None)
      :: manual_trail (ms_status (pr_status r)) ["rejected"%string; "approved"%string].
Proof.
  destruct demo_processed as [r [w1 E]]. exists r, w1.
  assert (H1 : env_flush Demo.env = Some 2) by reflexivity.
  assert (H2 : unused 2 (view Demo.world)) by (repeat split).
  assert (H3 : Forall commits Demo.reviews) by (repeat constructor).
  split; [exact E|]. split; [exact H1|]. split; [exact H2|]. split; [exact H3|].
  exact (proj1 (@audit_trail_after_reviews _ _ _ _ _ _ _ _ _ _ _ E H1 H2 H3)).
Defined.

(** ** [batch_process] *)

Lemma for_each_app {A B} (f : B -> A -> M B) (xs ys : list A) : forall (acc : B)
    (w : World),
  for_each f (xs ++ ys) acc w = bind (for_each f xs acc) (for_each f ys) w.
Proof.
  induction xs as [|x xs IH]; intros acc w; [reflexivity|].
  rewrite <- app_comm_cons. unfold bind. rewrite !for_each_cons.
  destruct (f acc x w) as [[a|e] w1]; [|reflexivity].
  rewrite IH. reflexivity.
Qed.

Lemma insert_all_contents (rs : list Processed) : forall t : Tables,
  contents (insert_all t rs) = contents t ++ map pr_content rs.
Proof.
  induction rs as [|r rs IH]; intros t; simpl; [now rewrite app_nil_r|].
  unfold insert_all in *. simpl. rewrite IH. simpl. now rewrite <- app_assoc.
Qed.

Lemma batch_item_step (clf : ContentClassifier) (results : list Processed)
    (call : Env * ContentItem) (w : World) :
  has_text_key call -> clean w ->
  exists new w',
    batch_item clf results call w = (Ok (results ++ new), w') /\
    List.length new <= 1 /\
    stored w' = insert_all (stored w) new /\ clean w'.
Proof.
  intros Hk Hcl. unfold batch_item, has_text_key, item_text in *.
  destruct (item_content_text (snd call)) as [t|]; [|now elim Hk].
  erewrite bind_step by reflexivity.
  destruct (process_content_step (fst call) clf t (item_type (snd call))
              (item_user_id (snd call)) (item_metadata (snd call)) w)
    as [o [w1 [E Ho]]].
  erewrite bind_step by exact E.
  destruct o as [r|].
  - exists [r], w1. destruct Ho as [_ [Hst Hvw]].
    split; [reflexivity|]. split; [simpl; lia|].
    split; [|exact Hvw]. simpl. now rewrite Hst, Hcl.
  - exists [], w1. destruct Ho as [Hst Hvw].
    split; [now rewrite app_nil_r|]. split; [simpl; lia|].
    split; [exact Hst|]. unfold clean. now rewrite Hvw, Hst.
Qed.

Lemma batch_loop (clf : ContentClassifier) (calls : list (Env * ContentItem)) :
  forall (results : list Processed) (w : World),
  Forall has_text_key calls -> clean w ->
  exists new w',
    for_each (batch_item clf) calls results w = (Ok (results ++ new), w') /\
    List.length new <= List.length calls /\
    stored w' = insert_all (stored w) new /\ clean w'.
Proof.
  induction calls as [|call calls IH]; intros results w Hk Hcl.
  - exists [], w. simpl. rewrite app_nil_r. repeat split; auto.
  - inversion Hk as [|c l Hk1 Hk2]; subst.
    destruct (@batch_item_step clf results call w Hk1 Hcl)
      as [new1 [w1 [E1 [Hl1 [Hs1 Hc1]]]]].
    destruct (IH (results ++ new1) w1 Hk2 Hc1) as [new2 [w2 [E2 [Hl2 [Hs2 Hc2]]]]].
    exists (new1 ++ new2), w2.
    rewrite for_each_cons, E1, E2, app_assoc.
    split; [reflexivity|]. split; [rewrite length_app; simpl; lia|].
    split; [|exact Hc2].
    rewrite Hs2, Hs1. unfold insert_all. now rewrite fold_left_app.
Qed.

(** X7.  [batch_process] on items that all have the ['content_text'] key,
    from a session without pending changes, never raises.  It returns at
    most one record per item, and the committed tables grow by exactly the
    rows of the returned records, in order: an item that fails leaves no row
    and does not stop the items after it, and every returned record is
    stored. *)
Theorem batch_process_commits_results (clf : ContentClassifier)
    (calls : list (Env * ContentItem)) (w : World) :
  Forall has_text_key calls -> clean w ->
  exists results w',
    batch_process clf calls w = (Ok results, w') /\
    List.length results <= List.length calls /\
    stored w' = insert_all (stored w) results /\
    clean w' /\
    contents (stored w') = contents (stored w) ++ map pr_content results.
Proof.
  intros Hk Hcl.
  destruct (@batch_loop clf calls [] w Hk Hcl) as [new [w' [E [Hl [Hs Hc]]]]].
  exists new, w'. split; [exact E|]. split; [exact Hl|].
  split; [exact Hs|]. split; [exact Hc|].
  rewrite Hs. apply insert_all_contents.
Qed.

(** X7 on the instance: two items; the database refuses the second. *)
Lemma batch_process_commits_results_witness :
  Forall has_text_key [(Demo.env, Scenario.item_a); (Demo.env_down, Scenario.item_b)] /\
  clean Demo.world /\
  exists results w',
    batch_process Demo.clf
      [(Demo.env, Scenario.item_a); (Demo.env_down, Scenario.item_b)] Demo.world
    = (Ok results, w') /\
    stored w' = insert_all (stored Demo.world) results.
Proof.
  assert (H1 : Forall has_text_key
                 [(Demo.env, Scenario.item_a); (Demo.env_down, Scenario.item_b)])
    by (repeat constructor; discriminate).
  assert (H2 : clean Demo.world) by reflexivity.
  split; [exact H1|]. split; [exact H2|].
  destruct (batch_process_commits_results Demo.clf H1 H2)
    as [results [w' [E [_ [Hs _]]]]].
  exists results, w'. split; [exact E | exact Hs].
Defined.

(** X8.  An item without the ['content_text'] key is not a failure
    [batch_process] absorbs: the [KeyError] leaves the function.  The items
    before it were processed and their rows stay committed, but their
    records are not returned, and the items after it are not processed. *)
Theorem batch_process_missing_key (clf : ContentClassifier)
    (before after : list (Env * ContentItem)) (call : Env * ContentItem)
    (w : World) :
  Forall has_text_key before ->
  item_content_text (snd call) = None ->
  clean w ->
  exists done w',
    batch_process clf (before ++ call :: after) w = (Raise KeyError, w') /\
    List.length done <= List.length before /\
    stored w' = insert_all (stored w) done /\
    clean w'.
Proof.
  intros Hk Hn Hcl.
  destruct (@batch_loop clf before [] w Hk Hcl) as [done [w' [E [Hl [Hs Hc]]]]].
  exists done, w'. unfold batch_process.
  rewrite for_each_app. erewrite bind_step by exact E.
  rewrite for_each_cons. unfold batch_item at 1, item_text.
  rewrite Hn. unfold bind at 1, raise.
  split; [reflexivity|]. split; [exact Hl|]. split; [exact Hs | exact Hc].
Qed.

(** X8 on the instance: the second of three items has no text key. *)
Lemma batch_process_missing_key_witness :
  Forall has_text_key [(Demo.env, Scenario.item_a)] /\
  item_content_text Scenario.item_no_key = None /\
  clean Demo.world /\
  exists w',
    batch_process Demo.clf
      ([(Demo.env, Scenario.item_a)]
       ++ (Demo.env_later, Scenario.item_no_key) :: [(Demo.env_later, Scenario.item_b)])
      Demo.world
    = (Raise KeyError, w').
Proof.
  assert (H1 : Forall has_text_key [(Demo.env, Scenario.item_a)])
    by (repeat constructor; discriminate).
  assert (H2 : item_content_text (snd (Demo.env_later, Scenario.item_no_key)) = None)
    by reflexivity.
  assert (H3 : clean Demo.world) by reflexivity.
  split; [exact H1|]. split; [exact H2|]. split; [exact H3|].
  destruct (@batch_process_missing_key Demo.clf _
              [(Demo.env_later, Scenario.item_b)] _ Demo.world H1 H2 H3)
    as [done [w' [E _]]].
  exists w'. exact E.
Defined.

(** ** The classifier the routes use *)

Lemma new_classifier_scores (env : Env) (t : text) (w : World) :
  classify_text env new_classifier t w
  = (Ok (drawn_scores env (w_draws w) default_categories),
     {| w_session := w_session w;
        w_draws := 5 + w_draws w;
        w_log := w_log w
                 ++ map (fun c => ErrorClassifying c NotFittedError) default_categories |}).
Proof.
  unfold classify_text.
  change (dict_empty (models new_classifier) || dict_empty (vectorizers new_classifier))
    with false.
  cbv iota.
  change (categories new_classifier) with default_categories.
  unfold default_categories.
  assert (Hstep : forall d c w0,
            In c default_categories ->
            classify_category env new_classifier t d c w0
            = (Ok (dict_set d c (env_uniform env (1 # 10) (9 # 10) (w_draws w0))),
               {| w_session := w_session w0;
                  w_draws := S (w_draws w0);
                  w_log := w_log w0 ++ [ErrorClassifying c NotFittedError] |})).
  { intros d c w0 Hin. unfold classify_category, try_except.
    simpl in Hin.
    destruct Hin as [<-|[<-|[<-|[<-|[<-|[]]]]]]; reflexivity. }
  repeat (rewrite for_each_cons, Hstep by (simpl; tauto);
          cbn [w_session w_draws w_log]).
  rewrite <- !app_assoc. reflexivity.
Qed.

(** X9.  The classifier built without a model file, which is the one the
    [ContentProcessor()] of every route holds, does not read the text it
    classifies.  Its models exist but are not fitted, so for each of the five
    categories the prediction raises, the error is logged and the score is
    the next number drawn by [random.uniform(0.1, 0.9)]: the state and the
    result of [classify_text] are the same for any two texts. *)
Theorem new_classifier_draws (env : Env) (t t' : text) (w : World) :
  let out := classify_text env new_classifier t w in
  untrained new_classifier = false /\
  fst out = Ok (drawn_scores env (w_draws w) default_categories) /\
  w_draws (snd out) = 5 + w_draws w /\
  w_session (snd out) = w_session w /\
  w_log (snd out)
    = w_log w ++ map (fun c => ErrorClassifying c NotFittedError) default_categories /\
  out = classify_text env new_classifier t' w.
Proof.
  intros out. unfold out. rewrite !new_classifier_scores. simpl.
  repeat split.
Qed.

(** ** [routes/api.py] *)

Lemma classify_content_text (env : Env) (clf : ContentClassifier) (ctype : string)
    (pt : text) (md : option Metadata) :
  is_media ctype = false ->
  classify_content env clf ctype pt md = classify_text env clf pt.
Proof.
  unfold is_media, classify_content. intros H.
  apply orb_false_elim in H. destruct H as [-> ->].
  now destruct (String.eqb ctype "text").
Qed.


Lemma moderate_content_cases (env : Env) (data : option Submission) (w : World) :
  moderate_content env data w =
  match data with
  | None => (Ok (Failure MissingRequiredContentField, 400), w)
  | Some d =>
      match sub_content d with
      | None => (Ok (Failure MissingRequiredContentField, 400), w)
      | Some content =>
          match process_content env new_classifier content (submitted_type d)
                  (sub_user_id d) (sub_metadata d) w with
          | (Ok (Some r), w') =>
              (Ok (Moderated (c_id (pr_content r)) (ms_status (pr_status r))
                     (ms_moderation_score (pr_status r))
                     (ms_processing_time (pr_status r))
                     (map flag_entry (pr_flags r)), 200), w')
          | (Ok None, w') => (Ok (Failure FailedToProcessContent, 500), w')
          | (Raise e, w') => route_error e w'
          end
      end
  end.
Proof.
  unfold moderate_content, try_except.
  destruct data as [d|]; [|reflexivity].
  destruct (sub_content d) as [content|]; [|reflexivity].
  unfold bind.
  destruct (process_content env new_classifier content (submitted_type d)
              (sub_user_id d) (sub_metadata d) w) as [[[r|]|e] w']; reflexivity.
Qed.


Lemma moderate_content_inv (env : Env) (d : Submission) (w : World)
    (id : option nat) (st : string) (sc : Q) (pt : option Q)
    (fl : list (string * Q)) (code : nat) (w' : World) :
  moderate_content env (Some d) w = (Ok (Moderated id st sc pt fl, code), w') ->
  exists content r,
    process_content env new_classifier content (submitted_type d)
      (sub_user_id d) (sub_metadata d) w = (Ok (Some r), w') /\
    st = ms_status (pr_status r) /\
    sc = ms_moderation_score (pr_status r) /\
    fl = map flag_entry (pr_flags r).
Proof.
  rewrite moderate_content_cases.
  destruct (sub_content d) as [content|]; [|discriminate].
  destruct (process_content env new_classifier content (submitted_type d)
              (sub_user_id d) (sub_metadata d) w) as [[[r|]|e] w1] eqn:E;
    try discriminate.
  intros H. injection H as <- <- <- <- <- <- <-.
  exists content, r. auto.
Qed.

Lemma route_verdict (env : Env) (d : Submission) (w : World)
    (id : option nat) (st : string) (sc : Q) (pt : option Q)
    (fl : list (string * Q)) (code : nat) (w' : World) :
  is_media (submitted_type d) = false ->
  moderate_content env (Some d) w = (Ok (Moderated id st sc pt fl, code), w') ->
  let cls := drawn_scores env (w_draws w) default_categories in
  sc = overall_score cls /\ st = initial_status (overall_score cls) /\
  fl = filter reported cls.
Proof.
  intros Hm H. apply moderate_content_inv in H.
  destruct H as [content [r [E [-> [-> ->]]]]].
  destruct (process_content_facts _ _ _ _ _ _ _ E)
    as [cls [[wa [wb [Hd Hc]]] [_ [Hsc [Hst [Hfl _]]]]]].
  rewrite (@classify_content_text env new_classifier (submitted_type d) _
             (sub_metadata d) Hm) in Hc.
  rewrite new_classifier_scores in Hc. injection Hc as <- _.
  rewrite Hd in Hsc, Hst, Hfl. cbn zeta. auto.
Qed.

(** X11.  The verdict of the moderation endpoint on a text does not depend
    on the text.  Two submissions that are not images or videos, sent to
    [moderate_content] from the same state, and both answered with a
    moderation result, receive the same score, the same disposition and the
    same flags: they are those of the five numbers the random generator
    gives next. *)
Theorem moderation_ignores_text (env : Env) (d1 d2 : Submission) (w : World)
    (id1 id2 : option nat) (st1 st2 : string) (sc1 sc2 : Q) (pt1 pt2 : option Q)
    (fl1 fl2 : list (string * Q)) (code1 code2 : nat) (w1 w2 : World) :
  is_media (submitted_type d1) = false ->
  is_media (submitted_type d2) = false ->
  moderate_content env (Some d1) w = (Ok (Moderated id1 st1 sc1 pt1 fl1, code1), w1) ->
  moderate_content env (Some d2) w = (Ok (Moderated id2 st2 sc2 pt2 fl2, code2), w2) ->
  st1 = st2 /\ sc1 = sc2 /\ fl1 = fl2 /\
  sc1 = overall_score (drawn_scores env (w_draws w) default_categories).
Proof.
  intros Hm1 Hm2 H1 H2.
  destruct (@route_verdict env d1 w id1 st1 sc1 pt1 fl1 code1 w1 Hm1 H1)
    as [-> [-> ->]].
  destruct (@route_verdict env d2 w id2 st2 sc2 pt2 fl2 code2 w2 Hm2 H2)
    as [-> [-> ->]].
  auto.
Qed.

Lemma scenario_moderated_kind :
  exists id st sc pt fl w',
    moderate_content Demo.env
      (Some (Scenario.submission (Some (Some (str "you are kind"))))) Demo.world
    = (Ok (Moderated id st sc pt fl, 200), w').
Proof. vm_compute. do 6 eexists. reflexivity. Defined.

Lemma scenario_moderated_threat :
  exists id st sc pt fl w',
    moderate_content Demo.env
      (Some (Scenario.submission (Some (Some (str "I will hurt you"))))) Demo.world
    = (Ok (Moderated id st sc pt fl, 200), w').
Proof. vm_compute. do 6 eexists. reflexivity. Defined.

(** X11 on the instance: a friendly sentence and a threat get the same
    verdict. *)
Lemma moderation_ignores_text_witness :
  exists id1 st1 sc1 pt1 fl1 w1 id2 st2 sc2 pt2 fl2 w2,
    moderate_content Demo.env
      (Some (Scenario.submission (Some (Some (str "you are kind"))))) Demo.world
    = (Ok (Moderated id1 st1 sc1 pt1 fl1, 200), w1) /\
    moderate_content Demo.env
      (Some (Scenario.submission (Some (Some (str "I will hurt you"))))) Demo.world
    = (Ok (Moderated id2 st2 sc2 pt2 fl2, 200), w2) /\
    st1 = st2 /\ sc1 = sc2 /\ fl1 = fl2.
Proof.
  destruct scenario_moderated_kind as [id1 [st1 [sc1 [pt1 [fl1 [w1 E1]]]]]].
  destruct scenario_moderated_threat as [id2 [st2 [sc2 [pt2 [fl2 [w2 E2]]]]]].
  exists id1, st1, sc1, pt1, fl1, w1, id2, st2, sc2, pt2, fl2, w2.
  split; [exact E1|]. split; [exact E2|].
  assert (Hm1 : is_media (submitted_type
                 (Scenario.submission (Some (Some (str "you are kind"))))) = false)
    by reflexivity.
  assert (Hm2 : is_media (submitted_type
                 (Scenario.submission (Some (Some (str "I will hurt you"))))) = false)
    by reflexivity.
  destruct (@moderation_ignores_text Demo.env _ _ Demo.world _ _ _ _ _ _ _ _ _ _
              _ _ _ _ Hm1 Hm2 E1 E2) as [Ha [Hb [Hc _]]].
  auto.
Defined.






Lemma filter_all {A} (p : A -> bool) (l : list A) :
  Forall (fun x => p x = true) l -> filter p l = l.
Proof. induction 1 as [|x l H _ IH]; simpl; [reflexivity|]. now rewrite H, IH. Qed.

(** X13.  What [process_content] commits is what [get_content] shows.
    After a successful call that stored the item under a key no row used
    before, [get_content] of that key answers 200 with the Content row, the
    status row and exactly the flags of the returned record, and changes
    nothing.  For a key without a Content row the answer is 404 and nothing
    changes. *)
Theorem get_content_after_process (env : Env) (clf : ContentClassifier)
    (content_text : option text) (ctype : string) (uid : option nat)
    (md : option Metadata) (w : World) (r : Processed) (w1 : World) (i : nat) :
  process_content env clf content_text ctype uid md w = (Ok (Some r), w1) ->
  env_flush env = Some i ->
  unused i (view w) ->
  get_content i w1
  = (Ok (ContentDetails (content_view (pr_content r))
                        (status_view (Some (pr_status r)))
                        (flag_details (pr_flags r)), 200), w1) /\
  forall other,
    find (has_id other) (contents (view w1)) = None ->
    get_content other w1 = (Ok (Failure ContentNotFoundError, 404), w1).
Proof.
  intros H Hf [Hu1 [Hu2 [Hu3 _]]].
  split.
  - destruct (process_content_step env clf content_text ctype uid md w)
      as [o [w1' [E Ho]]].
    rewrite H in E. injection E as <- <-.
    destruct Ho as [Hb [Hst Hvw]].
    destruct (process_content_record _ _ _ _ _ _ _ Hb)
      as [s [i' [_ [Hf' [Hc [Hsi _]]]]]].
    rewrite Hf in Hf'. injection Hf' as <-.
    pose proof (process_content_body_cases env clf content_text ctype uid md w) as Hcases.
    rewrite Hb in Hcases.
    destruct Hcases as [s' [i' [cls [wa [wb Hcases]]]]].
    destruct Hcases as [_ [Hf' [_ [_ [_ [_ [_ [_ [_ [Hfl _]]]]]]]]]].
    rewrite Hf in Hf'. injection Hf' as <-.
    assert (Hw : working (w_session w1) = insert_processed (view w) r)
      by (rewrite <- Hst, <- Hvw; reflexivity).
    assert (E1 : find (has_id i) (contents (insert_processed (view w) r))
                 = Some (pr_content r)).
    { simpl. rewrite find_app, Hu1. simpl. unfold has_id. rewrite Hc. simpl.
      now rewrite Nat.eqb_refl. }
    assert (E2 : find (status_for i) (statuses (insert_processed (view w) r))
                 = Some (pr_status r)).
    { simpl. rewrite find_app, Hu2. simpl. unfold status_for. rewrite Hsi. simpl.
      now rewrite Nat.eqb_refl. }
    assert (E3 : filter (flag_for i) (flags (insert_processed (view w) r))
                 = pr_flags r).
    { simpl. rewrite filter_app, Hu3. simpl. apply filter_all.
      eapply Forall_impl; [|exact Hfl].
      intros f Hid. unfold flag_for. rewrite Hid. simpl. apply Nat.eqb_refl. }
    unfold get_content, try_except, query_content, query_status, get_working,
      flags_of_content.
    unfold bind, ret. rewrite Hw.
    fold (has_id i). rewrite E1. cbn beta iota. rewrite !Hw.
    fold (status_for i). rewrite E2.
    fold (flag_for i). rewrite E3. reflexivity.
  - intros other Ho.
    unfold get_content, try_except, query_content, get_working.
    unfold bind, ret. fold (view w1). fold (has_id other). now rewrite Ho.
Qed.

(** X13 on the instance: the new item has key 2. *)
Lemma get_content_after_process_witness :
  exists r w1,
    process_content Demo.env Demo.clf (Some (str "You are 2 kind")) "text"
      (Some 5) None Demo.world = (Ok (Some r), w1) /\
    env_flush Demo.env = Some 2 /\
    unused 2 (view Demo.world) /\
    get_content 2 w1
    = (Ok (ContentDetails (content_view (pr_content r))
                          (status_view (Some (pr_status r)))
                          (flag_details (pr_flags r)), 200), w1).
Proof.
  destruct demo_processed as [r [w1 E]]. exists r, w1.
  assert (H1 : env_flush Demo.env = Some 2) by reflexivity.
  assert (H2 : unused 2 (view Demo.world)) by (repeat split).
  split; [exact E|]. split; [exact H1|]. split; [exact H2|].
  exact (proj1 (@get_content_after_process _ _ _ _ _ _ _ _ _ _ E H1 H2)).
Defined.

(** X14.  [trigger_metrics_generation] answers 200 in every case: its
    reply carries what [generate_daily_metrics] returned, so a run whose
    commit the database refused is reported inside a reply that is itself a
    success, while the committed tables are unchanged and the session is
    rolled back. *)
Theorem trigger_metrics_generation_reply (env : Env) (w : World) :
  exists w',
    trigger_metrics_generation env w
    = (Ok (MetricsGenerated (env_commit env), 200), w') /\
    (env_commit env = false -> stored w' = stored w /\ view w' = stored w) /\
    (env_commit env = true -> stored w' = view w' /\
       forall name, In name metric_types ->
         In name (Metrics.existing_types_on (Metrics.date_of (env_now env))
                    (stored w'))).
Proof.
  destruct (generate_daily_metrics_spec env w) as [w' [E H]].
  exists w'. unfold trigger_metrics_generation, try_except.
  erewrite bind_step by exact E.
  split; [reflexivity|].
  destruct (env_commit env).
  - split; [discriminate|]. intros _. destruct H as [Hs Hv].
    split; [now rewrite Hs, Hv|].
    intros name Hin. rewrite Hs. now apply all_types_recorded.
  - split; [intros _; exact H | discriminate].
Qed.

(** ** [batch_action] *)

Lemma update_first_length {A} (p : A -> bool) (f : A -> A) (l : list A) :
  List.length (update_first p f l) = List.length l.
Proof.
  induction l as [|x l IH]; simpl; [reflexivity|].
  destruct (p x); simpl; [reflexivity | now rewrite IH].
Qed.

Lemma update_cases (env : Env) (id : nat) (status : string) (uid : option nat)
    (notes : option text) (w : World) :
  clean w ->
  exists o w1,
    update_moderation_status env id status uid notes w = (Ok o, w1) /\
    clean w1 /\
    contents (stored w1) = contents (stored w) /\
    flags (stored w1) = flags (stored w) /\
    metrics (stored w1) = metrics (stored w) /\
    List.length (statuses (stored w1)) = List.length (statuses (stored w)) /\
    List.length (actions (stored w1))
      = List.length (actions (stored w))
        + match o with Some _ => 1 | None => 0 end.
Proof.
  intros Hcl. unfold clean in Hcl.
  destruct (find (has_id id) (contents (view w))) as [c|] eqn:Ec.
  2:{ rewrite (@update_no_content env id status uid notes w Ec).
      eexists. eexists. split; [reflexivity|].
      unfold clean, view, stored in *. simpl. repeat split; auto. }
  destruct (find (status_for id) (statuses (view w))) as [cur|] eqn:Es.
  2:{ rewrite (@update_no_status env id status uid notes w c Ec Es).
      eexists. eexists. split; [reflexivity|].
      unfold clean, view, stored in *. simpl. repeat split; auto. }
  rewrite (@update_found env id status uid notes w c cur Ec Es).
  destruct (env_commit env).
  - eexists. eexists. split; [reflexivity|].
    unfold clean, view, stored in *. simpl. rewrite Hcl.
    repeat split.
    + apply update_first_length.
    + rewrite length_app. reflexivity.
  - eexists. eexists. split; [reflexivity|].
    unfold clean, view, stored in *. simpl. repeat split; auto.
Qed.

Lemma batch_one_step (a : string) (notes : text) (user n : nat)
    (target : Env * option nat) (w : World) :
  clean w ->
  exists k w1,
    batch_one a notes user n target w = (Ok (n + k), w1) /\
    k <= 1 /\
    clean w1 /\
    contents (stored w1) = contents (stored w) /\
    flags (stored w1) = flags (stored w) /\
    metrics (stored w1) = metrics (stored w) /\
    List.length (statuses (stored w1)) = List.length (statuses (stored w)) /\
    List.length (actions (stored w1)) = List.length (actions (stored w)) + k.
Proof.
  intros Hcl. unfold batch_one, try_except, py_int.
  destruct (snd target) as [i|].
  - erewrite bind_step by reflexivity.
    destruct (@update_cases (fst target) i (batch_status a) (Some user) (Some notes)
                w Hcl) as [o [w1 [E [Hc1 [H1 [H2 [H3 [H4 H5]]]]]]]].
    erewrite bind_step by exact E.
    destruct o as [st|].
    + exists 1, w1. unfold ret. repeat split; auto.
    + exists 0, w1. unfold ret. rewrite Nat.add_0_r. repeat split; auto.
  - exists 0, {| w_session := w_session w;
                 w_draws := w_draws w;
                 w_log := w_log w ++ [ErrorInRoute OtherError] |}.
    rewrite Nat.add_0_r. split; [reflexivity|].
    unfold clean, view, stored in *. simpl. repeat split; auto.
Qed.

Lemma batch_action_loop (a : string) (notes : text) (user : nat)
    (targets : list (Env * option nat)) : forall (n : nat) (w : World),
  clean w ->
  exists k w',
    for_each (batch_one a notes user) targets n w = (Ok (n + k), w') /\
    k <= List.length targets /\
    clean w' /\
    contents (stored w') = contents (stored w) /\
    flags (stored w') = flags (stored w) /\
    metrics (stored w') = metrics (stored w) /\
    List.length (statuses (stored w')) = List.length (statuses (stored w)) /\
    List.length (actions (stored w')) = List.length (actions (stored w)) + k.
Proof.
  induction targets as [|target targets IH]; intros n w Hcl.
  - exists 0, w. simpl. unfold ret. rewrite !Nat.add_0_r. repeat split; auto.
  - destruct (@batch_one_step a notes user n target w Hcl)
      as [k1 [w1 [E1 [Hk1 [Hc1 [A1 [B1 [C1 [D1 F1]]]]]]]]].
    destruct (IH (n + k1) w1 Hc1) as [k2 [w2 [E2 [Hk2 [Hc2 [A2 [B2 [C2 [D2 F2]]]]]]]]].
    exists (k1 + k2), w2. rewrite for_each_cons, E1, E2.
    split; [now rewrite Nat.add_assoc|]. split; [simpl; lia|].
    split; [exact Hc2|].
    rewrite A2, B2, C2, D2, F2, A1, B1, C1, D1, F1.
    repeat split; lia.
Qed.

(** X15.  [batch_action] always ends with a flash message, never with its
    exception handler, from a session without pending changes.  With no id
    selected, or an action other than approve and reject, nothing is read or
    written.  Otherwise an id that is no number, a key without rows and a
    refused commit are passed over without stopping the batch; the success
    count is at most the number of ids and equals the number of
    ModerationAction rows the batch committed, the number of status rows is
    unchanged, and the Content, ContentFlag and metric tables are as
    before. *)
Theorem batch_action_counts (action : option string) (notes : option text)
    (targets : list (Env * option nat)) (user : nat) (w : World) :
  clean w ->
  exists flash w',
    batch_action action notes targets user w = (Ok flash, w') /\
    ((targets = [] /\ flash = NoItemsSelected /\ w' = w)
     \/
     (targets <> [] /\ invalid_action action = true /\
      flash = InvalidAction /\ w' = w)
     \/
     (exists a n,
        action = Some a /\ (a = "approve"%string \/ a = "reject"%string) /\
        flash = Successfully a n (List.length targets) /\
        n <= List.length targets /\
        List.length (actions (stored w')) = List.length (actions (stored w)) + n /\
        List.length (statuses (stored w')) = List.length (statuses (stored w)) /\
        contents (stored w') = contents (stored w) /\
        flags (stored w') = flags (stored w) /\
        metrics (stored w') = metrics (stored w) /\
        clean w')).
Proof.
  intros Hcl. unfold batch_action, try_except.
  destruct targets as [|target targets].
  { eexists. eexists. split; [reflexivity|]. left. auto. }
  destruct action as [a|].
  2:{ eexists. eexists. split; [reflexivity|]. right. left.
      repeat split. discriminate. }
  destruct (invalid_action (Some a)) eqn:Ei.
  { eexists. eexists. split; [reflexivity|]. right. left.
    repeat split. discriminate. }
  destruct (@batch_action_loop a
              match notes with Some n => n | None => str "Batch action" end
              user (target :: targets) 0 w Hcl)
    as [k [w' [E [Hk [Hc [A [B [C [D F]]]]]]]]].
  erewrite bind_step by exact E.
  eexists. eexists. split; [reflexivity|]. right. right.
  exists a, k. split; [reflexivity|]. split.
  { unfold invalid_action in Ei. apply negb_false_iff in Ei.
    apply orb_true_iff in Ei. destruct Ei as [Ei|Ei]; apply String.eqb_eq in Ei; auto. }
  repeat split; auto.
Qed.

(** X15 on the instance: item 1, a value that is no number, and a key
    without rows. *)
Lemma batch_action_counts_witness :
  clean Demo.world /\
  exists flash w',
    batch_action (Some "approve"%string) None
      [(Demo.env, Some 1); (Demo.env, None); (Demo.env_later, Some 9)] 7 Demo.world
    = (Ok flash, w') /\
    contents (stored w') = contents (stored Demo.world).
Proof.
  assert (H : clean Demo.world) by reflexivity.
  split; [exact H|].
  destruct (@batch_action_counts (Some "approve"%string) None
              [(Demo.env, Some 1); (Demo.env, None); (Demo.env_later, Some 9)] 7
              Demo.world H) as [flash [w' [E [[Hn _]|[[_ [Hi _]]|Hs]]]]].
  - discriminate Hn.
  - discriminate Hi.
  - destruct Hs as [a [n [_ [_ [_ [_ [_ [_ [Hc _]]]]]]]]].
    exists flash, w'. split; [exact E | exact Hc].
Defined.

Lemma moderated_after (env : Env) (i j : nat) (status : string) (uid : option nat)
    (notes : option text) (prev : string) (t : Tables) :
  moderated j t ->
  moderated j (tables_after_update env i status uid notes prev t).
Proof.
  intros [Hc Hs]. split; [exact Hc|].
  unfold tables_after_update. simpl.
  destruct (find (status_for j) (statuses t)) as [cur|] eqn:E; [|now elim Hs].
  destruct (Nat.eq_dec i j) as [->|Hij].
  - rewrite (@find_update_first _ (status_for j) (set_status status (env_now env))
               (statuses t) cur E).
    + discriminate.
    + apply find_some in E. exact (proj2 E).
  - rewrite find_update_other.
    + rewrite E. discriminate.
    + intros x. reflexivity.
    + intros x. unfold status_for. now apply same_id_other.
Qed.

Lemma status_count_update (env : Env) (i : nat) (status s : string)
    (uid : option nat) (notes : option text) (prev : string) (t : Tables) :
  s <> status ->
  status_count s (tables_after_update env i status uid notes prev t)
  <= status_count s t.
Proof.
  intros Hs. unfold status_count, tables_after_update. simpl.
  induction (statuses t) as [|x l IH]; simpl; [lia|].
  destruct (status_for i x); simpl.
  - assert (E : String.eqb status s = false)
      by (apply String.eqb_neq; now apply not_eq_sym).
    rewrite E. destruct (String.eqb (ms_status x) s); simpl; lia.
  - destruct (String.eqb (ms_status x) s); simpl; lia.
Qed.

Lemma batch_status_loop (a : string) (notes : text) (user : nat)
    (targets : list (Env * option nat)) : forall (n : nat) (w : World)
    (done : list nat),
  clean w ->
  Forall (reviewable (view w)) targets ->
  (forall j, In j done -> moderated j (view w) /\
                          disposition j (view w) = Some (batch_status a)) ->
  exists w',
    for_each (batch_one a notes user) targets n w
    = (Ok (n + List.length targets), w') /\
    clean w' /\
    (forall j, In j done \/ (exists env, In (env, Some j) targets) ->
               disposition j (stored w') = Some (batch_status a)) /\
    (forall s, s <> batch_status a ->
               status_count s (stored w') <= status_count s (stored w)).
Proof.
  induction targets as [|target targets IH]; intros n w done Hcl Hrev Hdone.
  - exists w. simpl. unfold ret. rewrite Nat.add_0_r.
    split; [reflexivity|]. split; [exact Hcl|]. split; [|intros; lia].
    intros j [Hj|[env []]]. rewrite <- Hcl. now apply Hdone.
  - inversion Hrev as [|t l [Hcm [i [Hi [Hc Hs]]]] Hrest]; subst.
    destruct (find (has_id i) (contents (view w))) as [c|] eqn:Ec; [|now elim Hc].
    destruct (find (status_for i) (statuses (view w))) as [cur|] eqn:Es;
      [|now elim Hs].
    pose proof (@update_found (fst target) i (batch_status a) (Some user) (Some notes)
                  w c cur Ec Es) as E.
    rewrite Hcm in E.
    rewrite for_each_cons. unfold batch_one at 1, try_except, py_int.
    rewrite Hi. erewrite bind_step by reflexivity.
    erewrite bind_step by exact E. unfold ret at 1.
    match goal with |- context [for_each _ targets _ ?w1] => set (w1' := w1) end.
    assert (Hv : view w1' = tables_after_update (fst target) i (batch_status a)
                              (Some user) (Some notes) (ms_status cur) (view w))
      by reflexivity.
    destruct (IH (n + 1) w1' (i :: done)) as [w' [E' [Hc' [Hd' Hn']]]].
    + reflexivity.
    + eapply Forall_impl; [|exact Hrest].
      intros t [Hcm' [j [Hj Hm]]]. split; [exact Hcm'|].
      exists j. split; [exact Hj|]. rewrite Hv. now apply moderated_after.
    + intros j Hj. rewrite Hv.
      assert (Hmj : moderated j (view w)).
      { destruct Hj as [<-|Hj]; [|now apply Hdone].
        split; [rewrite Ec | rewrite Es]; discriminate. }
      split; [now apply moderated_after|].
      destruct (Nat.eq_dec i j) as [->|Hij].
      * now apply disposition_after with cur.
      * rewrite disposition_other by exact Hij.
        destruct Hj as [Hj|Hj]; [now elim Hij | now apply Hdone].
    + exists w'. rewrite E'. split; [f_equal; f_equal; simpl; lia|].
      split; [exact Hc'|]. split.
      * intros j [Hj|[env [Hj|Hj]]].
        -- apply Hd'. left. now right.
        -- apply Hd'. left. left. rewrite Hj in Hi. simpl in Hi. now injection Hi.
        -- apply Hd'. right. now exists env.
      * intros s Hne. eapply Nat.le_trans; [apply Hn'; exact Hne|].
        change (stored w1') with (view w1'). rewrite Hv, <- Hcl.
        now apply status_count_update.
Qed.

(** X16.  The status a batch action stores is the action name followed by
    the letter d.  When every selected id has its rows and the database
    commits every call, [batch_action] counts every id as a success and
    leaves every selected item with that status: for the action [approve]
    the disposition is [approved], and for the action [reject] it is
    [rejectd], which is not the [rejected] the single update and the
    dashboard counters use; so a batch rejection never raises the number of
    rejected items the dashboard counts. *)
Theorem batch_action_statuses (a : string) (notes : option text)
    (targets : list (Env * option nat)) (user : nat) (w : World) :
  targets <> [] ->
  a = "approve"%string \/ a = "reject"%string ->
  clean w ->
  Forall (reviewable (view w)) targets ->
  exists w',
    batch_action (Some a) notes targets user w
    = (Ok (Successfully a (List.length targets) (List.length targets)), w') /\
    (forall env i, In (env, Some i) targets ->
       disposition i (stored w') = Some (batch_status a)) /\
    (a = "approve"%string -> batch_status a = "approved"%string) /\
    (a = "reject"%string ->
     batch_status a = "rejectd"%string /\
     (forall env i, In (env, Some i) targets ->
        disposition i (stored w') <> Some "rejected"%string) /\
     status_count "rejected" (stored w') <= status_count "rejected" (stored w)).
Proof.
  intros Hne Ha Hcl Hrev.
  destruct (@batch_status_loop a
              match notes with Some n => n | None => str "Batch action" end
              user targets 0 w [] Hcl Hrev) as [w' [E [_ [Hd Hn]]]].
  { intros j []. }
  exists w'. split.
  - unfold batch_action, try_except.
    destruct targets as [|t l]; [now elim Hne|].
    assert (Ei : invalid_action (Some a) = false)
      by (destruct Ha as [->| ->]; reflexivity).
    rewrite Ei. erewrite bind_step by exact E. reflexivity.
  - split; [|split].
    + intros env i Hin. apply Hd. right. now exists env.
    + intros ->. reflexivity.
    + intros ->. split; [reflexivity|]. split.
      * intros env i Hin. rewrite (Hd i); [discriminate|]. right. now exists env.
      * apply Hn. discriminate.
Qed.

(** X16 on the instance: item 1 is rejected in a batch. *)
Lemma batch_action_statuses_witness :
  [(Demo.env, Some 1)] <> [] /\
  clean Demo.world /\
  Forall (reviewable (view Demo.world)) [(Demo.env, Some 1)] /\
  exists w',
    batch_action (Some "reject"%string) None [(Demo.env, Some 1)] 7 Demo.world
    = (Ok (Successfully "reject" 1 1), w') /\
    disposition 1 (stored w') = Some "rejectd"%string.
Proof.
  assert (H1 : [(Demo.env, Some 1)] <> []) by discriminate.
  assert (H2 : clean Demo.world) by reflexivity.
  assert (H3 : Forall (reviewable (view Demo.world)) [(Demo.env, Some 1)]).
  { constructor; [|constructor]. split; [reflexivity|].
    exists 1. split; [reflexivity|]. split; discriminate. }
  split; [exact H1|]. split; [exact H2|]. split; [exact H3|].
  destruct (@batch_action_statuses "reject"%string None [(Demo.env, Some 1)] 7
              Demo.world H1 (or_intror eq_refl) H2 H3) as [w' [E [Hd _]]].
  exists w'. split; [exact E|].
  apply (Hd Demo.env 1). now left.
Defined.

(** ** The daily metrics: what is counted *)

Lemma total_set (d : dict nat) (k : string) (v : nat) :
  total (dict_set d k v) + match dict_get d k with Some n => n | None => 0 end
  = total d + v.
Proof.
  unfold total. induction d as [|[k' n'] d IH]; simpl; [lia|].
  destruct (String.eqb k k'); simpl; lia.
Qed.

Lemma count_by_loop (names : list string) : forall counts : dict nat,
  NoDup (keys counts) ->
  let h := fold_left
             (fun counts name =>
                match dict_get counts name with
                | Some n => dict_set counts name (n + 1)
                | None => dict_set counts name 1
                end) names counts in
  NoDup (keys h) /\
  (forall name,
     dict_get h name = match dict_get counts name with
                       | Some n => Some (n + occurrences name names)
                       | None => counted (occurrences name names)
                       end) /\
  total h = total counts + List.length names.
Proof.
  induction names as [|x names IH]; intros counts Hnd.
  - simpl. split; [exact Hnd|]. split; [|lia].
    intros name. destruct (dict_get counts name); [now rewrite Nat.add_0_r | reflexivity].
  - cbn zeta. cbn [fold_left].
    set (counts' := match dict_get counts x with
                    | Some n => dict_set counts x (n + 1)
                    | None => dict_set counts x 1
                    end).
    assert (Hnd' : NoDup (keys counts'))
      by (unfold counts'; destruct (dict_get counts x); now apply dict_set_NoDup).
    destruct (IH counts' Hnd') as [H1 [H2 H3]]. cbn zeta in H1, H2, H3.
    split; [exact H1|]. split.
    + intros name. rewrite H2. unfold occurrences. cbn [filter].
      assert (Eg : dict_get counts' name
                   = if String.eqb name x
                     then Some match dict_get counts x with
                               | Some n => n + 1
                               | None => 1
                               end
                     else dict_get counts name).
      { unfold counts'. destruct (dict_get counts x); apply dict_get_set. }
      rewrite Eg. destruct (String.eqb name x) eqn:E.
      * apply String.eqb_eq in E. subst x.
        destruct (dict_get counts name); simpl; f_equal; lia.
      * reflexivity.
    + rewrite H3. simpl.
      pose proof (total_set counts x
                    match dict_get counts x with Some n => n + 1 | None => 1 end) as Ht.
      assert (Ec : counts' = dict_set counts x
                               match dict_get counts x with Some n => n + 1 | None => 1 end)
        by (unfold counts'; now destruct (dict_get counts x)).
      rewrite Ec. destruct (dict_get counts x); lia.
Qed.

Lemma occurrences_map {A} (g : A -> string) (name : string) (l : list A) :
  occurrences name (map g l)
  = List.length (filter (fun x => String.eqb name (g x)) l).
Proof.
  unfold occurrences. rewrite <- filter_map_swap. apply length_map.
Qed.

(** X17.  The two histograms of the daily job count what they say.  In the
    [flag_distribution] row, the entry of a flag type is the number of flags
    of that type created on the day, a type without such a flag has no
    entry, no type is listed twice, and the counts add up to the number of
    flags created on the day.  The same holds for the [status_distribution]
    row and the statuses updated on the day. *)
Theorem histograms_count_rows (today : Z) (t : Tables) :
  let todays_flags := filter (Metrics.created_on today) (flags t) in
  let todays_statuses := filter (Metrics.updated_on today) (statuses t) in
  (exists h,
     mm_metric_value (Metrics.flag_distribution_metric today t) = Histogram h /\
     NoDup (keys h) /\
     (forall name,
        dict_get h name
        = counted (List.length
                     (filter (fun f => String.eqb name (cf_flag_type f)) todays_flags))) /\
     total h = List.length todays_flags) /\
  (exists h,
     mm_metric_value (Metrics.status_distribution_metric today t) = Histogram h /\
     NoDup (keys h) /\
     (forall name,
        dict_get h name
        = counted (List.length
                     (filter (fun s => String.eqb name (ms_status s)) todays_statuses))) /\
     total h = List.length todays_statuses).
Proof.
  intros todays_flags todays_statuses. split.
  - exists (Metrics.count_by (map cf_flag_type todays_flags)).
    split; [reflexivity|].
    destruct (@count_by_loop (map cf_flag_type todays_flags) [] (NoDup_nil _))
      as [H1 [H2 H3]].
    split; [exact H1|]. split.
    + intros name. unfold Metrics.count_by. rewrite H2. simpl.
      now rewrite occurrences_map.
    + unfold Metrics.count_by. rewrite H3. simpl. apply length_map.
  - exists (Metrics.count_by (map ms_status todays_statuses)).
    split; [reflexivity|].
    destruct (@count_by_loop (map ms_status todays_statuses) [] (NoDup_nil _))
      as [H1 [H2 H3]].
    split; [exact H1|]. split.
    + intros name. unfold Metrics.count_by. rewrite H2. simpl.
      now rewrite occurrences_map.
    + unfold Metrics.count_by. rewrite H3. simpl. apply length_map.
Qed.

Lemma between_day (x today : Z) :
  Metrics.between x (Metrics.start_of_day today) (Metrics.end_of_day today) = true
  <-> Metrics.date_of x = today.
Proof.
  unfold Metrics.between, Metrics.start_of_day, Metrics.end_of_day, Metrics.date_of.
  assert (Hd : (0 < Metrics.day)%Z) by reflexivity.
  rewrite andb_true_iff, !Z.leb_le. split.
  - intros [H1 H2]. symmetry.
    apply Z.div_unique with (x - today * Metrics.day)%Z; lia.
  - intros <-.
    pose proof (Z.div_mod x Metrics.day) as Hx.
    pose proof (Z.mod_pos_bound x Metrics.day Hd) as Hm. lia.
Qed.

(** X18.  The window of a day is the day: a status row is counted for
    [today] exactly when the date of its last update is [today], and a flag
    exactly when the date of its creation is [today]; so every row belongs
    to the window of one day only. *)
Theorem day_window_is_date (today : Z) :
  (forall s, Metrics.updated_on today s = true
             <-> Metrics.date_of (ms_last_updated s) = today) /\
  (forall f, Metrics.created_on today f = true
             <-> Metrics.date_of (cf_created_at f) = today) /\
  (forall s other, Metrics.updated_on today s = true ->
                   Metrics.updated_on other s = true -> other = today).
Proof.
  split; [|split].
  - intros s. apply between_day.
  - intros f. apply between_day.
  - intros s other H1 H2. apply between_day in H1, H2. congruence.
Qed.

Lemma existing_types_insert (today : Z) (t : Tables) (r : Processed) :
  Metrics.existing_types_on today (insert_processed t r)
  = Metrics.existing_types_on today t.
Proof. reflexivity. Qed.

(** X19.  An item is counted by the daily job of the day it was processed.
    When [process_content] succeeds and [generate_daily_metrics] runs later
    on the same date and commits, no [daily_processed] row existing yet for
    that date, the row the job stores counts the statuses that were updated
    on that date before the call, plus one for the new item. *)
Theorem processed_item_is_counted (env : Env) (clf : ContentClassifier)
    (content_text : option text) (ctype : string) (uid : option nat)
    (md : option Metadata) (w : World) (r : Processed) (w1 : World) (env2 : Env) :
  process_content env clf content_text ctype uid md w = (Ok (Some r), w1) ->
  Metrics.date_of (env_now env2) = Metrics.date_of (env_now env) ->
  env_commit env2 = true ->
  let today := Metrics.date_of (env_now env2) in
  ~ In "daily_processed"%string (Metrics.existing_types_on today (view w)) ->
  In {| mm_metric_date := today;
        mm_metric_type := "daily_processed";
        mm_metric_value :=
          DailyCount
            (S (List.length (filter (Metrics.updated_on today) (statuses (view w)))))
            today |}
     (metrics (stored (snd (Metrics.generate_daily_metrics env2 w1)))).
Proof.
  intros H Hd Hcm today Hnew.
  destruct (process_content_step env clf content_text ctype uid md w)
    as [o [w1' [E Ho]]].
  rewrite H in E. injection E as <- <-.
  destruct Ho as [Hb [Hst Hvw]].
  destruct (process_content_record _ _ _ _ _ _ _ Hb)
    as [s [i [_ [_ [_ [_ [Hlu _]]]]]]].
  destruct (generate_daily_metrics_spec env2 w1) as [w2 [E2 H2]].
  rewrite Hcm in E2, H2. rewrite E2. cbn [snd]. destruct H2 as [H2 _].
  fold today in H2. rewrite H2. cbn [with_metrics metrics].
  apply in_or_app. right.
  rewrite Hvw, Hst. unfold new_metrics. rewrite existing_types_insert.
  apply not_in_true in Hnew. rewrite Hnew.
  apply in_or_app. left. left.
  unfold Metrics.daily_processed_metric. f_equal. f_equal.
  cbn [insert_processed statuses]. rewrite filter_app. cbn [filter].
  assert (Eu : Metrics.updated_on today (pr_status r) = true).
  { apply between_day. rewrite Hlu. symmetry. exact Hd. }
  rewrite Eu, length_app. simpl. lia.
Qed.

(** X19 on the instance: the item is processed at noon and the job runs a
    second later; item 1 was updated the same day. *)
Lemma processed_item_is_counted_witness :
  exists r w1,
    process_content Demo.env Demo.clf (Some (str "You are 2 kind")) "text"
      (Some 5) None Demo.world = (Ok (Some r), w1) /\
    Metrics.date_of (env_now Demo.env_later) = Metrics.date_of (env_now Demo.env) /\
    env_commit Demo.env_later = true /\
    In {| mm_metric_date := 20000;
          mm_metric_type := "daily_processed";
          mm_metric_value := DailyCount 2 20000 |}
       (metrics (stored (snd (Metrics.generate_daily_metrics Demo.env_later w1)))).
Proof.
  destruct demo_processed as [r [w1 E]]. exists r, w1.
  assert (H1 : Metrics.date_of (env_now Demo.env_later)
               = Metrics.date_of (env_now Demo.env)) by reflexivity.
  assert (H2 : env_commit Demo.env_later = true) by reflexivity.
  split; [exact E|]. split; [exact H1|]. split; [exact H2|].
  exact (@processed_item_is_counted _ _ _ _ _ _ _ _ _ Demo.env_later E H1 H2
           (fun H => match H with end)).
Defined.

(** X20.  A run of the daily job that the database refuses can be retried.
    From a session without pending changes the refused run returns failure,
    logs the error and leaves the committed tables and the session as they
    were, so a later run that commits stores exactly what it would have
    stored had the refused run not taken place. *)
Theorem daily_metrics_retry (env1 env2 : Env) (w : World) :
  clean w ->
  env_commit env1 = false ->
  let failed := Metrics.generate_daily_metrics env1 w in
  fst failed = Ok false /\
  stored (snd failed) = stored w /\
  clean (snd failed) /\
  stored (snd (Metrics.generate_daily_metrics env2 (snd failed)))
  = stored (snd (Metrics.generate_daily_metrics env2 w)).
Proof.
  intros Hcl Hcm failed. unfold failed.
  destruct (generate_daily_metrics_spec env1 w) as [w1 [E1 H1]].
  rewrite Hcm in E1, H1. rewrite E1. cbn [fst snd]. destruct H1 as [Hs Hv].
  split; [reflexivity|]. split; [exact Hs|].
  split; [unfold clean; now rewrite Hv, Hs|].
  destruct (generate_daily_metrics_spec env2 w1) as [w2 [E2 H2]].
  destruct (generate_daily_metrics_spec env2 w) as [w3 [E3 H3]].
  rewrite E2, E3. cbn [snd].
  assert (Ev : view w1 = view w) by (rewrite Hv; symmetry; exact Hcl).
  destruct (env_commit env2).
  - destruct H2 as [-> _]. destruct H3 as [-> _]. now rewrite Ev.
  - destruct H2 as [-> _]. destruct H3 as [-> _]. exact Hs.
Qed.

(** X20 on the instance: the database is down for the first run. *)
Lemma daily_metrics_retry_witness :
  clean Demo.world /\ env_commit Demo.env_down = false /\
  fst (Metrics.generate_daily_metrics Demo.env_down Demo.world) = Ok false /\
  stored (snd (Metrics.generate_daily_metrics Demo.env_later
                 (snd (Metrics.generate_daily_metrics Demo.env_down Demo.world))))
  = stored (snd (Metrics.generate_daily_metrics Demo.env_later Demo.world)).
Proof.
  assert (H1 : clean Demo.world) by reflexivity.
  assert (H2 : env_commit Demo.env_down = false) by reflexivity.
  split; [exact H1|]. split; [exact H2|].
  pose proof (@daily_metrics_retry Demo.env_down Demo.env_later Demo.world H1 H2) as H.
  cbn zeta in H. destruct H as [Ha [_ [_ Hb]]].
  split; [exact Ha | exact Hb].
Defined.

(** ** Evaluation: the range of the figures *)

Lemma ratio_unit (a b : nat) :
  a <= b -> 0 < b ->
  (0 <= Q_of_nat a / Q_of_nat b)%Q /\ (Q_of_nat a / Q_of_nat b <= 1)%Q.
Proof.
  intros Hab Hb. unfold Q_of_nat.
  assert (Hb' : (0 < inject_Z (Z.of_nat b))%Q)
    by (rewrite <- (Zlt_Qlt 0); lia).
  assert (Ha' : (0 <= inject_Z (Z.of_nat a))%Q)
    by (rewrite <- (Zle_Qle 0); lia).
  assert (Hab' : (inject_Z (Z.of_nat a) <= inject_Z (Z.of_nat b))%Q)
    by (rewrite <- Zle_Qle; lia).
  split.
  - apply Qle_shift_div_l; [exact Hb'|]. now rewrite Qmult_0_l.
  - apply Qle_shift_div_r; [exact Hb'|]. now rewrite Qmult_1_l.
Qed.

Lemma guarded_ratio_unit (num den : nat) :
  num <= den -> (0 <= guarded_ratio num den)%Q /\ (guarded_ratio num den <= 1)%Q.
Proof.
  intros H. unfold guarded_ratio. destruct (0 <? den) eqn:E.
  - apply Nat.ltb_lt in E. now apply ratio_unit.
  - split; discriminate.
Qed.

Lemma count_pairs_le (test : Z -> Z -> bool) (predictions labels : list Z) :
  TrainModel.count_pairs test predictions labels <= List.length predictions.
Proof.
  unfold TrainModel.count_pairs.
  eapply Nat.le_trans; [apply filter_length_le|].
  rewrite length_combine. apply Nat.le_min_l.
Qed.

Lemma predict_loop_length (env : Env) (clf : ContentClassifier) (category : string)
    (texts : list text) : forall (predictions : list Z) (w : World),
  exists predictions' w',
    for_each (TrainModel.predict_one env clf category) texts predictions w
    = (Ok predictions', w') /\
    List.length predictions' = List.length predictions + List.length texts /\
    w_session w' = w_session w.
Proof.
  induction texts as [|t texts IH]; intros predictions w.
  - exists predictions, w. simpl. split; [reflexivity|]. split; [lia | reflexivity].
  - destruct (classify_text_spec env clf t w) as [d [w1 [E [Hs _]]]].
    match type of E with _ = (Ok ?d0, _) =>
      destruct (IH (predictions
                    ++ [if Qgeb match dict_get d0 category with
                                | Some s => s
                                | None => 0%Q
                                end (get_threshold clf category)
                        then 1%Z else 0%Z]) w1)
        as [p' [w' [E' [Hl Hs']]]]
    end.
    exists p', w'. rewrite for_each_cons. unfold TrainModel.predict_one at 1.
    erewrite bind_step by exact E. unfold ret at 1. rewrite E'.
    split; [reflexivity|]. split.
    + rewrite Hl, length_app. simpl. lia.
    + now rewrite Hs'.
Qed.

Lemma accuracy_unit (texts : list text) (predictions labels : list Z) (w : World)
    (ev : TrainModel.Evaluation) (w' : World) :
  List.length predictions = List.length texts ->
  TrainModel.compute_metrics texts predictions labels w = (Ok ev, w') ->
  (0 <= TrainModel.accuracy ev)%Q /\ (TrainModel.accuracy ev <= 1)%Q.
Proof.
  intros Hl H. unfold TrainModel.compute_metrics in H.
  apply bind_Ok in H. destruct H as [acc [w1 [E1 H]]].
  apply bind_Ok in H. destruct H as [p [w2 [_ H]]].
  apply bind_Ok in H. destruct H as [r [w3 [_ H]]].
  apply bind_Ok in H. destruct H as [f [w4 [_ H]]].
  injection H as <- _. cbn [TrainModel.accuracy].
  destruct texts as [|t texts].
  - injection E1 as <- _. split; discriminate.
  - rewrite py_div_nat in E1 by (simpl; lia). injection E1 as <- _.
    apply ratio_unit; [|simpl; lia].
    simpl in Hl. rewrite <- Hl. apply count_pairs_le.
Qed.

(** X21.  The four figures [evaluate_category] returns are proportions:
    accuracy, precision, recall and F1 each lie between 0 and 1, for every
    classifier, texts and labels (also when the labels are fewer or more
    than the texts, or are not 0 or 1).  The evaluation reads no table and
    writes none. *)
Theorem evaluate_category_unit_interval (env : Env) (clf : ContentClassifier)
    (category : string) (texts : list text) (labels : list Z) (w : World) :
  exists ev w',
    TrainModel.evaluate_category env clf category texts labels w = (Ok ev, w') /\
    (0 <= TrainModel.accuracy ev)%Q /\ (TrainModel.accuracy ev <= 1)%Q /\
    (0 <= TrainModel.precision ev)%Q /\ (TrainModel.precision ev <= 1)%Q /\
    (0 <= TrainModel.recall ev)%Q /\ (TrainModel.recall ev <= 1)%Q /\
    (0 <= TrainModel.f1_score ev)%Q /\ (TrainModel.f1_score ev <= 1)%Q /\
    w_session w' = w_session w.
Proof.
  destruct (predict_loop_length env clf category texts [] w)
    as [predictions [w' [Ep [Hl Hs]]]].
  destruct (compute_metrics_spec texts predictions labels w')
    as [ev [Ec [Hp [Hr Hf]]]].
  exists ev, w'.
  assert (E : TrainModel.evaluate_category env clf category texts labels w
              = (Ok ev, w')).
  { unfold TrainModel.evaluate_category, try_except,
      TrainModel.evaluate_category_body.
    erewrite bind_step by exact Ep. now rewrite Ec. }
  split; [exact E|].
  destruct (@accuracy_unit texts predictions labels w' ev w' Hl Ec) as [A1 A2].
  assert (P : (0 <= TrainModel.precision ev)%Q /\ (TrainModel.precision ev <= 1)%Q)
    by (rewrite Hp; apply guarded_ratio_unit; lia).
  assert (R : (0 <= TrainModel.recall ev)%Q /\ (TrainModel.recall ev <= 1)%Q)
    by (rewrite Hr; apply guarded_ratio_unit; lia).
  destruct P as [P1 P2]. destruct R as [R1 R2].
  repeat (split; [assumption|]).
  split; [|split; [|exact Hs]].
  - rewrite Hf. destruct (Qltb 0 (TrainModel.precision ev + TrainModel.recall ev)) eqn:Eq;
      [|discriminate].
    apply Qltb_lt in Eq. apply Qle_shift_div_l; [exact Eq|].
    rewrite Qmult_0_l. nra.
  - rewrite Hf. destruct (Qltb 0 (TrainModel.precision ev + TrainModel.recall ev)) eqn:Eq;
      [|discriminate].
    apply Qltb_lt in Eq. apply Qle_shift_div_r; [exact Eq|].
    rewrite Qmult_1_l. nra.
Qed.

(** ** The text handed to the classifier *)

Lemma outb_no_digit (c : ascii) : outb c = true -> is_digit c = false.
Proof. each_char c. Qed.

Lemma outb_blank (c : ascii) : outb c = true -> is_space c = true -> c = " "%char.
Proof. each_char c. Qed.

(** X22.  The text [preprocess_text] returns is in a normal form: it is a
    sequence of words (none empty, none holding whitespace) joined by single
    blanks, so it has no leading, trailing or doubled blank; it holds no
    digit; and every character is a letter, an underscore, a blank or one of
    the brackets of the tokens.  Collapsing its whitespace again changes
    nothing. *)
Theorem preprocess_text_normal_form (x : text) :
  ascii_text x ->
  let y := preprocess_text (Some x) in
  (exists ws, y = join (str " ") ws /\ Forall word_ok ws) /\
  Forall (fun c => is_digit c = false /\ outb c = true /\
                   (is_space c = true -> c = " "%char)) y /\
  collapse y = y.
Proof.
  intros _ y. unfold y. rewrite preprocess_text_Some.
  split; [|split].
  - unfold pipeline, collapse. eexists. split; [reflexivity|].
    apply split_from_words. constructor.
  - pose proof (pipeline_out x) as H.
    eapply Forall_impl; [|exact H].
    intros c Hc. split; [now apply outb_no_digit|].
    split; [exact Hc | now apply outb_blank].
  - apply pipeline_collapsed.
Qed.

(** X22 on a sentence with a link and a number. *)
Lemma preprocess_text_normal_form_witness :
  ascii_text (str "Visit  http://x.com 12 times!") /\
  collapse (preprocess_text (Some (str "Visit  http://x.com 12 times!")))
  = preprocess_text (Some (str "Visit  http://x.com 12 times!")).
Proof.
  assert (H : ascii_text (str "Visit  http://x.com 12 times!")) by reflexivity.
  split; [exact H|].
  exact (proj2 (proj2 (preprocess_text_normal_form H))).
Defined.

(** ** The dashboard series *)

















(** The series on the instance, for one day: the row of the day before the
    window of one day is read as well, so the known type has two points; the
    type the code does not name gets no placeholder, and the three other
    known types get no series. *)
Example demo_series :
  fst (get_moderation_metrics Demo.env Scenario.dice 1 Scenario.world_with_metrics)
  = Ok [("daily_processed"%string,
         [{| pt_date := 19999; pt_value := Payload (DailyCount 4 19999) |};
          {| pt_date := 20000; pt_value := CountOnly 0 |}]);
        ("queue_length"%string,
         [{| pt_date := 20000; pt_value := Payload (Average 3) |}])].
Proof. vm_compute. reflexivity. Qed.









(** ** The template filters *)

Lemma drop_while_split (p : ascii -> bool) (s : text) :
  exists run, s = run ++ drop_while p s /\ Forall (fun c => p c = true) run.
Proof.
  induction s as [|c s [run [E H]]]; simpl.
  - exists []. split; [reflexivity | constructor].
  - destruct (p c) eqn:Ec.
    + exists (c :: run). split; [simpl; now rewrite <- E | now constructor].
    + exists []. split; [reflexivity | constructor].
Qed.

Lemma drop_while_head (p : ascii -> bool) (s : text) (c : ascii) (rest : text) :
  drop_while p s = c :: rest -> p c = false.
Proof.
  induction s as [|x s IH]; simpl; [discriminate|].
  destruct (p x) eqn:E; [exact IH|]. intros H. now injection H as <- _.
Qed.

Lemma rstrip_spec (s : text) :
  (exists blanks, s = Filters.rstrip s ++ blanks /\
                  Forall (fun c => is_space c = true) blanks) /\
  (forall kept c, Filters.rstrip s = kept ++ [c] -> is_space c = false).
Proof.
  unfold Filters.rstrip. split.
  - destruct (drop_while_split is_space (rev s)) as [run [E H]].
    exists (rev run). split.
    + rewrite <- rev_app_distr, <- E. symmetry. apply rev_involutive.
    + apply Forall_forall. intros c Hc. apply in_rev in Hc.
      rewrite Forall_forall in H. now apply H.
  - intros kept c E.
    assert (E' : drop_while is_space (rev s) = c :: rev kept).
    { rewrite <- (rev_involutive (drop_while is_space (rev s))), E.
      rewrite rev_app_distr. reflexivity. }
    exact (drop_while_head _ _ E').
Qed.

(** X25.  [truncate_text] returns a text of at most [length] characters
    unchanged.  A longer text is cut: the result is a prefix of the text of
    at most [length] characters that does not end with whitespace, followed
    by the suffix; so the result can be longer than [length], by up to the
    length of the suffix, and never longer than that. *)
Theorem truncate_text_bound (s : text) (length : nat) (suffix : text) :
  let out := Filters.truncate_text (Some s) length suffix in
  (List.length s <= length -> out = s) /\
  (length < List.length s ->
   exists kept rest,
     out = kept ++ suffix /\ s = kept ++ rest /\
     List.length kept <= length /\
     (forall k c, kept = k ++ [c] -> is_space c = false)) /\
  List.length out <= Nat.max (List.length s) (length + List.length suffix).
Proof.
  intros out. unfold out, Filters.truncate_text.
  destruct s as [|c s]; [simpl; repeat split; try lia; intros H; inversion H|].
  destruct (List.length (c :: s) <=? length) eqn:E.
  - apply Nat.leb_le in E. split; [reflexivity|]. split; [lia | lia].
  - apply Nat.leb_gt in E.
    destruct (rstrip_spec (firstn length (c :: s))) as [[blanks [Eb Hb]] Hlast].
    assert (Hk : List.length (Filters.rstrip (firstn length (c :: s))) <= length).
    { assert (Hf : List.length (firstn length (c :: s)) <= length)
        by (rewrite length_firstn; lia).
      rewrite Eb in Hf at 1. rewrite length_app in Hf. lia. }
    split; [lia|]. split.
    + intros _. exists (Filters.rstrip (firstn length (c :: s))),
                       (blanks ++ skipn length (c :: s)).
      split; [reflexivity|]. split.
      * rewrite app_assoc, <- Eb. symmetry. apply firstn_skipn.
      * split; [exact Hk | exact Hlast].
    + rewrite length_app. lia.
Qed.

(** X25 on a text of twelve characters cut at six. *)
Lemma truncate_text_bound_witness :
  6 < List.length (str "hello world!") /\
  Filters.truncate_text (Some (str "hello world!")) 6 (str "...") = str "hello...".
Proof.
  assert (H : 6 < List.length (str "hello world!")) by (simpl; lia).
  split; [exact H|].
  destruct (proj1 (proj2 (truncate_text_bound (str "hello world!") 6 (str "..."))) H)
    as [kept [rest [E _]]].
  reflexivity.
Defined.

Lemma capitalize_snoc (cur : text) (c : ascii) :
  Filters.capitalize (cur ++ [c])
  = Filters.capitalize cur
    ++ [match cur with [] => upper_char c | _ => lower_char c end].
Proof.
  destruct cur as [|x cur]; [reflexivity|].
  simpl. unfold lower. now rewrite map_app.
Qed.

Lemma split_on_not_nil (sep : ascii) (s : text) : forall cur,
  Filters.split_on sep cur s <> [].
Proof.
  induction s as [|c s IH]; intros cur; simpl; [discriminate|].
  destruct (Ascii.eqb c sep); [discriminate | apply IH].
Qed.

Lemma join_cons (sep w : text) (ws : list text) :
  ws <> [] -> join sep (w :: ws) = w ++ sep ++ join sep ws.
Proof. destruct ws; [intros H; now elim H | reflexivity]. Qed.

Lemma format_pieces (s : text) : forall cur,
  join (str " ") (map Filters.capitalize (Filters.split_on "_" cur s))
  = Filters.capitalize cur
    ++ title_case (match cur with [] => true | _ => false end) s.
Proof.
  induction s as [|c s IH]; intros cur.
  - simpl. now rewrite app_nil_r.
  - cbn [Filters.split_on title_case].
    destruct (Ascii.eqb c "_").
    + cbn [map]. rewrite join_cons.
      * rewrite IH. reflexivity.
      * intros H. apply map_eq_nil in H. now apply split_on_not_nil in H.
    + rewrite IH, capitalize_snoc, <- app_assoc.
      destruct cur; reflexivity.
Qed.

Lemma title_case_length (s : text) : forall start,
  List.length (title_case start s) = List.length s.
Proof.
  induction s as [|c s IH]; intros start; simpl; [reflexivity|].
  destruct (Ascii.eqb c "_"); simpl; now rewrite IH.
Qed.

Lemma upper_not_underscore (c : ascii) :
  Ascii.eqb c "_" = false -> upper_char c <> "_"%char /\ lower_char c <> "_"%char.
Proof. each_char c; split; discriminate. Qed.

Lemma title_case_no_underscore (s : text) : forall start,
  ~ In "_"%char (title_case start s).
Proof.
  induction s as [|c s IH]; intros start; simpl; [tauto|].
  destruct (Ascii.eqb c "_") eqn:E; simpl.
  - intros [H|H]; [discriminate H | exact (IH _ H)].
  - destruct (upper_not_underscore c E) as [Hu Hl].
    intros [H|H]; [|exact (IH _ H)].
    destruct start; [now apply Hu | now apply Hl].
Qed.

(** X26.  [format_flag_type] rewrites a flag type character by character:
    every underscore becomes a blank, the first character of each piece is
    put in upper case and the others in lower case.  The displayed name has
    the length of the flag type and holds no underscore. *)
Theorem format_flag_type_shape (s : text) :
  Filters.format_flag_type (Some s) = title_case true s /\
  List.length (Filters.format_flag_type (Some s)) = List.length s /\
  ~ In "_"%char (Filters.format_flag_type (Some s)).
Proof.
  assert (E : Filters.format_flag_type (Some s) = title_case true s).
  { destruct s as [|c s]; [reflexivity|].
    unfold Filters.format_flag_type. now rewrite format_pieces. }
  rewrite E. split; [reflexivity|].
  split; [apply title_case_length | apply title_case_no_underscore].
Qed.

(** The names of the five categories as they are displayed. *)
Example demo_format_flag_type :
  map (fun c => Filters.format_flag_type (Some (str c))) default_categories
  = [str "Profanity"; str "Hate Speech"; str "Violence"; str "Sexual Content";
     str "Harassment"].
Proof. reflexivity. Qed.

Lemma Qgeb_ge (a b : Q) : Qgeb a b = true <-> (b <= a)%Q.
Proof.
  unfold Qgeb. rewrite negb_true_iff. apply Qltb_ge.
Qed.

(** X27.  The colours the templates give to what [process_content] stores.
    The disposition of a successful call always has its own colour: success
    for approved, warning for pending, danger for rejected, never the
    fallback colours.  Every flag of the call is shown in the info, warning
    or danger colour, never in the success colour, since a flag is created
    only above 0.3.  The status [rejectd] that a batch rejection stores has
    no colour of its own and falls to the info colour. *)
Theorem colours_of_outcomes (env : Env) (clf : ContentClassifier)
    (content_text : option text) (ctype : string) (uid : option nat)
    (md : option Metadata) (w : World) (r : Processed) (w' : World) :
  process_content env clf content_text ctype uid md w = (Ok (Some r), w') ->
  let status := ms_status (pr_status r) in
  ((status = "approved" /\ Filters.status_color (Some status) = "text-success") \/
   (status = "pending" /\ Filters.status_color (Some status) = "text-warning") \/
   (status = "rejected" /\ Filters.status_color (Some status) = "text-danger"))%string /\
  Forall (fun f =>
            Filters.flag_color (Some (cf_flag_score f)) = "text-info"%string \/
            Filters.flag_color (Some (cf_flag_score f)) = "text-warning"%string \/
            Filters.flag_color (Some (cf_flag_score f)) = "text-danger"%string)
         (pr_flags r) /\
  Filters.status_color (Some (batch_status "reject")) = "text-info"%string.
Proof.
  intros H status.
  destruct (process_content_facts _ _ _ _ _ _ _ H)
    as [cls [_ [_ [_ [Hst [Hfl _]]]]]].
  split; [|split; [|reflexivity]].
  - unfold status. rewrite Hst. unfold initial_status.
    destruct (Qltb (8 # 10) (overall_score cls)); [right; right; split; reflexivity|].
    destruct (Qltb (overall_score cls) (3 # 10));
      [left; split; reflexivity | right; left; split; reflexivity].
  - apply Forall_forall. intros f Hin.
    assert (Hf : In (flag_entry f) (filter reported cls))
      by (rewrite <- Hfl; now apply in_map).
    apply filter_In in Hf. destruct Hf as [_ Hr].
    unfold reported in Hr. simpl in Hr. apply Qltb_lt in Hr.
    unfold Filters.flag_color.
    destruct (Qgeb (cf_flag_score f) (8 # 10)); [right; right; reflexivity|].
    destruct (Qgeb (cf_flag_score f) (5 # 10)); [right; left; reflexivity|].
    assert (E : Qgeb (cf_flag_score f) (3 # 10) = true)
      by (apply Qgeb_ge; now apply Qlt_le_weak).
    rewrite E. left. reflexivity.
Qed.

(** X27 on the instance. *)
Lemma colours_of_outcomes_witness :
  exists r w',
    process_content Demo.env Demo.clf (Some (str "You are 2 kind")) "text"
      (Some 5) None Demo.world = (Ok (Some r), w') /\
    Forall (fun f =>
              Filters.flag_color (Some (cf_flag_score f)) = "text-info"%string \/
              Filters.flag_color (Some (cf_flag_score f)) = "text-warning"%string \/
              Filters.flag_color (Some (cf_flag_score f)) = "text-danger"%string)
           (pr_flags r).
Proof.
  destruct demo_processed as [r [w' E]]. exists r, w'.
  split; [exact E|].
  pose proof (colours_of_outcomes _ _ _ _ _ _ _ E) as H. cbn zeta in H.
  exact (proj1 (proj2 H)).
Defined.

(** ** [update_status]: the outcomes of the form handler *)

(** X28.  The form handler [update_status] always ends with one of three
    flash messages and never in its exception handler.  [Invalid status
    provided], when the status is missing or is neither approved nor
    rejected: nothing is read or written.  [Failed to update status], when
    the content id lacks its Content or ModerationStatus row or the database
    refuses the commit: the committed tables are unchanged.  [Content has
    been ...] in every other case, and then the disposition stored for the
    item is the status of the form and one ModerationAction row was added. *)
Theorem update_status_outcomes (env : Env) (id : nat) (status : option string)
    (notes : option text) (user : nat) (w : World) :
  exists flash w',
    Admin.update_status env id status notes user w = (Ok flash, w') /\
    ((flash = Admin.InvalidStatusProvided /\
      Admin.invalid_status status = true /\ w' = w)
     \/
     (flash = Admin.FailedToUpdateStatus /\
      Admin.invalid_status status = false /\
      stored w' = stored w /\
      (~ moderated id (view w) \/ env_commit env = false))
     \/
     (exists s,
        status = Some s /\ flash = Admin.ContentHasBeen s /\
        (s = "approved"%string \/ s = "rejected"%string) /\
        moderated id (view w) /\ env_commit env = true /\
        disposition id (stored w') = Some s /\
        List.length (actions (stored w')) = S (List.length (actions (view w))))).
Proof.
  unfold Admin.update_status, try_except.
  destruct status as [s|].
  2:{ eexists. eexists. split; [reflexivity|]. left. auto. }
  destruct (Admin.invalid_status (Some s)) eqn:Ei.
  { eexists. eexists. split; [reflexivity|]. left. auto. }
  assert (Hs : s = "approved"%string \/ s = "rejected"%string).
  { unfold Admin.invalid_status in Ei. apply negb_false_iff in Ei.
    apply orb_true_iff in Ei. destruct Ei as [Ei|Ei]; apply String.eqb_eq in Ei; auto. }
  set (n := match notes with Some n => n | None => [] end).
  destruct (find (has_id id) (contents (view w))) as [c|] eqn:Ec.
  2:{ erewrite bind_step
        by exact (@update_no_content env id s (Some user) (Some n) w Ec).
      eexists. eexists. split; [reflexivity|]. right. left.
      repeat split. left. intros [Hc _]. now apply Hc. }
  destruct (find (status_for id) (statuses (view w))) as [cur|] eqn:Es.
  2:{ erewrite bind_step
        by exact (@update_no_status env id s (Some user) (Some n) w c Ec Es).
      eexists. eexists. split; [reflexivity|]. right. left.
      repeat split. left. intros [_ Hst]. now apply Hst. }
  pose proof (@update_found env id s (Some user) (Some n) w c cur Ec Es) as E.
  destruct (env_commit env) eqn:Ecm.
  - erewrite bind_step by exact E.
    eexists. eexists. split; [reflexivity|]. right. right. exists s.
    split; [reflexivity|]. split; [reflexivity|]. split; [exact Hs|].
    split; [split; [rewrite Ec | rewrite Es]; discriminate|].
    split; [reflexivity|]. unfold stored. simpl. split.
    + now apply disposition_after with cur.
    + rewrite length_app. simpl. lia.
  - erewrite bind_step by exact E.
    eexists. eexists. split; [reflexivity|]. right. left.
    repeat split. now right.
Qed.

(** ** Content that is not text *)

Lemma for_each_draws {A B} (f : B -> A -> M B) :
  (forall acc x wa wb, w_draws wa = w_draws wb ->
     fst (f acc x wa) = fst (f acc x wb) /\
     w_draws (snd (f acc x wa)) = w_draws (snd (f acc x wb))) ->
  forall xs acc wa wb, w_draws wa = w_draws wb ->
     fst (for_each f xs acc wa) = fst (for_each f xs acc wb) /\
     w_draws (snd (for_each f xs acc wa)) = w_draws (snd (for_each f xs acc wb)).
Proof.
  intros Hf. induction xs as [|x xs IH]; intros acc wa wb Hd.
  - simpl. auto.
  - rewrite !for_each_cons. destruct (Hf acc x wa wb Hd) as [H1 H2].
    destruct (f acc x wa) as [[a1|e1] wa1], (f acc x wb) as [[a2|e2] wb1];
      simpl in H1, H2; try discriminate H1.
    + injection H1 as <-. now apply IH.
    + injection H1 as <-. simpl. auto.
Qed.

Lemma random_draws (env : Env) (d : dict Q) (c : string) (wa wb : World) :
  w_draws wa = w_draws wb ->
  fst (bind (random_uniform env (1 # 10) (9 # 10))
         (fun s => ret (dict_set d c s)) wa)
  = fst (bind (random_uniform env (1 # 10) (9 # 10))
           (fun s => ret (dict_set d c s)) wb) /\
  w_draws (snd (bind (random_uniform env (1 # 10) (9 # 10))
                  (fun s => ret (dict_set d c s)) wa))
  = w_draws (snd (bind (random_uniform env (1 # 10) (9 # 10))
                    (fun s => ret (dict_set d c s)) wb)).
Proof. intros H. unfold bind, random_uniform, ret. simpl. now rewrite H. Qed.

Lemma classify_text_draws (env : Env) (clf : ContentClassifier) (t : text)
    (wa wb : World) :
  w_draws wa = w_draws wb ->
  fst (classify_text env clf t wa) = fst (classify_text env clf t wb) /\
  w_draws (snd (classify_text env clf t wa))
  = w_draws (snd (classify_text env clf t wb)).
Proof.
  intros Hd. unfold classify_text, generate_random_classification.
  destruct (dict_empty (models clf) || dict_empty (vectorizers clf)).
  - apply for_each_draws; [|exact Hd]. intros acc x w1 w2. apply random_draws.
  - apply for_each_draws; [|exact Hd]. intros acc x w1 w2 H.
    unfold classify_category, try_except.
    destruct (can_transform clf x).
    + unfold bind at 1 4, lift. destruct (model_score clf x t) as [p|e].
      * unfold ret. simpl. auto.
      * unfold bind at 1 3, log_error. cbn beta iota. apply random_draws. exact H.
    + destruct (random_draws env acc x w1 w2 H) as [H1 H2].
      unfold bind, random_uniform, ret in *. simpl in *. auto.
Qed.

(** X29.  For every content type other than text the verdict of
    [process_content] does not depend on the submitted content: the text
    given to the classifier is the placeholder built from the content type
    and the file name.  So two submissions of the same type and metadata,
    made from the same state and both stored, receive the same score, the
    same disposition and flags of the same types and scores, whatever their
    content; this holds for a type the code does not know as for image and
    video. *)
Theorem verdict_ignores_content (env : Env) (clf : ContentClassifier)
    (content1 content2 : option text) (ctype : string) (uid1 uid2 : option nat)
    (md : option Metadata) (w : World) (r1 r2 : Processed) (w1 w2 : World) :
  String.eqb ctype "text" = false ->
  process_content env clf content1 ctype uid1 md w = (Ok (Some r1), w1) ->
  process_content env clf content2 ctype uid2 md w = (Ok (Some r2), w2) ->
  preprocessed ctype content1 md = media_placeholder ctype md /\
  ms_moderation_score (pr_status r1) = ms_moderation_score (pr_status r2) /\
  ms_status (pr_status r1) = ms_status (pr_status r2) /\
  map flag_entry (pr_flags r1) = map flag_entry (pr_flags r2).
Proof.
  intros Ht E1 E2.
  destruct (process_content_facts _ _ _ _ _ _ _ E1)
    as [cls1 [[wa1 [wb1 [Hd1 Ec1]]] [_ [Hsc1 [Hst1 [Hfl1 _]]]]]].
  destruct (process_content_facts _ _ _ _ _ _ _ E2)
    as [cls2 [[wa2 [wb2 [Hd2 Ec2]]] [_ [Hsc2 [Hst2 [Hfl2 _]]]]]].
  assert (Hp : forall c, preprocessed ctype c md = media_placeholder ctype md)
    by (intros c; unfold preprocessed; now rewrite Ht).
  rewrite Hp in Ec1, Ec2.
  assert (Hcls : cls1 = cls2).
  { assert (Hd : w_draws wa1 = w_draws wa2) by congruence.
    unfold classify_content in Ec1, Ec2. rewrite Ht in Ec1, Ec2.
    destruct (String.eqb ctype "image").
    - injection Ec1 as <- _. now injection Ec2 as <- _.
    - destruct (String.eqb ctype "video").
      + injection Ec1 as <- _. now injection Ec2 as <- _.
      + destruct (@classify_text_draws env clf (media_placeholder ctype md)
                    wa1 wa2 Hd) as [Hf _].
        rewrite Ec1, Ec2 in Hf. simpl in Hf. now injection Hf. }
  subst cls2.
  split; [apply Hp|]. split; [congruence|]. split; congruence.
Qed.

Lemma scenario_audio_processed (content : text) :
  exists r w',
    process_content Demo.env Demo.clf (Some content) "audio" (Some 5) None
      Demo.world = (Ok (Some r), w').
Proof.
  unfold process_content, try_except, process_content_body.
  vm_compute. eexists. eexists. reflexivity.
Defined.

(** X29 on the instance: two recordings, type audio. *)
Lemma verdict_ignores_content_witness :
  String.eqb "audio" "text" = false /\
  exists r1 w1 r2 w2,
    process_content Demo.env Demo.clf (Some (str "la la la")) "audio" (Some 5) None
      Demo.world = (Ok (Some r1), w1) /\
    process_content Demo.env Demo.clf (Some (str "I will hurt you")) "audio"
      (Some 5) None Demo.world = (Ok (Some r2), w2) /\
    ms_status (pr_status r1) = ms_status (pr_status r2) /\
    map flag_entry (pr_flags r1) = map flag_entry (pr_flags r2).
Proof.
  assert (H : String.eqb "audio" "text" = false) by reflexivity.
  split; [exact H|].
  destruct (scenario_audio_processed (str "la la la")) as [r1 [w1 E1]].
  destruct (scenario_audio_processed (str "I will hurt you")) as [r2 [w2 E2]].
  exists r1, w1, r2, w2. split; [exact E1|]. split; [exact E2|].
  destruct (@verdict_ignores_content _ _ _ _ _ _ _ _ _ _ _ _ _ H E1 E2)
    as [_ [_ [Hs Hf]]].
  split; [exact Hs | exact Hf].
Defined.

(** ** The second instance, evaluated *)

(** Three items, the second without content: two are processed, under the
    keys the database gives. *)
Example demo_batch_moderate :
  fst (batch_moderate
         (Some [(Demo.env, Scenario.submission (Some (Some (str "one"))));
                (Demo.env, Scenario.submission None);
                (Demo.env_later, Scenario.submission (Some (Some (str "three"))))])
         Demo.world)
  = Ok (BatchModerated 2
          [{| ir_content_id := Some 2; ir_status := "rejected";
              ir_moderation_score := 9 # 10;
              ir_flags := map (fun c => (c, 9 # 10)) default_categories |};
           {| ir_content_id := Some 3; ir_status := "rejected";
              ir_moderation_score := 9 # 10;
              ir_flags := map (fun c => (c, 9 # 10)) default_categories |}],
        200).
Proof. vm_compute. reflexivity. Qed.

(** An empty list of items and a [null] content are answered with 500. *)
Example demo_api_failures :
  fst (batch_moderate (Some []) Demo.world) = Ok (Failure FailedToProcessBatch, 500) /\
  fst (moderate_content Demo.env (Some (Scenario.submission (Some None))) Demo.world)
  = Ok (Failure FailedToProcessContent, 500) /\
  fst (moderate_content Demo.env (Some (Scenario.submission None)) Demo.world)
  = Ok (Failure MissingRequiredContentField, 400).
Proof. vm_compute. auto. Qed.

(** A batch rejection of item 1, of a value that is no number and of a key
    without rows: one success of three, and the dashboard counts no rejected
    item. *)
Example demo_batch_action :
  let out := batch_action (Some "reject"%string) None
               [(Demo.env, Some 1); (Demo.env, None); (Demo.env_later, Some 9)] 7
               Demo.world in
  fst out = Ok (Successfully "reject" 1 3) /\
  disposition 1 (stored (snd out)) = Some "rejectd"%string /\
  status_count "rejected" (stored (snd out)) = 0 /\
  w_log (snd out) = [ErrorInRoute OtherError; ContentNotFound 9].
Proof. vm_compute. auto. Qed.

(** The samples for two days, with the dice of the instance. *)
Example demo_samples :
  option_map (map pt_date)
    (match fst (get_moderation_metrics Demo.env Scenario.dice 2 Demo.world) with
     | Ok series => dict_get series "daily_processed"
     | Raise _ => None
     end)
  = Some [19999%Z; 20000%Z].
Proof. vm_compute. reflexivity. Qed.

(** The filters on some values. *)
Example demo_filters :
  Filters.status_color (Some "Approved"%string) = "text-success"%string /\
  Filters.status_color (Some "rejectd"%string) = "text-info"%string /\
  Filters.status_color None = "text-secondary"%string /\
  Filters.flag_color (Some (8 # 10)) = "text-danger"%string /\
  Filters.flag_color (Some 0%Q) = "text-success"%string /\
  Filters.flag_color None = "text-secondary"%string /\
  Filters.truncate_text (Some (str "hello world!")) 6 (str "...") = str "hello..." /\
  Filters.truncate_text (Some (str "hello")) 6 (str "...") = str "hello".
Proof. vm_compute. repeat split. Qed.
